(** * AI voice agent: the SignalWire / OpenAI realtime bridge

    A shallow embedding of [voice_agent/openai_client.py] and
    [voice_agent/signalwire_bridge.py], with [Settings.load] of
    [voice_agent/config.py] and the voice webhook of [voice_agent/api.py].
    The asynchronous methods become
    functions in a small state / error / output monad; the two forwarding
    loops of the bridge become a labelled step function on the state of one
    call, so that their interleavings can be quantified over. *)

From Stdlib Require Import String ZArith List Bool.
Import ListNotations.
Open Scope string_scope.
Open Scope list_scope.

(** ** Values produced by [json.loads] *)

#[local] Unset Elimination Schemes.
Inductive json : Type :=
| JNull                                  (* None *)
| JBool (b : bool)
| JNum (n : Z)
| JStr (s : string)
| JArr (items : list json)
| JObj (fields : list (string * json)).  (* a dict, keys in insertion order *)
#[local] Set Elimination Schemes.

(** Exceptions the modelled code can raise. *)
Inductive exn : Type :=
| RuntimeError (msg : string)
| AttributeError          (* [.get] on a value that is not a dict *)
| KeyError                (* [d[k]] on a dict without the key [k] *)
| TypeError               (* unhashable value tested against a set *)
| JSONDecodeError         (* [json.loads] on text that is not JSON *)
| ConnectionClosedError   (* the realtime connection was lost while reading *)
| HandshakeError.         (* [websockets.connect] could not open the connection *)

Inductive result (A : Type) : Type :=
| Ok (a : A)
| Raise (e : exn).
Arguments Ok {A} a.
Arguments Raise {A} e.

Module Py.

(** Truth value of an object, as tested by [if], [not] and [or]. *)
Definition truthy (j : json) : bool :=
  match j with
  | JNull => false
  | JBool b => b
  | JNum n => negb (n =? 0)%Z
  | JStr s => negb (s =? "")
  | JArr items => match items with [] => false | _ :: _ => true end
  | JObj fields => match fields with [] => false | _ :: _ => true end
  end.

(** [x or y] when both operands are already evaluated. *)
Definition or_ (x y : json) : json := if truthy x then x else y.

Fixpoint assoc (k : string) (fields : list (string * json)) : option json :=
  match fields with
  | [] => None
  | (k', v) :: rest => if k' =? k then Some v else assoc k rest
  end.

(** [d.get(k, default)] *)
Definition get_default (k : string) (default : json) (d : json) : result json :=
  match d with
  | JObj fields =>
      Ok (match assoc k fields with Some v => v | None => default end)
  | _ => Raise AttributeError
  end.

(** [d.get(k)] *)
Definition get (k : string) (d : json) : result json := get_default k JNull d.

(** [d[k]] for a dict [d]. *)
Definition getitem (k : string) (d : json) : result json :=
  match d with
  | JObj fields =>
      match assoc k fields with Some v => Ok v | None => Raise KeyError end
  | _ => Raise TypeError
  end.

(** [k in d] for a dict [d]; for a string or a list the operator means
    something else, which the bridge never reaches: it tests membership
    only after a successful [d.get]. *)
Definition contains (k : string) (d : json) : result bool :=
  match d with
  | JObj fields => Ok (match assoc k fields with Some _ => true | None => false end)
  | _ => Raise TypeError
  end.

(** [x == s] for a string literal [s]. *)
Definition eq_str (x : json) (s : string) : bool :=
  match x with
  | JStr t => t =? s
  | _ => false
  end.

(** [x in {s1, s2, ...}]: the set hashes [x] first, and lists and dicts
    are unhashable. *)
Definition in_str_set (x : json) (set : list string) : result bool :=
  match x with
  | JArr _ | JObj _ => Raise TypeError
  | _ => Ok (existsb (eq_str x) set)
  end.

End Py.

(** ** Text frames

    The characters of a frame are not modelled, only what [json.loads]
    makes of them. *)

Inductive text : Type :=
| Wellformed (value : json)
| Malformed.

Definition json_loads (t : text) : result json :=
  match t with
  | Wellformed value => Ok value
  | Malformed => Raise JSONDecodeError
  end.

(** What [websocket.receive_text()] gives the bridge. *)
Inductive sw_recv : Type :=
| Received (message : text)
| WebSocketDisconnect.

(** What the realtime connection gives to [async for message in ...]: a
    message, or the end of the connection (a normal closure ends the
    iteration, a lost connection raises). *)
Inductive ai_item : Type :=
| AiMessage (message : text)
| AiClosedOK
| AiClosedError.

(** ** The log of a run

    What the program does to its two peers, in the order it does it; the
    log also records each entry into [send_audio_chunk], so that calls can
    be told from the messages they send. *)

Inductive action : Type :=
| WsAccept                                 (* websocket.accept() *)
| WsSend (frame : json)                    (* websocket.send_text(json.dumps(frame)) *)
| AiConnect (url : string) (headers : list (string * string))
| AiSend (msg : json)                      (* connection.send(json.dumps(msg)) *)
| AiClose                                  (* connection.close() *)
| Invoke_send_audio_chunk (audio : json) (end_of_input : bool).
                                           (* entry of OpenAIRealtimeClient.send_audio_chunk *)

(** ** The monad of the asynchronous methods

    A computation reads and writes a state [S], may raise, and appends to
    the log of actions.  As in Python, a raised exception keeps the state
    changes and the actions made before it. *)

Definition M (S A : Type) : Type := S -> result A * S * list action.

Definition ret {S A} (a : A) : M S A := fun s => (Ok a, s, []).

Definition raise {S A} (e : exn) : M S A := fun s => (Raise e, s, []).

Definition bind {S A B} (m : M S A) (k : A -> M S B) : M S B :=
  fun s =>
    match m s with
    | (Ok a, s1, out1) =>
        match k a s1 with
        | (r, s2, out2) => (r, s2, out1 ++ out2)
        end
    | (Raise e, s1, out1) => (Raise e, s1, out1)
    end.

Definition emit {S} (a : action) : M S unit := fun s => (Ok tt, s, [a]).

Definition read {S} : M S S := fun s => (Ok s, s, []).

Definition write {S} (s : S) : M S unit := fun _ => (Ok tt, s, []).

Definition of_result {S A} (r : result A) : M S A := fun s => (r, s, []).

Declare Scope py_scope.
Delimit Scope py_scope with py.
Notation "x <- m ;; k" := (bind m (fun x => k))
  (at level 61, m at next level, right associativity) : py_scope.
Notation "m ;; k" := (bind m (fun _ => k))
  (at level 61, right associativity) : py_scope.
Open Scope py_scope.

(** ** config.py *)

Definition DEFAULT_REALTIME_MODEL : string := "gpt-4o-realtime-mini".
Definition DEFAULT_OPENAI_VOICE : string := "verse".

Record OpenAIConfig : Type := {
  api_key : string;
  model : string;
  voice : string;
  instructions : option string
}.

(** ** openai_client.py *)

Definition OPENAI_REALTIME_URL : string := "wss://api.openai.com/v1/realtime".

Definition not_connected : exn := RuntimeError "Realtime client not connected".

(** The websocket of the realtime service, as far as the client looks at
    it: its [closed] property, and the messages it has received and not
    yet handed to an iteration.  (The library bounds this queue and stops
    reading from the network when it is full; it never drops a message.) *)
Record connection : Type := {
  closed : bool;
  messages : list ai_item
}.

Definition fresh_connection : connection := {| closed := false; messages := [] |}.

Record OpenAIRealtimeClient : Type := {
  _config : OpenAIConfig;
  _connection : option connection
}.

Definition set_connection (k : option connection) (c : OpenAIRealtimeClient)
  : OpenAIRealtimeClient :=
  {| _config := _config c; _connection := k |}.

Definition new_client (cfg : OpenAIConfig) : OpenAIRealtimeClient :=
  {| _config := cfg; _connection := None |}.

Module Client.

Definition is_connected (c : OpenAIRealtimeClient) : bool :=
  match _connection c with
  | Some k => negb (closed k)
  | None => false
  end.

Definition send_json (payload : json) : M OpenAIRealtimeClient unit :=
  self <- read ;;
  if negb (is_connected self) then raise not_connected
  else emit (AiSend payload).

Definition session_update (cfg : OpenAIConfig) : json :=
  JObj [("type", JStr "session.update");
        ("session",
          JObj (("voice", JStr (voice cfg)) ::
                match instructions cfg with
                | Some text =>
                    if negb (text =? "") then [("instructions", JStr text)] else []
                | None => []
                end))].

(** The part of [connect] after the early return; [handshake] tells whether
    [websockets.connect] succeeds. *)
Definition open_connection (handshake : bool) : M OpenAIRealtimeClient connection :=
  self <- read ;;
  emit (AiConnect (OPENAI_REALTIME_URL ++ "?model=" ++ model (_config self))%string
          [("Authorization", ("Bearer " ++ api_key (_config self))%string);
           ("OpenAI-Beta", "realtime=v1")]) ;;
  (if handshake then ret tt else raise HandshakeError) ;;
  write (set_connection (Some fresh_connection) self) ;;
  send_json (session_update (_config self)) ;;
  ret fresh_connection.

Definition connect (handshake : bool) : M OpenAIRealtimeClient connection :=
  self <- read ;;
  match _connection self with
  | Some k => if negb (closed k) then ret k else open_connection handshake
  | None => open_connection handshake
  end.

Definition close : M OpenAIRealtimeClient unit :=
  self <- read ;;
  (match _connection self with
   | Some k => if negb (closed k) then emit AiClose else ret tt
   | None => ret tt
   end) ;;
  write (set_connection None self).

Definition append_message (audio_base64 : json) : json :=
  JObj [("type", JStr "input_audio_buffer.append"); ("audio", audio_base64)].

Definition commit_message : json :=
  JObj [("type", JStr "input_audio_buffer.commit")].

Definition response_create_message : json :=
  JObj [("type", JStr "response.create"); ("response", JObj [])].

Definition send_audio_chunk (audio_base64 : json) (end_of_input : bool)
  : M OpenAIRealtimeClient unit :=
  emit (Invoke_send_audio_chunk audio_base64 end_of_input) ;;
  send_json (append_message audio_base64) ;;
  if end_of_input then
    send_json commit_message ;;
    send_json response_create_message
  else ret tt.

(** The asynchronous generator [responses()]: [Fresh] until its first
    [__anext__], which runs the connection test; [Iterating] afterwards. *)
Inductive generator : Type := Fresh | Iterating.

(** What one [__anext__] gives: an event, the end of the sequence, or
    nothing yet (the generator is suspended on the connection). *)
Inductive anext : Type :=
| Yield (event : json)
| StopAsyncIteration
| Pending.

(** [async for message in self._connection: yield json.loads(message)],
    one message further.  The iteration runs on the connection object it
    was started on.  The model reads that object through the client, which
    holds it until [_connection] is bound anew: by [close()], or by a
    [connect()] that opens another connection.  Neither [run] nor
    [drain_until_finished] resumes an iteration after such a call, and no
    theorem below is about an iteration resumed after one.  (Such
    an iteration would go on with what the connection it keeps still
    holds; a client without connection stands here for a dropped
    connection that holds nothing more, on which the iteration is
    over.) *)
Definition next_message : M OpenAIRealtimeClient anext :=
  self <- read ;;
  match _connection self with
  | None => ret StopAsyncIteration
  | Some k =>
      match messages k with
      | [] => ret Pending
      | item :: rest =>
          write (set_connection (Some {| closed := closed k; messages := rest |}) self) ;;
          match item with
          | AiMessage message =>
              event <- of_result (json_loads message) ;;
              ret (Yield event)
          | AiClosedOK => ret StopAsyncIteration
          | AiClosedError => raise ConnectionClosedError
          end
      end
  end.

Definition responses (gen : generator) : M OpenAIRealtimeClient anext :=
  match gen with
  | Fresh =>
      self <- read ;;
      if negb (is_connected self) then raise not_connected
      else next_message
  | Iterating => next_message
  end.

End Client.

(** ** signalwire_bridge.py *)

Record SignalWireRealtimeBridge : Type := {
  _openai_client : OpenAIRealtimeClient;
  _stream_id : json;       (* Optional[str]: whatever the start frame carried *)
  _ready : bool            (* asyncio.Event: set or not *)
}.

Definition new_bridge (cfg : OpenAIConfig) : SignalWireRealtimeBridge :=
  {| _openai_client := new_client cfg; _stream_id := JNull; _ready := false |}.

Definition set_client (c : OpenAIRealtimeClient) (b : SignalWireRealtimeBridge)
  : SignalWireRealtimeBridge :=
  {| _openai_client := c; _stream_id := _stream_id b; _ready := _ready b |}.

Definition set_stream_id (v : json) (b : SignalWireRealtimeBridge)
  : SignalWireRealtimeBridge :=
  {| _openai_client := _openai_client b; _stream_id := v; _ready := _ready b |}.

Definition set_ready (b : SignalWireRealtimeBridge) : SignalWireRealtimeBridge :=
  {| _openai_client := _openai_client b; _stream_id := _stream_id b; _ready := true |}.

(** How an iteration of a loop leaves the loop body. *)
Inductive flow : Type := Continue | Break.

Module Bridge.

(** A method of [self._openai_client] called from the bridge. *)
Definition on_client {A} (m : M OpenAIRealtimeClient A) : M SignalWireRealtimeBridge A :=
  fun self =>
    match m (_openai_client self) with
    | (r, c, out) => (r, set_client c self, out)
    end.

(** [d.get(k1) or d.get(k2)] *)
Definition get_or (k1 k2 : string) (d : json) : result json :=
  match Py.get k1 d with
  | Ok v => if Py.truthy v then Ok v else Py.get k2 d
  | Raise e => Raise e
  end.

Definition ready_frame : json := JObj [("event", JStr "ready")].

Definition media_frame (stream_id audio_base64 : json) : json :=
  JObj [("event", JStr "media");
        ("streamId", stream_id);
        ("media", JObj [("payload", audio_base64)])].

Definition _send_signalwire (payload : json) : M SignalWireRealtimeBridge unit :=
  emit (WsSend payload).

Definition _on_start (payload : json) : M SignalWireRealtimeBridge unit :=
  stream_id <- of_result (get_or "streamId" "stream_id" payload) ;;
  if negb (Py.truthy stream_id) then ret tt
  else
    self <- read ;;
    write (set_stream_id stream_id self) ;;
    _send_signalwire ready_frame ;;
    self <- read ;;
    write (set_ready self).

Definition _on_media (payload : json) : M SignalWireRealtimeBridge unit :=
  present <- of_result (Py.contains "media" payload) ;;
  if negb present then ret tt
  else
    media <- of_result (Py.getitem "media" payload) ;;
    audio_payload <- of_result (Py.get "payload" media) ;;
    if negb (Py.truthy audio_payload) then ret tt
    else on_client (Client.send_audio_chunk audio_payload false).

(** One turn of the [while True] of [_receive_from_signalwire], given what
    [receive_text()] produced. *)
Definition receive_iteration (received : sw_recv) : M SignalWireRealtimeBridge flow :=
  match received with
  | WebSocketDisconnect => ret Break
  | Received message =>
      payload <- of_result (json_loads message) ;;
      event_type <- of_result (get_or "event" "type" payload) ;;
      if Py.eq_str event_type "start" then
        stream_id <- of_result (get_or "streamId" "stream_id" payload) ;;
        self <- read ;;
        write (set_stream_id stream_id self) ;;
        _on_start payload ;;
        ret Continue
      else if Py.eq_str event_type "media" then
        _on_media payload ;;
        ret Continue
      else
        skipped <- of_result (Py.in_str_set event_type ["mark"; "connected"]) ;;
        if skipped then ret Continue
        else
          final <- of_result (Py.in_str_set event_type ["stop"; "close"]) ;;
          if final then
            on_client (Client.send_json Client.commit_message) ;;
            on_client (Client.send_json Client.response_create_message) ;;
            ret Break
          else ret Continue
  end.

(** [_receive_from_signalwire], fed the frames [receive_text()] produces
    one after the other; [None] when the frames run out and the loop is
    left waiting for the next one. *)
Fixpoint _receive_from_signalwire (frames : list sw_recv)
  : M SignalWireRealtimeBridge (option unit) :=
  match frames with
  | [] => ret None
  | received :: rest =>
      ctl <- receive_iteration received ;;
      match ctl with
      | Continue => _receive_from_signalwire rest
      | Break => ret (Some tt)
      end
  end.

Definition _send_audio_to_signalwire (audio_base64 : json)
  : M SignalWireRealtimeBridge unit :=
  self <- read ;;
  if negb (Py.truthy (_stream_id self)) then ret tt
  else _send_signalwire (media_frame (_stream_id self) audio_base64).

(** The body of the [async for] of [_forward_openai_responses]. *)
Definition forward_event (event : json) : M SignalWireRealtimeBridge unit :=
  event_type <- of_result (Py.get "type" event) ;;
  if Py.eq_str event_type "response.output_audio.delta" then
    delta <- of_result (Py.get_default "delta" (JObj []) event) ;;
    audio_chunk <- of_result (Py.get "audio" delta) ;;
    if Py.truthy audio_chunk then _send_audio_to_signalwire audio_chunk
    else ret tt
  else if Py.eq_str event_type "response.completed" then ret tt
  else if Py.eq_str event_type "error" then ret tt
  else ret tt.

(** One turn of the [async for]: ask the generator for the next event and
    run the body on it. *)
Definition forward_iteration (gen : Client.generator)
  : M SignalWireRealtimeBridge flow :=
  next <- on_client (Client.responses gen) ;;
  match next with
  | Client.Yield event => forward_event event ;; ret Continue
  | Client.StopAsyncIteration => ret Break
  | Client.Pending => ret Continue
  end.

(** The [async for] of [_forward_openai_responses], for [turns] requests
    to the generator; [None] when the loop is still running after them. *)
Fixpoint forward_loop (turns : nat) (gen : Client.generator)
  : M SignalWireRealtimeBridge (option unit) :=
  match turns with
  | O => ret None
  | S turns' =>
      ctl <- forward_iteration gen ;;
      match ctl with
      | Continue => forward_loop turns' Client.Iterating
      | Break => ret (Some tt)
      end
  end.

(** [_forward_openai_responses]: while the readiness event is not set the
    task stays suspended in [self._ready.wait()]. *)
Definition _forward_openai_responses (turns : nat)
  : M SignalWireRealtimeBridge (option unit) :=
  self <- read ;;
  if negb (_ready self) then ret None
  else forward_loop turns Client.Fresh.

End Bridge.

(** ** One call: the two loops of [run] side by side

    [run] starts [_receive_from_signalwire] and [_forward_openai_responses]
    as two tasks of one event loop; what the two tasks share is the bridge
    object.  A step of the call is one turn of one loop, from the message
    it obtains to the next one it asks for, or a delivery by the realtime
    service.  A turn is taken as a whole: whatever else happens while the
    turn awaits one of its sends is taken to happen before or after it. *)

(** Where the forwarder stands: at [await self._ready.wait()], or inside
    its [async for]. *)
Inductive forwarder_pc : Type := AwaitReady | InLoop.

(** A task: running (possibly suspended), asked to cancel and not scheduled
    since ([task.cancel()] only requests the cancellation: the
    CancelledError is thrown into the task when the event loop runs it
    next), finished with a result, or ended by its cancellation. *)
Inductive task (P : Type) : Type :=
| Live (pc : P)
| CancelRequested (pc : P)
| Done (r : result unit)
| Cancelled.
Arguments Live {P} pc.
Arguments CancelRequested {P} pc.
Arguments Done {P} r.
Arguments Cancelled {P}.

Record call : Type := {
  bridge : SignalWireRealtimeBridge;
  receiver : task unit;
  forwarder : task forwarder_pc;
  log : list action;          (* everything done to the two peers, in order *)
  heard : list sw_recv        (* what receive_text() has produced so far, in order *)
}.

(** What can happen next in a call. *)
Inductive label : Type :=
| Telephony (received : sw_recv)   (* receive_text() completes; the receiver runs one turn *)
| Realtime (item : ai_item)        (* the realtime service delivers to the connection *)
| Forwarder.                       (* the event loop runs the forwarder *)

Definition end_of_turn {P} (pc : P) (r : result flow) : task P :=
  match r with
  | Ok Continue => Live pc
  | Ok Break => Done (Ok tt)
  | Raise e => Done (Raise e)
  end.

Definition receiver_turn (received : sw_recv) (st : call) : call :=
  match receiver st with
  | Live _ =>
      match Bridge.receive_iteration received (bridge st) with
      | (r, b, out) =>
          {| bridge := b;
             receiver := end_of_turn tt r;
             forwarder := forwarder st;
             log := log st ++ out;
             heard := heard st ++ [received] |}
      end
  | _ => st
  end.

Definition forwarder_run (gen : Client.generator) (st : call) : call :=
  match Bridge.forward_iteration gen (bridge st) with
  | (r, b, out) =>
      {| bridge := b;
         receiver := receiver st;
         forwarder := end_of_turn InLoop r;
         log := log st ++ out;
         heard := heard st |}
  end.

Definition forwarder_turn (st : call) : call :=
  match forwarder st with
  | Live AwaitReady =>
      if _ready (bridge st) then forwarder_run Client.Fresh st else st
  | Live InLoop => forwarder_run Client.Iterating st
  | _ => st
  end.

Definition is_closure (item : ai_item) : bool :=
  match item with
  | AiMessage _ => false
  | AiClosedOK | AiClosedError => true
  end.

(** The realtime service sends something: the connection keeps it until
    the generator asks, and a closure shows at once in [closed]. *)
Definition deliver (item : ai_item) (c : OpenAIRealtimeClient) : OpenAIRealtimeClient :=
  match _connection c with
  | Some k =>
      set_connection
        (Some {| closed := closed k || is_closure item;
                 messages := messages k ++ [item] |}) c
  | None => c
  end.

Definition realtime_delivery (item : ai_item) (st : call) : call :=
  {| bridge := set_client (deliver item (_openai_client (bridge st))) (bridge st);
     receiver := receiver st;
     forwarder := forwarder st;
     log := log st;
     heard := heard st |}.

Definition step (l : label) (st : call) : call :=
  match l with
  | Telephony received => receiver_turn received st
  | Realtime item => realtime_delivery item st
  | Forwarder => forwarder_turn st
  end.

Definition exec (schedule : list label) (st : call) : call :=
  fold_left (fun st l => step l st) schedule st.

(** The messages waiting in the realtime connection. *)
Definition inbox (st : call) : list ai_item :=
  match _connection (_openai_client (bridge st)) with
  | Some k => messages k
  | None => []
  end.

(** ** [run]: the supervisor of the two loops *)

(** [task.cancel()] *)
Definition cancel {P} (t : task P) : task P :=
  match t with
  | Live pc => CancelRequested pc
  | _ => t
  end.

(** [task in done] *)
Definition done {P} (t : task P) : bool :=
  match t with
  | Done _ => true
  | _ => false
  end.

(** [task.exception()] of a task that is done. *)
Definition exception {P} (t : task P) : option exn :=
  match t with
  | Done (Raise e) => Some e
  | _ => None
  end.

(** The loop of the task has stopped running. *)
Definition stopped {P} (t : task P) : bool :=
  match t with
  | Done _ | Cancelled => true
  | Live _ | CancelRequested _ => false
  end.

(** [run] is suspended and the event loop runs the other tasks: one whose
    cancellation was requested gets its CancelledError, which neither loop
    catches. *)
Definition resumed {P} (t : task P) : task P :=
  match t with
  | CancelRequested _ => Cancelled
  | _ => t
  end.

(** The state in which the two tasks have just been created. *)
Definition started (b : SignalWireRealtimeBridge) (out : list action) : call :=
  {| bridge := b;
     receiver := Live tt;
     forwarder := Live AwaitReady;
     log := out;
     heard := [] |}.

(** [for task in pending: task.cancel()] *)
Definition cancel_pending (st : call) : call :=
  {| bridge := bridge st;
     receiver := cancel (receiver st);
     forwarder := cancel (forwarder st);
     log := log st;
     heard := heard st |}.

(** [for task in done: if task.exception(): raise task.exception()]; a set
    is iterated in no fixed order, [receiver_first] picks one. *)
Definition first_exception (receiver_first : bool) (st : call) : option exn :=
  let of_receiver := exception (receiver st) in
  let of_forwarder := exception (forwarder st) in
  if receiver_first then
    match of_receiver with Some e => Some e | None => of_forwarder end
  else
    match of_forwarder with Some e => Some e | None => of_receiver end.

(** [__aexit__]: [await self.close()].  Closing an open connection is
    awaited, so the event loop runs meanwhile; when there is nothing to
    close, [close] returns without a suspension. *)
Definition aexit (st : call) : call :=
  match Client.close (_openai_client (bridge st)) with
  | (_, c, out) =>
      let suspended := Client.is_connected (_openai_client (bridge st)) in
      {| bridge := set_client c (bridge st);
         receiver := if suspended then resumed (receiver st) else receiver st;
         forwarder := if suspended then resumed (forwarder st) else forwarder st;
         log := log st ++ out;
         heard := heard st |}
  end.

Inductive run_result : Type :=
| Refused (e : exn) (out : list action)
    (* the realtime connection could not be opened: no loop was started *)
| Waiting (st : call)
    (* still inside asyncio.wait: neither loop has finished *)
| Exited (r : result unit) (st : call).
    (* run returned or raised, and what it left behind *)

(** The lines of [run] after [asyncio.wait], and [__aexit__]. *)
Definition supervise (receiver_first : bool) (st : call) : run_result :=
  if done (receiver st) || done (forwarder st) then
    let st1 := cancel_pending st in
    match first_exception receiver_first st1 with
    | Some e => Exited (Raise e) (aexit st1)
    | None => Exited (Ok tt) (aexit st1)
    end
  else Waiting st.

(** [run], from [websocket.accept()] on; [schedule] is what happens while
    [run] waits in [asyncio.wait]. *)
Definition run (cfg : OpenAIConfig) (handshake receiver_first : bool)
  (schedule : list label) : run_result :=
  match Bridge.on_client (Client.connect handshake) (new_bridge cfg) with
  | (Raise e, _, out) => Refused e (WsAccept :: out)
  | (Ok _, b, out) =>
      supervise receiver_first (exec schedule (started b (WsAccept :: out)))
  end.

(** The call when [run] reaches [asyncio.wait]: the realtime connection
    is open and configured, the two tasks exist and have not run. *)
Definition entered (cfg : OpenAIConfig) : call :=
  started
    {| _openai_client := set_connection (Some fresh_connection) (new_client cfg);
       _stream_id := JNull;
       _ready := false |}
    [WsAccept;
     AiConnect (OPENAI_REALTIME_URL ++ "?model=" ++ model cfg)%string
       [("Authorization", ("Bearer " ++ api_key cfg)%string);
        ("OpenAI-Beta", "realtime=v1")];
     AiSend (Client.session_update cfg)].

(** ** Reading a log *)

Definition ws_frames (out : list action) : list json :=
  flat_map (fun a => match a with WsSend frame => [frame] | _ => [] end) out.

Definition ai_messages (out : list action) : list json :=
  flat_map (fun a => match a with AiSend msg => [msg] | _ => [] end) out.

Definition chunk_calls (out : list action) : list (json * bool) :=
  flat_map (fun a => match a with
                     | Invoke_send_audio_chunk audio eoi => [(audio, eoi)]
                     | _ => []
                     end) out.

Definition closes (out : list action) : nat :=
  length (filter (fun a => match a with AiClose => true | _ => false end) out).

Definition default_config : OpenAIConfig :=
  {| api_key := "sk-test";
     model := DEFAULT_REALTIME_MODEL;
     voice := DEFAULT_OPENAI_VOICE;
     instructions := None |}.

Definition frame (fields : list (string * json)) : sw_recv :=
  Received (Wellformed (JObj fields)).

(** ** Reading an inbound frame the way the receiver reads it *)

(** [payload.get("event") or payload.get("type")], when the frame decodes
    to a dict. *)
Definition event_type (received : sw_recv) : option json :=
  match received with
  | Received (Wellformed payload) =>
      match Bridge.get_or "event" "type" payload with
      | Ok t => Some t
      | Raise _ => None
      end
  | _ => None
  end.

Definition is_event (name : string) (received : sw_recv) : bool :=
  match event_type received with
  | Some t => Py.eq_str t name
  | None => false
  end.

(** [payload.get("streamId") or payload.get("stream_id")] *)
Definition stream_identifier (received : sw_recv) : json :=
  match received with
  | Received (Wellformed payload) =>
      match Bridge.get_or "streamId" "stream_id" payload with
      | Ok v => v
      | Raise _ => JNull
      end
  | _ => JNull
  end.

(** A [start] event that carries a stream identifier under either key. *)
Definition start_with_identifier (received : sw_recv) : bool :=
  is_event "start" received && Py.truthy (stream_identifier received).

(** A [start] event that lacks one. *)
Definition start_without_identifier (received : sw_recv) : bool :=
  is_event "start" received && negb (Py.truthy (stream_identifier received)).

(** The audio of a [media] event that carries a non-empty [media.payload]. *)
Definition media_payload (received : sw_recv) : option json :=
  match received with
  | Received (Wellformed payload) =>
      if is_event "media" received then
        match Py.getitem "media" payload with
        | Ok media =>
            match Py.get "payload" media with
            | Ok audio => if Py.truthy audio then Some audio else None
            | Raise _ => None
            end
        | Raise _ => None
        end
      else None
  | _ => None
  end.

(** A [stop] or a [close] event. *)
Definition end_of_call (received : sw_recv) : bool :=
  is_event "stop" received || is_event "close" received.

(** The payloads of the media events of a list of frames, in order. *)
Definition media_payloads (frames : list sw_recv) : list json :=
  flat_map (fun r => match media_payload r with Some a => [a] | None => [] end) frames.

(** ** Events of the realtime service *)

Definition audio_delta (audio : json) : json :=
  JObj [("type", JStr "response.output_audio.delta");
        ("delta", JObj [("audio", audio)])].

Definition is_media_frame (frame : json) : bool :=
  match frame with
  | JObj fields =>
      match Py.assoc "event" fields with
      | Some t => Py.eq_str t "media"
      | None => false
      end
  | _ => false
  end.

(** The value of [d.get(k)] for the dict of fields [fields]. *)
Definition item (k : string) (fields : list (string * json)) : json :=
  match Py.assoc k fields with
  | Some v => v
  | None => JNull
  end.

(** ** The turns of the receiver, by kind of frame *)

(** What [stop] and [close] do: lines 62 to 64. *)
Definition flushed (b : SignalWireRealtimeBridge)
  : result flow * SignalWireRealtimeBridge * list action :=
  if Client.is_connected (_openai_client b)
  then (Ok Break, b,
        [AiSend Client.commit_message; AiSend Client.response_create_message])
  else (Raise not_connected, b, []).

(** What a [media] event with audio does: [_on_media] down to line 82. *)
Definition chunk_sent (audio : json) (b : SignalWireRealtimeBridge)
  : result flow * SignalWireRealtimeBridge * list action :=
  (if Client.is_connected (_openai_client b) then Ok Continue else Raise not_connected,
   b,
   Invoke_send_audio_chunk audio false ::
   (if Client.is_connected (_openai_client b)
    then [AiSend (Client.append_message audio)] else [])).

(** What a [start] event does: lines 55 and 56, and [_on_start]. *)
Definition start_handled (received : sw_recv) (b : SignalWireRealtimeBridge)
  : result flow * SignalWireRealtimeBridge * list action :=
  (Ok Continue,
   (if Py.truthy (stream_identifier received)
    then set_ready (set_stream_id (stream_identifier received) b)
    else set_stream_id (stream_identifier received) b),
   (if Py.truthy (stream_identifier received)
    then [WsSend Bridge.ready_frame] else [])).

(** A turn of the receiver, by kind of frame; [res] is how a turn ends that
    is none of the three above. *)
Definition turn_outcome (res : result flow) (received : sw_recv)
  (b : SignalWireRealtimeBridge)
  : result flow * SignalWireRealtimeBridge * list action :=
  if is_event "start" received then start_handled received b
  else
    match media_payload received with
    | Some audio => chunk_sent audio b
    | None => if end_of_call received then flushed b else (res, b, [])
    end.

(** ** Counting in a log *)

Definition is_ready_frame (frame : json) : bool :=
  match frame with
  | JObj fields =>
      match Py.assoc "event" fields with
      | Some t => Py.eq_str t "ready"
      | None => false
      end
  | _ => false
  end.

(** The [ready] frames and the [media] frames sent to the telephony peer. *)
Definition ready_frames (out : list action) : list json :=
  filter is_ready_frame (ws_frames out).

Definition media_frames (out : list action) : list json :=
  filter is_media_frame (ws_frames out).

Definition is_append (msg : json) : bool :=
  match msg with
  | JObj fields =>
      match Py.assoc "type" fields with
      | Some t => Py.eq_str t "input_audio_buffer.append"
      | None => false
      end
  | _ => false
  end.

(** The [input_audio_buffer.append] messages sent to the realtime service. *)
Definition appends (out : list action) : list json :=
  filter is_append (ai_messages out).

(** What the realtime service has delivered in the course of a schedule. *)
Definition deliveries (schedule : list label) : list ai_item :=
  flat_map (fun l => match l with Realtime item => [item] | _ => [] end) schedule.

(** The frames the telephony peer sends in the course of a schedule. *)
Definition frames_of (schedule : list label) : list sw_recv :=
  flat_map (fun l => match l with Telephony received => [received] | _ => [] end)
    schedule.

(** ** Frames and events used in examples *)

Definition start_event (stream_id : string) : sw_recv :=
  frame [("event", JStr "start"); ("streamId", JStr stream_id)].

Definition media_event (audio : string) : sw_recv :=
  frame [("event", JStr "media"); ("media", JObj [("payload", JStr audio)])].

Definition stop_event : sw_recv := frame [("event", JStr "stop")].

(** A [start] event without a stream identifier. *)
Definition bare_start_event : sw_recv := frame [("event", JStr "start")].

Definition delta_message (audio : string) : ai_item :=
  AiMessage (Wellformed (audio_delta (JStr audio))).

(** The forwarder can read the connection: it is inside its loop, or about
    to enter it on a connected client. *)
Definition reading (st : call) : Prop :=
  forwarder st = Live InLoop \/
  (forwarder st = Live AwaitReady /\
   Client.is_connected (_openai_client (bridge st)) = true).

(** How a loop that was run alone for a while shows as a task. *)
Definition task_of {P} (pc : P) (r : result (option unit)) : task P :=
  match r with
  | Ok None => Live pc
  | Ok (Some _) => Done (Ok tt)
  | Raise e => Done (Raise e)
  end.

(** ** openai_client.py: [drain_until_finished] *)

(** The messages waiting in the connection of a client. *)
Definition waiting (c : OpenAIRealtimeClient) : list ai_item :=
  match _connection c with
  | Some k => messages k
  | None => []
  end.

(** The [async for] of [drain_until_finished], for at most [turns] requests
    to the generator.  [Some e]: the method returns [e] ([final_event or
    {}]); [None]: it is left suspended, waiting for a further message. *)
Fixpoint drain_loop (turns : nat) (gen : Client.generator)
  : M OpenAIRealtimeClient (option json) :=
  match turns with
  | O => ret None
  | S turns' =>
      next <- Client.responses gen ;;
      match next with
      | Client.Yield event =>
          event_type <- of_result (Py.get "type" event) ;;
          if Py.eq_str event_type "response.completed"
          then ret (Some (Py.or_ event (JObj [])))
          else drain_loop turns' Client.Iterating
      | Client.StopAsyncIteration => ret (Some (JObj []))
      | Client.Pending => ret None
      end
  end.

(** Every request but the last takes a message off the connection, so one
    request more than there are messages waiting is all the loop can make. *)
Definition drain_until_finished : M OpenAIRealtimeClient (option json) :=
  self <- read ;;
  drain_loop (S (length (waiting self))) Client.Fresh.

(** An event that is a dict and whose type is not [name]. *)
Definition event_other_than (name : string) (event : json) : Prop :=
  exists fields, event = JObj fields /\ Py.eq_str (item "type" fields) name = false.

(** An event that is a dict whose type is [name]. *)
Definition event_named (name : string) (event : json) : Prop :=
  exists fields, event = JObj fields /\ Py.eq_str (item "type" fields) name = true.

Definition events (evs : list json) : list ai_item :=
  map (fun event => AiMessage (Wellformed event)) evs.

(** The client with the messages waiting in its connection replaced. *)
Definition with_waiting (rest : list ai_item) (c : OpenAIRealtimeClient)
  : OpenAIRealtimeClient :=
  match _connection c with
  | Some k => set_connection (Some {| closed := closed k; messages := rest |}) c
  | None => c
  end.

(** A connected client whose connection holds the messages [ms]. *)
Definition client_holding (ms : list ai_item) : OpenAIRealtimeClient :=
  {| _config := default_config;
     _connection := Some {| closed := false; messages := ms |} |}.

(** ** Turns of the receiver that send nothing *)

(** The call after a turn of the receiver that only heard the frame. *)
Definition heard_only (received : sw_recv) (st : call) : call :=
  {| bridge := bridge st;
     receiver := receiver st;
     forwarder := forwarder st;
     log := log st;
     heard := heard st ++ [received] |}.

(** The call after a turn that ended the inbound loop with [r] and did
    nothing else. *)
Definition receiver_ended (r : result unit) (received : sw_recv) (st : call) : call :=
  {| bridge := bridge st;
     receiver := Done r;
     forwarder := forwarder st;
     log := log st;
     heard := heard st ++ [received] |}.

(** ** Turns of the forwarder *)

(** The bridge after the generator has taken the first message off the
    connection. *)
Definition popped (b : SignalWireRealtimeBridge) : SignalWireRealtimeBridge :=
  set_client
    (with_waiting (tl (waiting (_openai_client b))) (_openai_client b)) b.

(** The call after a turn of the forwarder that took the first message
    off the connection, sent nothing and left the task as [t]. *)
Definition forwarder_took (t : task forwarder_pc) (st : call) : call :=
  {| bridge := popped (bridge st);
     receiver := receiver st;
     forwarder := t;
     log := log st;
     heard := heard st |}.

(** The value of [event.get("delta", {})] for the dict of fields [fields]. *)
Definition delta_of (fields : list (string * json)) : json :=
  match Py.assoc "delta" fields with
  | Some v => v
  | None => JObj []
  end.

(** ** What a run can send *)

(** A frame the bridge may send to the telephony peer when it has heard
    [frames]: the [ready] frame, or a [media] frame that carries audio and
    is stamped with the identifier of a [start] event heard. *)
Definition sendable (frames : list sw_recv) (f : json) : Prop :=
  f = Bridge.ready_frame \/
  exists received audio,
    In received frames /\
    is_event "start" received = true /\
    Py.truthy (stream_identifier received) = true /\
    Py.truthy audio = true /\
    f = Bridge.media_frame (stream_identifier received) audio.

(** ** config.py: [Settings.load] *)

Record SignalWireConfig : Type := {
  space_url : string;
  project_id : string;
  api_token : string;
  stream_url : option string
}.

Record Settings : Type := {
  openai : OpenAIConfig;
  signalwire : SignalWireConfig;
  log_level : string
}.

(** [os.environ], once [load_dotenv()] has run. *)
Definition environ : Type := string -> option string.

(** [os.getenv(name)] and [os.getenv(name, default)]. *)
Definition getenv (env : environ) (name : string) : option string := env name.

Definition getenv_default (env : environ) (name default : string) : string :=
  match env name with
  | Some value => value
  | None => default
  end.

(** The value of an optional string that is truthy: neither [None] nor
    the empty string. *)
Definition truthy_str (value : option string) : option string :=
  match value with
  | Some s => if (s =? "")%string then None else Some s
  | None => None
  end.

Definition Settings_load (env : environ) : result Settings :=
  match truthy_str (getenv env "OPENAI_API_KEY") with
  | None => Raise (RuntimeError "OPENAI_API_KEY is required")
  | Some api_key =>
      let instructions := getenv env "VOICE_AGENT_SYSTEM_PROMPT" in
      let openai_config :=
        {| api_key := api_key;
           model := getenv_default env "OPENAI_REALTIME_MODEL" DEFAULT_REALTIME_MODEL;
           voice := getenv_default env "OPENAI_VOICE" DEFAULT_OPENAI_VOICE;
           instructions := instructions |} in
      match truthy_str (getenv env "SIGNALWIRE_SPACE_URL"),
            truthy_str (getenv env "SIGNALWIRE_PROJECT_ID"),
            truthy_str (getenv env "SIGNALWIRE_API_TOKEN") with
      | Some space_url, Some project_id, Some api_token =>
          let signalwire_config :=
            {| space_url := space_url;
               project_id := project_id;
               api_token := api_token;
               stream_url := getenv env "SIGNALWIRE_STREAM_URL" |} in
          Ok {| openai := openai_config;
                signalwire := signalwire_config;
                log_level := getenv_default env "LOG_LEVEL" "INFO" |}
      | _, _, _ =>
          Raise (RuntimeError
                   "SIGNALWIRE_SPACE_URL, SIGNALWIRE_PROJECT_ID, and SIGNALWIRE_API_TOKEN are required")
      end
  end.

(** A variable of the environment that is set to something other than the
    empty string. *)
Definition is_set (env : environ) (name : string) : Prop :=
  exists value, env name = Some value /\ value <> "".

(** An environment given by the variables it sets. *)
Fixpoint environment (variables : list (string * string)) : environ :=
  fun name =>
    match variables with
    | [] => None
    | (n, v) :: rest => if (n =? name)%string then Some v else environment rest name
    end.

(** ** api.py: the voice webhook *)

Record Response : Type := {
  content : string;
  media_type : string
}.

Definition quote : string := String (Ascii.ascii_of_nat 34) EmptyString.
Definition newline : string := String (Ascii.ascii_of_nat 10) EmptyString.

(** The triple-quoted literal of lines 40 to 46. *)
Definition webhook_template : string :=
  (newline ++
   "    <Response>" ++ newline ++
   "        <Connect>" ++ newline ++
   "            <Stream url=" ++ quote ++ "{stream_url}" ++ quote ++ "/>" ++ newline ++
   "        </Connect>" ++ newline ++
   "    </Response>" ++ newline ++
   "    ")%string.

(** [str.strip()], on ASCII text. *)
Definition is_space (c : Ascii.ascii) : bool :=
  let n := Ascii.nat_of_ascii c in
  ((9 <=? n)%nat && (n <=? 13)%nat) || ((28 <=? n)%nat && (n <=? 32)%nat).

Fixpoint lstrip (s : string) : string :=
  match s with
  | EmptyString => EmptyString
  | String c rest => if is_space c then lstrip rest else s
  end.

Fixpoint rstrip (s : string) : string :=
  match s with
  | EmptyString => EmptyString
  | String c rest =>
      match rstrip rest with
      | EmptyString => if is_space c then EmptyString else String c EmptyString
      | kept => String c kept
      end
  end.

Definition strip (s : string) : string := rstrip (lstrip s).

(** [template.format(name=value)] for a template whose replacement fields
    are all [{name}]: each is replaced by [value], which is copied as it
    is; [field] is the field with its braces, [skip] the number of
    characters of a field still to pass over. *)
Fixpoint format_from (skip : nat) (field value template : string) : string :=
  match template with
  | EmptyString => EmptyString
  | String c rest =>
      match skip with
      | S skip' => format_from skip' field value rest
      | O =>
          if String.prefix field template
          then (value ++ format_from (String.length field - 1) field value rest)%string
          else String c (format_from 0 field value rest)
      end
  end.

Definition format (name value template : string) : string :=
  format_from 0 ("{" ++ name ++ "}")%string value template.

Definition STREAM_URL_PLACEHOLDER : string :=
  "wss://YOUR_SERVER_DOMAIN/signalwire/stream".

Definition signalwire_voice_webhook (settings : Settings) : Response :=
  let stream_url :=
    match truthy_str (stream_url (signalwire settings)) with
    | Some url => url
    | None => STREAM_URL_PLACEHOLDER
    end in
  let xml_response := format "stream_url" stream_url (strip webhook_template) in
  {| content := xml_response; media_type := "application/xml" |}.

(** The four variables [Settings.load] asks for. *)
Definition required_variables : list (string * string) :=
  [("OPENAI_API_KEY", "sk-test");
   ("SIGNALWIRE_SPACE_URL", "example.signalwire.com");
   ("SIGNALWIRE_PROJECT_ID", "project");
   ("SIGNALWIRE_API_TOKEN", "token")].

(** ** Undisturbed runs *)

(** A frame after which the inbound loop goes on as long as the realtime
    connection is open: a [start] event, a [media] event with audio, or an
    event of another name than [start], [media], [stop] and [close] (as
    [mark] and [connected]). *)
Definition keeps_listening (received : sw_recv) : bool :=
  is_event "start" received ||
  match media_payload received with Some _ => true | None => false end ||
  match event_type received with
  | Some (JStr name) =>
      negb (existsb (String.eqb name) ["start"; "media"; "stop"; "close"])
  | _ => false
  end.

(** A step that neither ends the inbound loop nor closes the realtime
    connection. *)
Definition undisturbed (l : label) : bool :=
  match l with
  | Telephony received => keeps_listening received
  | Realtime item => negb (is_closure item)
  | Forwarder => true
  end.

(** An event of the realtime service of type
    [response.output_audio.delta] whose [delta] is a dict with [audio]
    under the key [audio]; the event and its [delta] may have other keys
    as well. *)
Definition carries_audio (audio event : json) : Prop :=
  exists fields delta,
    event = JObj fields /\
    Py.eq_str (item "type" fields) "response.output_audio.delta" = true /\
    Py.assoc "delta" fields = Some (JObj delta) /\
    item "audio" delta = audio.

(** * Properties *)

(** ** Running a computation of the monad *)

(** Unfolds the monad so that a computation applied to a state reduces. *)
Ltac run_monad :=
  unfold bind, ret, raise, emit, read, write, of_result in *; simpl in *.

Section Running.
Context {S A B : Type}.

Lemma bind_ret (a : A) (k : A -> M S B) (s : S) :
  bind (ret a) k s = k a s.
Proof. unfold bind, ret. now destruct (k a s) as [[r s2] out]. Qed.

Lemma bind_ok (a : A) (k : A -> M S B) (s : S) :
  bind (of_result (Ok a)) k s = k a s.
Proof. unfold bind, of_result. now destruct (k a s) as [[r s2] out]. Qed.

Lemma bind_raised (e : exn) (k : A -> M S B) (s : S) :
  bind (of_result (Raise e)) k s = (Raise e, s, []).
Proof. reflexivity. Qed.

Lemma bind_raise (e : exn) (k : A -> M S B) (s : S) :
  bind (raise e) k s = (Raise e, s, []).
Proof. reflexivity. Qed.

Lemma bind_read (k : S -> M S B) (s : S) :
  bind read k s = k s s.
Proof. unfold bind, read. now destruct (k s s) as [[r s2] out]. Qed.

Lemma bind_write (s' : S) (k : unit -> M S B) (s : S) :
  bind (write s') k s = k tt s'.
Proof. unfold bind, write. now destruct (k tt s') as [[r s2] out]. Qed.

Lemma bind_emit (a : action) (k : unit -> M S B) (s : S) :
  bind (emit a) k s =
  (fst (fst (k tt s)), snd (fst (k tt s)), a :: snd (k tt s)).
Proof. unfold bind, emit. now destruct (k tt s) as [[r s2] out]. Qed.

End Running.

Lemma bind_bind {S A B C : Type} (m : M S A) (f : A -> M S B) (g : B -> M S C) (s : S) :
  bind (bind m f) g s = bind m (fun a => bind (f a) g) s.
Proof.
  unfold bind. destruct (m s) as [[[a|e] s1] out1]; [|reflexivity].
  destruct (f a s1) as [[[x|e] s2] out2]; [|reflexivity].
  destruct (g x s2) as [[r s3] out3]. now rewrite app_assoc.
Qed.

Create Rewrite HintDb run.
#[local] Hint Rewrite @bind_bind @bind_ret @bind_ok @bind_raised @bind_raise @bind_read
  @bind_write @bind_emit : run.

(** ** The realtime client *)

Lemma send_json_connected (payload : json) (c : OpenAIRealtimeClient) :
  Client.is_connected c = true ->
  Client.send_json payload c = (Ok tt, c, [AiSend payload]).
Proof.
  intros H. unfold Client.send_json. run_monad. now rewrite H.
Qed.

Lemma send_json_not_connected (payload : json) (c : OpenAIRealtimeClient) :
  Client.is_connected c = false ->
  Client.send_json payload c = (Raise not_connected, c, []).
Proof.
  intros H. unfold Client.send_json. run_monad. now rewrite H.
Qed.

Lemma send_audio_chunk_connected (audio : json) (eoi : bool) (c : OpenAIRealtimeClient) :
  Client.is_connected c = true ->
  Client.send_audio_chunk audio eoi c =
  (Ok tt, c,
   Invoke_send_audio_chunk audio eoi :: AiSend (Client.append_message audio) ::
   (if eoi then [AiSend Client.commit_message; AiSend Client.response_create_message]
    else [])).
Proof.
  intros H. unfold Client.send_audio_chunk.
  destruct eoi; unfold bind, emit, ret; cbv beta;
    rewrite ?(send_json_connected _ c H); cbv iota beta;
    rewrite ?(send_json_connected _ c H); cbv iota beta;
    rewrite ?(send_json_connected _ c H); reflexivity.
Qed.

Lemma send_audio_chunk_not_connected (audio : json) (eoi : bool) (c : OpenAIRealtimeClient) :
  Client.is_connected c = false ->
  Client.send_audio_chunk audio eoi c =
  (Raise not_connected, c, [Invoke_send_audio_chunk audio eoi]).
Proof.
  intros H. unfold Client.send_audio_chunk.
  unfold bind, emit; cbv beta iota.
  now rewrite (send_json_not_connected _ c H).
Qed.

(** C8.  [send_audio_chunk audio end_of_input] leaves the client as it is;
    on a connected client it succeeds and sends exactly one message
    [{"type": "input_audio_buffer.append", "audio": audio}], followed, when
    [end_of_input] is true, by [{"type": "input_audio_buffer.commit"}] and
    then [{"type": "response.create", "response": {}}], and by nothing when
    it is false; on a client that is not connected it raises
    [RuntimeError("Realtime client not connected")] and sends nothing. *)
Theorem send_audio_chunk_messages
  (audio : json) (end_of_input : bool) (c : OpenAIRealtimeClient) :
  Client.send_audio_chunk audio end_of_input c =
  (if Client.is_connected c then Ok tt
   else Raise (RuntimeError "Realtime client not connected"),
   c,
   Invoke_send_audio_chunk audio end_of_input ::
   map AiSend
     (if Client.is_connected c then
        JObj [("type", JStr "input_audio_buffer.append"); ("audio", audio)] ::
        (if end_of_input
         then [JObj [("type", JStr "input_audio_buffer.commit")];
               JObj [("type", JStr "response.create"); ("response", JObj [])]]
         else [])
      else [])).
Proof.
  destruct (Client.is_connected c) eqn:H.
  - rewrite (send_audio_chunk_connected audio end_of_input c H).
    now destruct end_of_input.
  - now rewrite (send_audio_chunk_not_connected audio end_of_input c H).
Qed.

Lemma close_result (c : OpenAIRealtimeClient) :
  Client.close c =
  (Ok tt, set_connection None c, if Client.is_connected c then [AiClose] else []).
Proof.
  unfold Client.close, Client.is_connected. run_monad.
  destruct (_connection c) as [k|]; simpl; [destruct (closed k)|]; reflexivity.
Qed.

(** C9.  [close()] never raises; it closes the underlying connection when
    and only when the client is connected, and leaves the client without a
    connection, so that a second [close()] does nothing at all: over the
    two calls the underlying connection receives at most one close. *)
Theorem close_idempotent (c : OpenAIRealtimeClient) :
  let first := Client.close c in
  let second := Client.close (snd (fst first)) in
  fst (fst first) = Ok tt /\
  snd first = (if Client.is_connected c then [AiClose] else []) /\
  second = (Ok tt, snd (fst first), []) /\
  closes (snd first ++ snd second) <= 1.
Proof.
  cbv zeta. rewrite close_result. simpl fst. simpl snd.
  rewrite close_result. simpl.
  repeat split; destruct (Client.is_connected c); simpl; auto.
Qed.

Lemma responses_fresh_not_connected (c : OpenAIRealtimeClient) :
  Client.is_connected c = false ->
  Client.responses Client.Fresh c = (Raise not_connected, c, []).
Proof.
  intros H. unfold Client.responses. run_monad. now rewrite H.
Qed.

(** C10.  The first [__anext__] of [responses()] on a client that is not
    connected raises the not-connected error: it yields nothing, not even
    the end of the sequence, whatever the connection still holds. *)
Theorem responses_requires_connection (c : OpenAIRealtimeClient) :
  Client.is_connected c = false ->
  Client.responses Client.Fresh c = (Raise not_connected, c, []).
Proof. exact (responses_fresh_not_connected c). Qed.

Lemma responses_requires_connection_witness :
  let c := {| _config := default_config;
              _connection :=
                Some {| closed := true;
                        messages := [AiMessage (Wellformed (JObj [("type", JStr "error")]))] |} |} in
  Client.responses Client.Fresh c = (Raise not_connected, c, []).
Proof.
  exact (responses_requires_connection
           {| _config := default_config;
              _connection :=
                Some {| closed := true;
                        messages := [AiMessage (Wellformed (JObj [("type", JStr "error")]))] |} |}
           eq_refl).
Defined.

(** Before [connect()]. *)
Lemma responses_before_connect (cfg : OpenAIConfig) :
  Client.responses Client.Fresh (new_client cfg) =
  (Raise not_connected, new_client cfg, []).
Proof. now apply responses_fresh_not_connected. Qed.

(** After [close()], whatever the client was. *)
Lemma responses_after_close (c : OpenAIRealtimeClient) :
  Client.responses Client.Fresh (snd (fst (Client.close c))) =
  (Raise not_connected, snd (fst (Client.close c)), []).
Proof.
  rewrite close_result. simpl. now apply responses_fresh_not_connected.
Qed.

(** ** One turn of the receiver *)

Lemma eq_str_true (x : json) (s : string) :
  Py.eq_str x s = true -> x = JStr s.
Proof.
  destruct x; simpl; try discriminate.
  intros H. apply String.eqb_eq in H. now subst.
Qed.

Lemma get_or_dict (k1 k2 : string) (fields : list (string * json)) :
  Bridge.get_or k1 k2 (JObj fields) = Ok (Py.or_ (item k1 fields) (item k2 fields)).
Proof.
  unfold Bridge.get_or, Py.or_, item. simpl.
  now destruct (Py.truthy _).
Qed.

Lemma is_event_dict (name : string) (fields : list (string * json)) :
  is_event name (frame fields) =
  Py.eq_str (Py.or_ (item "event" fields) (item "type" fields)) name.
Proof.
  unfold is_event, event_type, frame. now rewrite get_or_dict.
Qed.

Lemma stream_identifier_dict (fields : list (string * json)) :
  stream_identifier (frame fields) =
  Py.or_ (item "streamId" fields) (item "stream_id" fields).
Proof.
  unfold stream_identifier, frame. now rewrite get_or_dict.
Qed.

(** A [start] event: lines 55 and 56, and [_on_start]. *)
Lemma receive_start (fields : list (string * json)) (b : SignalWireRealtimeBridge) :
  is_event "start" (frame fields) = true ->
  Bridge.receive_iteration (frame fields) b = start_handled (frame fields) b.
Proof.
  unfold start_handled.
  rewrite is_event_dict, stream_identifier_dict. intros H.
  unfold Bridge.receive_iteration, frame, json_loads.
  autorewrite with run. rewrite get_or_dict. autorewrite with run.
  rewrite H. rewrite get_or_dict. autorewrite with run.
  unfold Bridge._on_start. autorewrite with run.
  rewrite get_or_dict. autorewrite with run.
  destruct (Py.truthy _); reflexivity.
Qed.

Lemma set_client_same (b : SignalWireRealtimeBridge) :
  set_client (_openai_client b) b = b.
Proof. now destruct b. Qed.

Lemma on_client_send_json (payload : json) (b : SignalWireRealtimeBridge) :
  Bridge.on_client (Client.send_json payload) b =
  if Client.is_connected (_openai_client b)
  then (Ok tt, b, [AiSend payload])
  else (Raise not_connected, b, []).
Proof.
  unfold Bridge.on_client.
  destruct (Client.is_connected (_openai_client b)) eqn:H.
  - now rewrite (send_json_connected _ _ H), set_client_same.
  - now rewrite (send_json_not_connected _ _ H), set_client_same.
Qed.

Lemma on_client_send_audio_chunk (audio : json) (b : SignalWireRealtimeBridge) :
  Bridge.on_client (Client.send_audio_chunk audio false) b =
  (if Client.is_connected (_openai_client b) then Ok tt else Raise not_connected,
   b,
   Invoke_send_audio_chunk audio false ::
   (if Client.is_connected (_openai_client b)
    then [AiSend (Client.append_message audio)] else [])).
Proof.
  unfold Bridge.on_client.
  destruct (Client.is_connected (_openai_client b)) eqn:H.
  - now rewrite (send_audio_chunk_connected _ _ _ H), set_client_same.
  - now rewrite (send_audio_chunk_not_connected _ _ _ H), set_client_same.
Qed.

Lemma receive_media (fields : list (string * json)) (b : SignalWireRealtimeBridge) :
  is_event "start" (frame fields) = false ->
  is_event "media" (frame fields) = true ->
  Bridge.receive_iteration (frame fields) b =
  match media_payload (frame fields) with
  | Some audio => chunk_sent audio b
  | None =>
      (match Py.assoc "media" fields with
       | Some (JObj _) | None => Ok Continue
       | Some _ => Raise AttributeError
       end, b, [])
  end.
Proof.
  unfold media_payload. rewrite !is_event_dict. intros Hs Hm.
  unfold Bridge.receive_iteration, frame, json_loads, chunk_sent.
  autorewrite with run. rewrite get_or_dict. autorewrite with run.
  rewrite Hs, Hm. unfold Bridge._on_media. autorewrite with run.
  simpl Py.contains. simpl Py.getitem.
  destruct (Py.assoc "media" fields) as [media|]; autorewrite with run; simpl negb; cbv iota.
  2: now autorewrite with run.
  autorewrite with run.
  destruct media; simpl Py.get; autorewrite with run; try reflexivity.
  destruct (Py.truthy _); simpl negb; cbv iota; autorewrite with run; try reflexivity.
  unfold bind. rewrite on_client_send_audio_chunk.
  destruct (Client.is_connected _); reflexivity.
Qed.

Lemma receive_other (fields : list (string * json)) (b : SignalWireRealtimeBridge) :
  is_event "start" (frame fields) = false ->
  is_event "media" (frame fields) = false ->
  Bridge.receive_iteration (frame fields) b =
  if end_of_call (frame fields) then flushed b
  else
    (match Py.in_str_set (Py.or_ (item "event" fields) (item "type" fields)) [] with
     | Ok _ => Ok Continue
     | Raise e => Raise e
     end, b, []).
Proof.
  unfold end_of_call. rewrite !is_event_dict. intros Hs Hm.
  unfold Bridge.receive_iteration, frame, json_loads, flushed.
  autorewrite with run. rewrite get_or_dict. autorewrite with run.
  rewrite Hs, Hm.
  destruct (Py.or_ (item "event" fields) (item "type" fields)) as [ |x|n|s|l|d];
    try reflexivity.
  simpl Py.in_str_set. autorewrite with run.
  simpl existsb. simpl Py.eq_str. rewrite !orb_false_r.
  destruct ((s =? "mark") || (s =? "connected")) eqn:Hk.
  - destruct ((s =? "stop") || (s =? "close")) eqn:Hf; [|reflexivity].
    exfalso. apply orb_true_iff in Hk, Hf.
    destruct Hk as [Hk|Hk], Hf as [Hf|Hf];
      apply String.eqb_eq in Hk, Hf; subst; discriminate.
  - autorewrite with run.
    destruct ((s =? "stop") || (s =? "close")); [|reflexivity].
    autorewrite with run. unfold bind. rewrite on_client_send_json.
    destruct (Client.is_connected _) eqn:E; [|reflexivity].
    rewrite on_client_send_json, E. reflexivity.
Qed.

Lemma is_event_frame (name : string) (received : sw_recv) :
  is_event name received = true -> exists fields, received = frame fields.
Proof.
  unfold is_event, event_type.
  destruct received as [[d|]|]; try discriminate.
  destruct d; try discriminate. intros _. now exists fields.
Qed.

Lemma is_event_exclusive (n1 n2 : string) (received : sw_recv) :
  is_event n1 received = true -> n1 <> n2 -> is_event n2 received = false.
Proof.
  unfold is_event. destruct (event_type received) as [t|]; [|discriminate].
  intros H Hn. apply eq_str_true in H. subst t. simpl.
  now apply String.eqb_neq.
Qed.

Lemma media_payload_is_media (received : sw_recv) (audio : json) :
  media_payload received = Some audio -> is_event "media" received = true.
Proof.
  unfold media_payload. destruct received as [[d|]|]; try discriminate.
  now destruct (is_event "media" _).
Qed.

Lemma media_payload_truthy (received : sw_recv) (audio : json) :
  media_payload received = Some audio -> Py.truthy audio = true.
Proof.
  unfold media_payload. destruct received as [[d|]|]; try discriminate.
  destruct (is_event "media" _); [|discriminate].
  destruct (Py.getitem "media" d) as [media|]; [|discriminate].
  destruct (Py.get "payload" media) as [a|]; [|discriminate].
  destruct (Py.truthy a) eqn:E; [|discriminate].
  now intros [= <-].
Qed.

(** Every turn of the receiver is one of four: a [start] event, a [media]
    event with audio, the end of the call, or a turn that neither changes
    the bridge nor does anything to a peer. *)
Lemma receive_iteration_normal (received : sw_recv) (b : SignalWireRealtimeBridge) :
  exists res,
    (res = Ok Break -> received = WebSocketDisconnect) /\
    Bridge.receive_iteration received b = turn_outcome res received b.
Proof.
  unfold turn_outcome.
  destruct (is_event "start" received) eqn:Hs.
  { exists (Ok Continue). split; [discriminate|].
    destruct (is_event_frame _ _ Hs) as [fields ->]. now apply receive_start. }
  destruct (is_event "media" received) eqn:Hm.
  { destruct (is_event_frame _ _ Hm) as [fields ->].
    rewrite (receive_media _ _ Hs Hm).
    destruct (media_payload (frame fields)); [exists (Ok Continue); split; [discriminate|reflexivity]|].
    unfold end_of_call.
    rewrite (is_event_exclusive "media" "stop" _ Hm), (is_event_exclusive "media" "close" _ Hm)
      by discriminate.
    simpl. eexists; split; [|reflexivity].
    destruct (Py.assoc "media" fields) as [[]|]; discriminate. }
  assert (Hp : media_payload received = None).
  { destruct (media_payload received) eqn:E; [|reflexivity].
    apply media_payload_is_media in E. congruence. }
  rewrite Hp.
  destruct received as [[d|]|].
  - destruct d as [ | | | | |fields];
      try (exists (Raise AttributeError); split; [discriminate|reflexivity]).
    change (Received (Wellformed (JObj fields))) with (frame fields) in *.
    rewrite (receive_other _ _ Hs Hm).
    destruct (end_of_call (frame fields)); [exists (Ok Continue); split; [discriminate|reflexivity]|].
    eexists; split; [|reflexivity].
    destruct (Py.in_str_set _ _); discriminate.
  - exists (Raise JSONDecodeError); split; [discriminate|reflexivity].
  - exists (Ok Break); split; [reflexivity|reflexivity].
Qed.

(** ** [run] up to [asyncio.wait] *)

Lemma run_entered (cfg : OpenAIConfig) (receiver_first : bool) (schedule : list label) :
  run cfg true receiver_first schedule =
  supervise receiver_first (exec schedule (entered cfg)).
Proof. reflexivity. Qed.

Lemma run_refused (cfg : OpenAIConfig) (receiver_first : bool) (schedule : list label) :
  exists out, run cfg false receiver_first schedule = Refused HandshakeError out.
Proof. eexists. reflexivity. Qed.

Lemma exec_app (s1 s2 : list label) (st : call) :
  exec (s1 ++ s2) st = exec s2 (exec s1 st).
Proof. unfold exec. now rewrite fold_left_app. Qed.

Lemma exec_snoc (schedule : list label) (l : label) (st : call) :
  exec (schedule ++ [l]) st = step l (exec schedule st).
Proof. now rewrite exec_app. Qed.

(** ** Logs *)

Lemma ws_frames_app (o1 o2 : list action) :
  ws_frames (o1 ++ o2) = ws_frames o1 ++ ws_frames o2.
Proof. apply flat_map_app. Qed.

Lemma ai_messages_app (o1 o2 : list action) :
  ai_messages (o1 ++ o2) = ai_messages o1 ++ ai_messages o2.
Proof. apply flat_map_app. Qed.

Lemma chunk_calls_app (o1 o2 : list action) :
  chunk_calls (o1 ++ o2) = chunk_calls o1 ++ chunk_calls o2.
Proof. apply flat_map_app. Qed.

Lemma closes_app (o1 o2 : list action) :
  closes (o1 ++ o2) = closes o1 + closes o2.
Proof. unfold closes. now rewrite filter_app, length_app. Qed.

Lemma ready_frames_app (o1 o2 : list action) :
  ready_frames (o1 ++ o2) = ready_frames o1 ++ ready_frames o2.
Proof. unfold ready_frames. now rewrite ws_frames_app, filter_app. Qed.

Lemma media_frames_app (o1 o2 : list action) :
  media_frames (o1 ++ o2) = media_frames o1 ++ media_frames o2.
Proof. unfold media_frames. now rewrite ws_frames_app, filter_app. Qed.

Lemma appends_app (o1 o2 : list action) :
  appends (o1 ++ o2) = appends o1 ++ appends o2.
Proof. unfold appends. now rewrite ai_messages_app, filter_app. Qed.

Lemma media_payloads_app (f1 f2 : list sw_recv) :
  media_payloads (f1 ++ f2) = media_payloads f1 ++ media_payloads f2.
Proof. apply flat_map_app. Qed.

Lemma deliveries_app (s1 s2 : list label) :
  deliveries (s1 ++ s2) = deliveries s1 ++ deliveries s2.
Proof. apply flat_map_app. Qed.

(** ** A turn of the receiver, in the call *)

Lemma start_is_nothing_else (received : sw_recv) :
  is_event "start" received = true ->
  media_payload received = None /\ end_of_call received = false.
Proof.
  intros H. split.
  - destruct (media_payload received) eqn:E; [|reflexivity].
    apply media_payload_is_media in E.
    now rewrite (is_event_exclusive "start" "media" _ H) in E.
  - unfold end_of_call.
    now rewrite (is_event_exclusive "start" "stop" _ H),
      (is_event_exclusive "start" "close" _ H).
Qed.

Lemma media_is_not_the_end (received : sw_recv) (audio : json) :
  media_payload received = Some audio -> end_of_call received = false.
Proof.
  intros H. apply media_payload_is_media in H. unfold end_of_call.
  now rewrite (is_event_exclusive "media" "stop" _ H),
    (is_event_exclusive "media" "close" _ H).
Qed.

(** What a turn does to the session and to the two peers. *)
Lemma turn_outcome_effect (res : result flow) (received : sw_recv)
  (b : SignalWireRealtimeBridge) :
  forall x b' out, turn_outcome res received b = (x, b', out) ->
  _openai_client b' = _openai_client b /\
  _ready b' = _ready b || start_with_identifier received /\
  _stream_id b' =
    (if is_event "start" received then stream_identifier received else _stream_id b) /\
  ws_frames out =
    (if start_with_identifier received then [Bridge.ready_frame] else []) /\
  chunk_calls out =
    match media_payload received with Some a => [(a, false)] | None => [] end /\
  closes out = 0 /\
  ai_messages out =
    (if Client.is_connected (_openai_client b) then
       match media_payload received with
       | Some a => [Client.append_message a]
       | None =>
           if end_of_call received
           then [Client.commit_message; Client.response_create_message]
           else []
       end
     else []) /\
  (x = Raise not_connected \/
   appends out =
     match media_payload received with
     | Some a => [Client.append_message a]
     | None => []
     end).
Proof.
  intros x b' out. unfold turn_outcome, start_with_identifier, closes.
  destruct (is_event "start" received) eqn:Hs.
  { destruct (start_is_nothing_else _ Hs) as [H1 H2]. rewrite H1.
    unfold start_handled. simpl andb.
    destruct (Py.truthy (stream_identifier received)); intros [= <- <- <-]; simpl;
      rewrite ?orb_true_r, ?orb_false_r, ?H2; destruct (Client.is_connected _); auto 10. }
  simpl andb. rewrite orb_false_r.
  destruct (media_payload received) as [audio|] eqn:Hm.
  { unfold chunk_sent.
    destruct (Client.is_connected _); intros [= <- <- <-]; simpl; auto 10. }
  destruct (end_of_call received).
  { unfold flushed. destruct (Client.is_connected _); intros [= <- <- <-]; simpl; auto 10. }
  intros [= <- <- <-]. destruct (Client.is_connected _); simpl; auto 10.
Qed.

(** ** A turn of the forwarder *)

(** The body of the loop leaves the bridge as it is and sends at most one
    frame, a [media] frame stamped with the stream identifier. *)
Lemma forward_event_effect (event : json) (b : SignalWireRealtimeBridge) :
  exists res out,
    Bridge.forward_event event b = (res, b, out) /\
    (out = [] \/
     exists audio,
       Py.truthy (_stream_id b) = true /\
       out = [WsSend (Bridge.media_frame (_stream_id b) audio)]).
Proof.
  unfold Bridge.forward_event.
  destruct event as [ | | | | |fields];
    try (exists (Raise AttributeError), []; split; [reflexivity|now left]).
  simpl Py.get. autorewrite with run.
  destruct (Py.eq_str _ "response.output_audio.delta").
  2: { exists (Ok tt), []. split; [|now left].
       destruct (Py.eq_str _ "response.completed"); [reflexivity|].
       now destruct (Py.eq_str _ "error"). }
  simpl Py.get_default. autorewrite with run.
  destruct (match Py.assoc "delta" fields with Some v => v | None => JObj [] end)
    as [ | | | | |dfields];
    try (exists (Raise AttributeError), []; split; [reflexivity|now left]).
  simpl Py.get. autorewrite with run.
  destruct (Py.truthy _).
  2: { exists (Ok tt), []. split; [reflexivity|now left]. }
  unfold Bridge._send_audio_to_signalwire, Bridge._send_signalwire.
  autorewrite with run.
  destruct (Py.truthy (_stream_id b)) eqn:E; simpl negb; cbv iota.
  - eexists (Ok tt), _. split; [reflexivity|]. right. eexists. split; reflexivity.
  - exists (Ok tt), []. split; [reflexivity|now left].
Qed.

(** An audio delta whose audio is not empty. *)
Lemma forward_event_delta (audio : json) (b : SignalWireRealtimeBridge) :
  Py.truthy audio = true ->
  Bridge.forward_event (audio_delta audio) b =
  (Ok tt, b,
   if Py.truthy (_stream_id b)
   then [WsSend (Bridge.media_frame (_stream_id b) audio)] else []).
Proof.
  intros H. unfold Bridge.forward_event, audio_delta.
  simpl Py.get. autorewrite with run.
  change (Py.eq_str (JStr "response.output_audio.delta") "response.output_audio.delta")
    with true. cbv iota.
  simpl Py.get_default. autorewrite with run.
  simpl Py.get. autorewrite with run. rewrite H.
  unfold Bridge._send_audio_to_signalwire, Bridge._send_signalwire.
  autorewrite with run.
  destruct (Py.truthy (_stream_id b)); reflexivity.
Qed.

(** The messages waiting in the connection of a client. *)
Lemma next_message_effect (c : OpenAIRealtimeClient) :
  forall res c', fst (Client.next_message c) = (res, c') ->
  snd (Client.next_message c) = [] /\
  Client.is_connected c' = Client.is_connected c /\
  (_connection c' = None <-> _connection c = None) /\
  _config c' = _config c.
Proof.
  intros res c'. unfold Client.next_message. autorewrite with run.
  destruct (_connection c) as [k|] eqn:Hk.
  2: { intros [= <- <-]. simpl. rewrite Hk. unfold Client.is_connected. tauto. }
  destruct (messages k) as [|item rest].
  { intros [= <- <-]. simpl. rewrite Hk. unfold Client.is_connected. intuition. }
  autorewrite with run.
  assert (Hc : forall c1, c1 = set_connection (Some {| closed := closed k; messages := rest |}) c ->
               Client.is_connected c1 = Client.is_connected c /\
               (_connection c1 = None <-> _connection c = None) /\ _config c1 = _config c).
  { intros c1 ->. unfold Client.is_connected. simpl. rewrite Hk. simpl.
    repeat split; intros; discriminate. }
  destruct item as [[event|]| |]; simpl; intros [= <- <-]; (split; [reflexivity|]);
    rewrite <- Hk; now apply Hc.
Qed.

Lemma responses_fresh (c : OpenAIRealtimeClient) :
  Client.responses Client.Fresh c =
  if Client.is_connected c then Client.next_message c
  else (Raise not_connected, c, []).
Proof.
  unfold Client.responses. autorewrite with run.
  now destruct (Client.is_connected c).
Qed.

Lemma responses_effect (gen : Client.generator) (c : OpenAIRealtimeClient) :
  forall res c', fst (Client.responses gen c) = (res, c') ->
  snd (Client.responses gen c) = [] /\
  Client.is_connected c' = Client.is_connected c /\
  (_connection c' = None <-> _connection c = None) /\
  _config c' = _config c.
Proof.
  intros res c'. destruct gen.
  - rewrite responses_fresh. destruct (Client.is_connected c) eqn:E.
    + intros H. destruct (next_message_effect c _ _ H) as (? & ? & ? & ?).
      rewrite <- E. auto.
    + intros [= <- <-]. simpl. rewrite E. tauto.
  - apply next_message_effect.
Qed.

(** A turn of the forwarder writes neither [_stream_id] nor [_ready], sends
    nothing to the realtime service, and sends the telephony peer at most
    one frame, a [media] frame stamped with the stream identifier. *)
Lemma forward_iteration_effect (gen : Client.generator) (b : SignalWireRealtimeBridge) :
  forall res b' out, Bridge.forward_iteration gen b = (res, b', out) ->
  _stream_id b' = _stream_id b /\
  _ready b' = _ready b /\
  Client.is_connected (_openai_client b') = Client.is_connected (_openai_client b) /\
  (_connection (_openai_client b') = None <-> _connection (_openai_client b) = None) /\
  (out = [] \/
   exists audio,
     Py.truthy (_stream_id b) = true /\
     out = [WsSend (Bridge.media_frame (_stream_id b) audio)]).
Proof.
  intros res b' out. unfold Bridge.forward_iteration, bind, Bridge.on_client.
  destruct (Client.responses gen (_openai_client b)) as [[next c'] o] eqn:E.
  destruct (responses_effect gen (_openai_client b) next c') as (Ho & Hc & Hn & _).
  { now rewrite E. }
  rewrite E in Ho. simpl in Ho. subst o.
  destruct next as [[event| |]|e].
  - destruct (forward_event_effect event (set_client c' b)) as (r & o & -> & Hout).
    destruct r; simpl; intros [= <- <- <-]; simpl in *;
      rewrite ?app_nil_r; auto 6.
  - intros [= <- <- <-]. simpl. auto 6.
  - intros [= <- <- <-]. simpl. auto 6.
  - intros [= <- <- <-]. simpl. auto 6.
Qed.

(** ** The steps of a call *)

Lemma step_telephony_live (received : sw_recv) (st : call) :
  receiver st = Live tt ->
  exists res,
    (res = Ok Break -> received = WebSocketDisconnect) /\
    step (Telephony received) st =
    {| bridge := snd (fst (turn_outcome res received (bridge st)));
       receiver := end_of_turn tt (fst (fst (turn_outcome res received (bridge st))));
       forwarder := forwarder st;
       log := log st ++ snd (turn_outcome res received (bridge st));
       heard := heard st ++ [received] |}.
Proof.
  intros Hlive.
  destruct (receive_iteration_normal received (bridge st)) as (res & Hres & H).
  exists res. split; [exact Hres|].
  simpl. unfold receiver_turn. rewrite Hlive, H.
  now destruct (turn_outcome res received (bridge st)) as [[x b'] out].
Qed.

Lemma step_telephony_idle (received : sw_recv) (st : call) :
  receiver st <> Live tt -> step (Telephony received) st = st.
Proof.
  intros H. simpl. unfold receiver_turn.
  destruct (receiver st) as [[]| | |]; try reflexivity. now destruct H.
Qed.

Lemma receiver_live_or_not (st : call) :
  receiver st = Live tt \/ receiver st <> Live tt.
Proof.
  destruct (receiver st) as [[]| | |]; [now left|right; discriminate..].
Qed.

Lemma step_forwarder (st : call) :
  step Forwarder st = st \/
  exists gen res b' out,
    (forwarder st = Live InLoop \/ _ready (bridge st) = true) /\
    Bridge.forward_iteration gen (bridge st) = (res, b', out) /\
    step Forwarder st =
    {| bridge := b';
       receiver := receiver st;
       forwarder := end_of_turn InLoop res;
       log := log st ++ out;
       heard := heard st |}.
Proof.
  simpl. unfold forwarder_turn, forwarder_run.
  destruct (forwarder st) as [[|]| | |] eqn:Hf; auto.
  - destruct (_ready (bridge st)) eqn:Hr; auto.
    right. destruct (Bridge.forward_iteration Client.Fresh (bridge st)) as [[res b'] out] eqn:E.
    exists Client.Fresh, res, b', out. auto.
  - right. destruct (Bridge.forward_iteration Client.Iterating (bridge st)) as [[res b'] out] eqn:E.
    exists Client.Iterating, res, b', out. auto.
Qed.

(** Induction along a schedule, one step at a time. *)
Lemma exec_ind (P : list label -> call -> Prop) (st0 : call) :
  P [] st0 ->
  (forall schedule l,
      P schedule (exec schedule st0) ->
      P (schedule ++ [l]) (step l (exec schedule st0))) ->
  forall schedule, P schedule (exec schedule st0).
Proof.
  intros H0 Hstep schedule.
  induction schedule as [|l schedule IH] using rev_ind; [exact H0|].
  rewrite exec_snoc. now apply Hstep.
Qed.

(** The session fields after a step. *)
Lemma step_session (l : label) (st : call) :
  (_ready (bridge (step l st)) = _ready (bridge st) \/
   exists received,
     l = Telephony received /\ receiver st = Live tt /\
     start_with_identifier received = true /\
     _ready (bridge (step l st)) = true) /\
  (_stream_id (bridge (step l st)) = _stream_id (bridge st) \/
   exists received,
     l = Telephony received /\ receiver st = Live tt /\
     is_event "start" received = true /\
     _stream_id (bridge (step l st)) = stream_identifier received).
Proof.
  destruct l as [received|item|].
  - destruct (receiver_live_or_not st) as [Hl|Hl].
    + destruct (step_telephony_live received st Hl) as (res & _ & ->). simpl.
      destruct (turn_outcome res received (bridge st)) as [[x b'] out] eqn:E.
      destruct (turn_outcome_effect _ _ _ _ _ _ E) as (_ & Hr & Hs & _). simpl.
      split.
      * destruct (start_with_identifier received) eqn:S.
        -- right. exists received. rewrite Hr, orb_true_r. auto.
        -- left. now rewrite Hr, orb_false_r.
      * destruct (is_event "start" received) eqn:S.
        -- right. exists received. auto.
        -- now left.
    + rewrite (step_telephony_idle _ _ Hl). auto.
  - simpl. auto.
  - destruct (step_forwarder st) as [->|(gen & res & b' & out & _ & E & ->)]; [auto|].
    destruct (forward_iteration_effect _ _ _ _ _ E) as (Hs & Hr & _). simpl. auto.
Qed.

(** What a step adds to the log and to the frames heard. *)
Lemma step_log (l : label) (st : call) :
  exists out hs,
    log (step l st) = log st ++ out /\
    heard (step l st) = heard st ++ hs /\
    chunk_calls out = map (fun a => (a, false)) (media_payloads hs) /\
    ready_frames out =
      map (fun _ => Bridge.ready_frame) (filter start_with_identifier hs) /\
    closes out = 0 /\
    (receiver (step l st) = Done (Raise not_connected) \/
     appends out = map Client.append_message (media_payloads hs)) /\
    (media_frames out = [] \/
     l = Forwarder /\
     (forwarder st = Live InLoop \/ _ready (bridge st) = true) /\
     exists audio,
       Py.truthy (_stream_id (bridge st)) = true /\
       out = [WsSend (Bridge.media_frame (_stream_id (bridge st)) audio)]).
Proof.
  assert (Hnone : exists out hs,
             log st = log st ++ out /\ heard st = heard st ++ hs /\
             chunk_calls out = map (fun a => (a, false)) (media_payloads hs) /\
             ready_frames out =
               map (fun _ => Bridge.ready_frame) (filter start_with_identifier hs) /\
             closes out = 0 /\
             appends out = map Client.append_message (media_payloads hs) /\
             media_frames out = []).
  { exists [], []. rewrite !app_nil_r. repeat split. }
  destruct l as [received|item|].
  - destruct (receiver_live_or_not st) as [Hl|Hl].
    + destruct (step_telephony_live received st Hl) as (res & _ & ->). simpl.
      destruct (turn_outcome res received (bridge st)) as [[x b'] out] eqn:E.
      destruct (turn_outcome_effect _ _ _ _ _ _ E) as (_ & _ & _ & Hw & Hc & Hz & _ & Ha).
      exists out, [received]. simpl. repeat split; auto.
      * rewrite Hc, app_nil_r. now destruct (media_payload received).
      * unfold ready_frames. rewrite Hw.
        now destruct (start_with_identifier received).
      * destruct Ha as [Ha|Ha]; rewrite Ha; [now left|right].
        rewrite app_nil_r. now destruct (media_payload received).
      * left. unfold media_frames. rewrite Hw.
        now destruct (start_with_identifier received).
    + rewrite (step_telephony_idle _ _ Hl).
      destruct Hnone as (out & hs & ? & ? & ? & ? & ? & ? & ?). exists out, hs. auto 10.
  - destruct Hnone as (out & hs & ? & ? & ? & ? & ? & ? & ?). exists out, hs. simpl. auto 10.
  - destruct (step_forwarder st) as [->|(gen & res & b' & out & Hgo & E & ->)].
    { destruct Hnone as (out & hs & ? & ? & ? & ? & ? & ? & ?). exists out, hs. auto 10. }
    destruct (forward_iteration_effect _ _ _ _ _ E) as (_ & _ & _ & _ & Hout).
    exists out, []. simpl. rewrite app_nil_r.
    destruct Hout as [->|(audio & Ht & ->)].
    + repeat split; auto.
    + repeat split; auto. right. repeat split; auto. now exists audio.
Qed.

Lemma step_receiver_idle (l : label) (st : call) :
  receiver st <> Live tt -> receiver (step l st) = receiver st.
Proof.
  intros H. destruct l as [received|item|].
  - now rewrite step_telephony_idle.
  - reflexivity.
  - destruct (step_forwarder st) as [->|(gen & res & b' & out & _ & _ & ->)]; reflexivity.
Qed.

Lemma exec_receiver_idle (schedule : list label) (st : call) :
  receiver st <> Live tt -> receiver (exec schedule st) = receiver st.
Proof.
  revert st. induction schedule as [|l schedule IH]; intros st H; [reflexivity|].
  simpl. rewrite IH; rewrite step_receiver_idle; auto.
Qed.

(** What a schedule adds to the log and to the frames heard. *)
Lemma exec_log (schedule : list label) (st : call) :
  exists out hs,
    log (exec schedule st) = log st ++ out /\
    heard (exec schedule st) = heard st ++ hs /\
    chunk_calls out = map (fun a => (a, false)) (media_payloads hs) /\
    ready_frames out =
      map (fun _ => Bridge.ready_frame) (filter start_with_identifier hs) /\
    closes out = 0 /\
    (receiver (exec schedule st) = Done (Raise not_connected) \/
     appends out = map Client.append_message (media_payloads hs)).
Proof.
  revert st. induction schedule as [|l schedule IH]; intros st.
  { exists [], []. simpl. rewrite !app_nil_r. repeat split. now right. }
  simpl.
  destruct (step_log l st) as (o1 & h1 & Hl1 & Hh1 & Hc1 & Hr1 & Hz1 & Ha1 & _).
  destruct (IH (step l st)) as (o2 & h2 & Hl2 & Hh2 & Hc2 & Hr2 & Hz2 & Ha2).
  exists (o1 ++ o2), (h1 ++ h2).
  rewrite Hl2, Hl1, Hh2, Hh1, !app_assoc.
  rewrite chunk_calls_app, ready_frames_app, closes_app, appends_app,
    media_payloads_app, filter_app, !map_app, Hc1, Hc2, Hr1, Hr2, Hz1, Hz2.
  repeat split.
  destruct Ha1 as [Ha1|Ha1].
  - left. rewrite exec_receiver_idle; [exact Ha1|]. rewrite Ha1. discriminate.
  - destruct Ha2 as [Ha2|Ha2]; [now left|right]. now rewrite Ha1, Ha2.
Qed.

(** Once the receiver has stopped, nothing more is heard and nothing more
    is sent to the realtime service. *)
Lemma step_after_receiver (l : label) (st : call) :
  receiver st <> Live tt ->
  heard (step l st) = heard st /\
  ai_messages (log (step l st)) = ai_messages (log st) /\
  chunk_calls (log (step l st)) = chunk_calls (log st).
Proof.
  intros H. destruct l as [received|item|].
  - now rewrite step_telephony_idle.
  - simpl. auto.
  - destruct (step_forwarder st) as [->|(gen & res & b' & out & _ & E & ->)]; [auto|].
    destruct (forward_iteration_effect _ _ _ _ _ E) as (_ & _ & _ & _ & Hout).
    simpl. rewrite ai_messages_app, chunk_calls_app.
    destruct Hout as [->|(audio & _ & ->)]; simpl; rewrite !app_nil_r; auto.
Qed.

Lemma exec_after_receiver (schedule : list label) (st : call) :
  receiver st <> Live tt ->
  heard (exec schedule st) = heard st /\
  ai_messages (log (exec schedule st)) = ai_messages (log st) /\
  chunk_calls (log (exec schedule st)) = chunk_calls (log st).
Proof.
  revert st. induction schedule as [|l schedule IH]; intros st H; [simpl; auto|].
  simpl. destruct (step_after_receiver l st H) as (H1 & H2 & H3).
  destruct (IH (step l st)) as (K1 & K2 & K3).
  { now rewrite step_receiver_idle. }
  rewrite K1, K2, K3. auto.
Qed.

(** The frames heard are the frames sent, up to the one that ends the loop. *)
Lemma exec_heard (schedule : list label) (st : call) :
  exists rest,
    heard st ++ frames_of schedule = heard (exec schedule st) ++ rest /\
    (receiver (exec schedule st) = Live tt -> rest = []).
Proof.
  revert st. induction schedule as [|l schedule IH]; intros st.
  { exists []. simpl. auto. }
  simpl exec. destruct (IH (step l st)) as (rest & Hr & Hlive).
  destruct l as [received|item|].
  - destruct (receiver_live_or_not st) as [Hl|Hl].
    + exists rest. split; [|exact Hlive]. rewrite <- Hr.
      destruct (step_telephony_live received st Hl) as (res & _ & ->). simpl.
      now rewrite <- app_assoc.
    + exists (received :: frames_of schedule).
      rewrite (step_telephony_idle _ _ Hl).
      destruct (exec_after_receiver schedule st Hl) as (-> & _).
      split; [reflexivity|]. intros E.
      rewrite exec_receiver_idle in E by exact Hl. contradiction.
  - exists rest. split; [|exact Hlive]. now rewrite <- Hr.
  - exists rest. split; [|exact Hlive]. rewrite <- Hr.
    destruct (step_forwarder st) as [->|(gen & res & b' & out & _ & _ & ->)]; reflexivity.
Qed.

(** ** The inbound loop *)

Lemma step_telephony_turn (received : sw_recv) (st : call) :
  receiver st = Live tt ->
  step (Telephony received) st =
  {| bridge := snd (fst (Bridge.receive_iteration received (bridge st)));
     receiver := end_of_turn tt (fst (fst (Bridge.receive_iteration received (bridge st))));
     forwarder := forwarder st;
     log := log st ++ snd (Bridge.receive_iteration received (bridge st));
     heard := heard st ++ [received] |}.
Proof.
  intros H. simpl. unfold receiver_turn. rewrite H.
  now destruct (Bridge.receive_iteration received (bridge st)) as [[r b] out].
Qed.



(** The outbound loop and the deliveries of the realtime service leave
    the inbound side as it is. *)
Lemma step_beside_inbound (l : label) (st : call) :
  (forall received, l <> Telephony received) ->
  heard (step l st) = heard st /\
  receiver (step l st) = receiver st /\
  ai_messages (log (step l st)) = ai_messages (log st) /\
  chunk_calls (log (step l st)) = chunk_calls (log st) /\
  (undisturbed l = true ->
   Client.is_connected (_openai_client (bridge (step l st))) =
   Client.is_connected (_openai_client (bridge st))).
Proof.
  intros H. destruct l as [received|item|].
  - now destruct (H received).
  - simpl. split; [reflexivity|]. split; [reflexivity|].
    split; [reflexivity|]. split; [reflexivity|].
    intros Hi. apply negb_true_iff in Hi.
    unfold deliver, Client.is_connected.
    destruct (_connection (_openai_client (bridge st))) as [k|] eqn:Hk;
      simpl; rewrite ?Hk; [|reflexivity].
    now rewrite Hi, orb_false_r.
  - destruct (step_forwarder st) as [->|(gen & res & b' & out & _ & E & ->)]; [auto 6|].
    simpl. rewrite ai_messages_app, chunk_calls_app.
    destruct (forward_iteration_effect _ _ _ _ _ E) as (_ & _ & Hc & _ & Hout).
    destruct Hout as [->|(audio & _ & ->)]; simpl; rewrite !app_nil_r; auto 6.
Qed.


(** How a turn ends on a frame that lets the loop go on: it goes on, but
    for a chunk that finds the realtime connection closed. *)
Lemma keeps_listening_result (received : sw_recv) (b : SignalWireRealtimeBridge) :
  keeps_listening received = true ->
  fst (fst (Bridge.receive_iteration received b)) =
  match media_payload received with
  | Some _ =>
      if Client.is_connected (_openai_client b) then Ok Continue
      else Raise not_connected
  | None => Ok Continue
  end.
Proof.
  unfold keeps_listening. intros Hk.
  destruct (is_event "start" received) eqn:Hs.
  { destruct (is_event_frame _ _ Hs) as [fields ->].
    destruct (start_is_nothing_else _ Hs) as [-> _].
    now rewrite (receive_start _ _ Hs). }
  destruct (media_payload received) as [audio|] eqn:Hm.
  { pose proof (media_payload_is_media _ _ Hm) as He.
    destruct (is_event_frame _ _ He) as [fields ->].
    rewrite (receive_media _ _ Hs He), Hm. unfold chunk_sent.
    now destruct (Client.is_connected _). }
  simpl in Hk.
  assert (Hn : exists name, is_event name received = true /\
                            ~ In name ["start"; "media"; "stop"; "close"]).
  { unfold is_event. destruct (event_type received) as [[ | | |name| | ]|];
      try discriminate.
    exists name. split; [apply String.eqb_refl|].
    intros Hin. apply negb_true_iff in Hk.
    assert (Ht : existsb (String.eqb name) ["start"; "media"; "stop"; "close"] = true).
    { apply existsb_exists. exists name. split; [exact Hin|apply String.eqb_refl]. }
    simpl in Ht. congruence. }
  destruct Hn as (name & He & Hname).
  destruct (is_event_frame _ _ He) as [fields ->].
  assert (Hx : forall other, In other ["start"; "media"; "stop"; "close"] ->
                             is_event other (frame fields) = false).
  { intros other Hin. apply (is_event_exclusive name other _ He).
    intros <-. contradiction. }
  rewrite receive_other by (apply Hx; simpl; auto).
  unfold end_of_call. rewrite !Hx by (simpl; auto). simpl orb. cbv iota.
  rewrite is_event_dict in He. apply eq_str_true in He. now rewrite He.
Qed.

(** When the inbound loop has ended, the last frame it processed is the
    one that ended it. *)
Lemma inbound_loop_ended (cfg : OpenAIConfig) (schedule : list label) :
  receiver (exec schedule (entered cfg)) <> Live tt ->
  exists before last,
    heard (exec schedule (entered cfg)) = before ++ [last] /\
    (keeps_listening last = false \/
     receiver (exec schedule (entered cfg)) = Done (Raise not_connected)).
Proof.
  apply (exec_ind
           (fun _ st =>
              receiver st <> Live tt ->
              exists before last,
                heard st = before ++ [last] /\
                (keeps_listening last = false \/
                 receiver st = Done (Raise not_connected)))).
  { intros H. now destruct H. }
  clear schedule. intros schedule l IH.
  set (st := exec schedule (entered cfg)) in *.
  destruct l as [received|item|].
  2: destruct (step_beside_inbound (Realtime item) st) as (-> & -> & _);
    [discriminate|exact IH].
  2: destruct (step_beside_inbound Forwarder st) as (-> & -> & _);
    [discriminate|exact IH].
  destruct (receiver_live_or_not st) as [Hl|Hl].
  2: { now rewrite (step_telephony_idle _ _ Hl). }
  rewrite (step_telephony_turn _ _ Hl). cbn [receiver heard]. intros Hend.
  exists (heard st), received. split; [reflexivity|].
  destruct (keeps_listening received) eqn:Hk; [|now left].
  rewrite (keeps_listening_result _ (bridge st) Hk) in *.
  destruct (media_payload received);
    [destruct (Client.is_connected _)|]; simpl in *; auto; now destruct Hend.
Qed.

(** Closes the cases of the invariant below. *)
Ltac shape_done :=
  repeat split; auto; try discriminate; rewrite ?app_nil_r; auto.

(** What the realtime service has been sent, at any point of a run: the
    [session.update], the chunks heard and, once, the flush.  A chunk
    heard is not sent only when the connection was closed or lost by
    then, which ends the loop. *)
Lemma inbound_shape (cfg : OpenAIConfig) (schedule : list label) :
  exists chunks flush,
    ai_messages (log (exec schedule (entered cfg))) =
      Client.session_update cfg :: map Client.append_message chunks ++ flush /\
    (flush = [] \/
     (flush = [Client.commit_message; Client.response_create_message] /\
      receiver (exec schedule (entered cfg)) = Done (Ok tt))) /\
    (media_payloads (heard (exec schedule (entered cfg))) = chunks \/
     exists lost,
       media_payloads (heard (exec schedule (entered cfg))) = chunks ++ [lost] /\
       receiver (exec schedule (entered cfg)) = Done (Raise not_connected)).
Proof.
  apply (exec_ind
           (fun _ st =>
              exists chunks flush,
                ai_messages (log st) =
                  Client.session_update cfg :: map Client.append_message chunks ++ flush /\
                (flush = [] \/
                 (flush = [Client.commit_message; Client.response_create_message] /\
                  receiver st = Done (Ok tt))) /\
                (media_payloads (heard st) = chunks \/
                 exists lost,
                   media_payloads (heard st) = chunks ++ [lost] /\
                   receiver st = Done (Raise not_connected)))).
  { exists [], []. simpl. auto. }
  clear schedule. intros schedule l (chunks & flush & Hai & Hflush & Hheard).
  set (st := exec schedule (entered cfg)) in *.
  assert (Hsame : heard (step l st) = heard st ->
                  receiver (step l st) = receiver st ->
                  ai_messages (log (step l st)) = ai_messages (log st) ->
                  exists chunks flush,
                    ai_messages (log (step l st)) =
                      Client.session_update cfg :: map Client.append_message chunks ++ flush /\
                    (flush = [] \/
                     (flush = [Client.commit_message; Client.response_create_message] /\
                      receiver (step l st) = Done (Ok tt))) /\
                    (media_payloads (heard (step l st)) = chunks \/
                     exists lost,
                       media_payloads (heard (step l st)) = chunks ++ [lost] /\
                       receiver (step l st) = Done (Raise not_connected))).
  { intros -> -> ->. exists chunks, flush. auto. }
  destruct l as [received|item|].
  2: destruct (step_beside_inbound (Realtime item) st) as (H1 & H2 & H3 & _);
    [discriminate|now apply Hsame].
  2: destruct (step_beside_inbound Forwarder st) as (H1 & H2 & H3 & _);
    [discriminate|now apply Hsame].
  destruct (receiver_live_or_not st) as [Hl|Hl].
  2: { rewrite (step_telephony_idle _ _ Hl) in *. now apply Hsame. }
  clear Hsame.
  assert (flush = [] /\ media_payloads (heard st) = chunks) as [-> <-].
  { split.
    - destruct Hflush as [H|[_ H]]; [exact H|congruence].
    - destruct Hheard as [H|(lost & _ & H)]; [exact H|congruence]. }
  clear Hflush Hheard. rewrite app_nil_r in Hai.
  destruct (step_telephony_live received st Hl) as (res & _ & ->).
  cbn [log heard receiver].
  rewrite ai_messages_app, Hai, media_payloads_app.
  change (media_payloads [received])
    with (match media_payload received with Some a => [a] | None => [] end ++ []).
  rewrite app_nil_r. unfold turn_outcome.
  destruct (is_event "start" received) eqn:Hs.
  { destruct (start_is_nothing_else _ Hs) as [Hm _]. rewrite Hm.
    exists (media_payloads (heard st)), []. unfold start_handled.
    destruct (Py.truthy (stream_identifier received)); simpl; shape_done. }
  destruct (media_payload received) as [audio|] eqn:Hm.
  { unfold chunk_sent.
    destruct (Client.is_connected (_openai_client (bridge st))); simpl.
    - exists (media_payloads (heard st) ++ [audio]), [].
      rewrite ?map_app, ?app_nil_r. simpl. rewrite <- ?app_assoc. simpl. shape_done.
    - exists (media_payloads (heard st)), [].
      rewrite ?app_nil_r. repeat split; auto. right. now exists audio. }
  destruct (end_of_call received).
  { unfold flushed.
    destruct (Client.is_connected (_openai_client (bridge st))); simpl.
    - exists (media_payloads (heard st)),
        [Client.commit_message; Client.response_create_message].
      rewrite ?app_nil_r. simpl. rewrite <- ?app_assoc. simpl. shape_done.
    - exists (media_payloads (heard st)), []. shape_done. }
  exists (media_payloads (heard st)), []. simpl. shape_done.
Qed.




(** The inbound scenario of the specification: [start], one [media]
    event, [stop]. *)
Example inbound_scenario :
  let st := exec [Telephony (start_event "s1"); Telephony (media_event "QUJD");
                  Telephony stop_event] (entered default_config) in
  ws_frames (log st) = [Bridge.ready_frame] /\
  ai_messages (log st) =
    [Client.session_update default_config;
     Client.append_message (JStr "QUJD");
     Client.commit_message;
     Client.response_create_message] /\
  receiver st = Done (Ok tt).
Proof. vm_compute. repeat split. Qed.

(** C5, as the code has it.  A [stop] or [close] event heard by the
    running loop ends it, and what it sends depends on the realtime
    connection.  On a connected client the turn sends exactly
    [{"type": "input_audio_buffer.commit"}] and then
    [{"type": "response.create", "response": {}}], nothing else, and the
    loop ends without an error.  When the connection has been closed or
    lost, the first [send_json] raises
    [RuntimeError("Realtime client not connected")]: nothing is sent and
    the loop ends with that error.  Either way the bridge is left as it
    was, and whatever happens afterwards no further frame is processed
    (a later frame changes nothing) and the realtime service is sent
    nothing more. *)
Theorem end_of_call_flushes_once (st : call) (received : sw_recv) :
  receiver st = Live tt ->
  end_of_call received = true ->
  let st' := step (Telephony received) st in
  (Client.is_connected (_openai_client (bridge st)) = true ->
   log st' =
     log st ++
     [AiSend (JObj [("type", JStr "input_audio_buffer.commit")]);
      AiSend (JObj [("type", JStr "response.create"); ("response", JObj [])])] /\
   receiver st' = Done (Ok tt)) /\
  (Client.is_connected (_openai_client (bridge st)) = false ->
   log st' = log st /\
   receiver st' = Done (Raise (RuntimeError "Realtime client not connected"))) /\
  heard st' = heard st ++ [received] /\
  bridge st' = bridge st /\
  forwarder st' = forwarder st /\
  forall schedule later,
    step (Telephony later) (exec schedule st') = exec schedule st' /\
    receiver (exec schedule st') = receiver st' /\
    heard (exec schedule st') = heard st' /\
    ai_messages (log (exec schedule st')) = ai_messages (log st').
Proof.
  intros Hlive Hend. cbv zeta.
  destruct (step_telephony_live received st Hlive) as (res & _ & E).
  assert (Ht : turn_outcome res received (bridge st) = flushed (bridge st)).
  { unfold turn_outcome.
    destruct (is_event "start" received) eqn:Hs.
    { destruct (start_is_nothing_else _ Hs) as [_ Hn]. congruence. }
    destruct (media_payload received) as [audio|] eqn:Hm.
    { apply media_is_not_the_end in Hm. congruence. }
    now rewrite Hend. }
  rewrite E, Ht. clear E Ht. unfold flushed.
  set (st' := {| bridge := _ |}).
  assert (Hdone : receiver st' <> Live tt).
  { subst st'. simpl. destruct (Client.is_connected _); simpl; discriminate. }
  assert (Hafter : forall schedule later,
             step (Telephony later) (exec schedule st') = exec schedule st' /\
             receiver (exec schedule st') = receiver st' /\
             heard (exec schedule st') = heard st' /\
             ai_messages (log (exec schedule st')) = ai_messages (log st')).
  { intros schedule later.
    pose proof (exec_receiver_idle schedule st' Hdone) as Hr.
    destruct (exec_after_receiver schedule st' Hdone) as (Hh & Ha & _).
    repeat split; auto.
    apply step_telephony_idle. now rewrite Hr. }
  split; [|split; [|split; [|split; [|split; [|exact Hafter]]]]]; subst st'; simpl.
  - intros ->. auto.
  - intros ->. simpl. now rewrite app_nil_r.
  - now destruct (Client.is_connected _).
  - now destruct (Client.is_connected _).
  - now destruct (Client.is_connected _).
Qed.

Lemma end_of_call_flushes_once_witness :
  let st := exec [Telephony (start_event "s1"); Telephony (media_event "QUJD")]
              (entered default_config) in
  let st' := step (Telephony stop_event) st in
  log st' =
    log st ++
    [AiSend (JObj [("type", JStr "input_audio_buffer.commit")]);
     AiSend (JObj [("type", JStr "response.create"); ("response", JObj [])])] /\
  receiver st' = Done (Ok tt) /\
  bridge st' = bridge st /\
  forall schedule later,
    step (Telephony later) (exec schedule st') = exec schedule st' /\
    receiver (exec schedule st') = receiver st' /\
    heard (exec schedule st') = heard st' /\
    ai_messages (log (exec schedule st')) = ai_messages (log st').
Proof.
  cbv zeta.
  destruct (end_of_call_flushes_once
              (exec [Telephony (start_event "s1"); Telephony (media_event "QUJD")]
                 (entered default_config))
              stop_event eq_refl eq_refl)
    as (Hopen & _ & _ & Hb & _ & Hafter).
  destruct (Hopen eq_refl) as [Hl Hr].
  split; [exact Hl|]. split; [exact Hr|]. split; [exact Hb|exact Hafter].
Defined.

(** The realtime service closes the connection, then the telephony peer
    sends [stop]: the loop is running and hears the event, and it sends
    neither a commit nor a [response.create]; it ends with the
    not-connected error. *)
Lemma stop_after_closure_sends_nothing :
  let st := exec [Realtime AiClosedOK] (entered default_config) in
  let st' := step (Telephony stop_event) st in
  receiver st = Live tt /\
  end_of_call stop_event = true /\
  log st' = log st /\
  ai_messages (log st') = [Client.session_update default_config] /\
  receiver st' = Done (Raise (RuntimeError "Realtime client not connected")).
Proof. cbv zeta. repeat split. Qed.

(** C6, as the code has it.  A [start] event heard by the running loop
    that carries a non-empty stream identifier under [streamId] or
    [stream_id] sends exactly one [ready] frame, records the identifier and
    sets the readiness event; the loop goes on.  Over a whole call the
    [ready] frames sent are as many as such [start] events heard: one when
    the telephony peer starts the stream once. *)
Theorem start_event_makes_ready :
  (forall (st : call) (received : sw_recv),
      receiver st = Live tt ->
      start_with_identifier received = true ->
      let st' := step (Telephony received) st in
      log st' = log st ++ [WsSend Bridge.ready_frame] /\
      _ready (bridge st') = true /\
      _stream_id (bridge st') = stream_identifier received /\
      receiver st' = Live tt) /\
  (forall (cfg : OpenAIConfig) (schedule : list label),
      let st := exec schedule (entered cfg) in
      ready_frames (log st) =
        map (fun _ => Bridge.ready_frame) (filter start_with_identifier (heard st))).
Proof.
  split.
  - intros st received Hlive Hstart. cbv zeta.
    destruct (step_telephony_live received st Hlive) as (res & _ & ->).
    unfold start_with_identifier in Hstart. apply andb_true_iff in Hstart.
    destruct Hstart as [Hs Hid].
    unfold turn_outcome, start_handled. rewrite Hs, Hid. simpl. auto.
  - intros cfg schedule. cbv zeta.
    destruct (exec_log schedule (entered cfg)) as (out & hs & Hl & Hh & _ & Hr & _).
    rewrite Hl, Hh, ready_frames_app. simpl. exact Hr.
Qed.

Lemma start_event_makes_ready_witness :
  let st := entered default_config in
  let st' := step (Telephony (start_event "s1")) st in
  log st' = log st ++ [WsSend Bridge.ready_frame] /\
  _ready (bridge st') = true /\
  _stream_id (bridge st') = JStr "s1" /\
  receiver st' = Live tt.
Proof.
  exact (proj1 start_event_makes_ready (entered default_config) (start_event "s1")
           eq_refl eq_refl).
Defined.

(** The identifier is read under either key. *)
Example start_event_other_key :
  stream_identifier (frame [("type", JStr "start"); ("stream_id", JStr "s1")]) = JStr "s1" /\
  start_with_identifier (frame [("type", JStr "start"); ("stream_id", JStr "s1")]) = true.
Proof. split; reflexivity. Qed.

(** C6 as stated fails: a telephony peer that sends [start] twice gets two
    [ready] frames in one call. *)
Lemma two_starts_two_ready_frames :
  start_with_identifier (start_event "s1") = true /\
  start_with_identifier (start_event "s2") = true /\
  ready_frames
    (log (exec [Telephony (start_event "s1"); Telephony (start_event "s2")]
            (entered default_config))) =
  [Bridge.ready_frame; Bridge.ready_frame].
Proof. vm_compute. repeat split. Qed.

(** ** The session *)

Lemma step_ready_stays (l : label) (st : call) :
  _ready (bridge st) = true -> _ready (bridge (step l st)) = true.
Proof.
  intros H.
  destruct (step_session l st) as [[Hr|(received & _ & _ & _ & Hr)] _]; congruence.
Qed.

(** C7, as the code has it.  Readiness, once set, stays set.  A step that
    is not the inbound loop hearing a [start] event (a step of the
    outbound loop, a delivery of the realtime service, any other frame)
    writes neither the stream identifier nor readiness.  A [start] event
    that lacks a stream identifier sends nothing, leaves readiness as it
    was and lets the loop go on. *)
Theorem session_written_by_start_events :
  (forall (l : label) (st : call),
      _ready (bridge st) = true -> _ready (bridge (step l st)) = true) /\
  (forall (l : label) (st : call),
      (forall received, l = Telephony received -> is_event "start" received = false) ->
      _stream_id (bridge (step l st)) = _stream_id (bridge st) /\
      _ready (bridge (step l st)) = _ready (bridge st)) /\
  (forall (st : call) (received : sw_recv),
      start_without_identifier received = true ->
      let st' := step (Telephony received) st in
      _ready (bridge st') = _ready (bridge st) /\
      log st' = log st /\
      receiver st' = receiver st).
Proof.
  split; [|split].
  - intros l st H.
    destruct (step_session l st) as [[Hr|(received & _ & _ & _ & Hr)] _]; congruence.
  - intros l st H. split.
    + destruct (step_session l st) as [_ [Hs|(received & -> & _ & Hs & _)]]; [exact Hs|].
      specialize (H received eq_refl). congruence.
    + destruct (step_session l st) as [[Hr|(received & -> & _ & Hs & _)] _]; [exact Hr|].
      specialize (H received eq_refl). unfold start_with_identifier in Hs.
      rewrite H in Hs. discriminate.
  - intros st received H. cbv zeta.
    destruct (receiver_live_or_not st) as [Hl|Hl];
      [|now rewrite (step_telephony_idle _ _ Hl)].
    destruct (step_telephony_live received st Hl) as (res & _ & ->).
    unfold start_without_identifier in H. apply andb_true_iff in H.
    destruct H as [Hs Hid]. apply negb_true_iff in Hid.
    unfold turn_outcome, start_handled. rewrite Hs, Hid. simpl.
    rewrite app_nil_r, Hl. auto.
Qed.

Lemma session_written_by_start_events_witness :
  let st := exec [Telephony (start_event "s1")] (entered default_config) in
  (_ready (bridge (step Forwarder st)) = true) /\
  (_stream_id (bridge (step (Telephony (media_event "QUJD")) st)) = _stream_id (bridge st) /\
   _ready (bridge (step (Telephony (media_event "QUJD")) st)) = _ready (bridge st)) /\
  (_ready (bridge (step (Telephony bare_start_event) st)) = _ready (bridge st) /\
   log (step (Telephony bare_start_event) st) = log st /\
   receiver (step (Telephony bare_start_event) st) = receiver st).
Proof.
  split; [|split].
  - exact (proj1 session_written_by_start_events Forwarder
             (exec [Telephony (start_event "s1")] (entered default_config)) eq_refl).
  - apply (proj1 (proj2 session_written_by_start_events)).
    intros received [= <-]. reflexivity.
  - exact (proj2 (proj2 session_written_by_start_events)
             (exec [Telephony (start_event "s1")] (entered default_config))
             bare_start_event eq_refl).
Defined.

(** C7 as stated fails twice.  A second [start] event writes the stream
    identifier a second time; and a [start] event that lacks an identifier
    does not leave the session as it was: line 55 has already overwritten
    the identifier when [_on_start] finds nothing to record. *)
Lemma session_fields_rewritten :
  let st0 := entered default_config in
  let st1 := exec [Telephony (start_event "s1")] st0 in
  _stream_id (bridge st0) = JNull /\
  _stream_id (bridge st1) = JStr "s1" /\
  _stream_id (bridge (step (Telephony (start_event "s2")) st1)) = JStr "s2" /\
  start_without_identifier bare_start_event = true /\
  _stream_id (bridge (step (Telephony bare_start_event) st1)) = JNull /\
  _ready (bridge (step (Telephony bare_start_event) st1)) = true.
Proof. vm_compute. repeat split. Qed.

(** ** The outbound loop *)

Lemma step_telephony_client (received : sw_recv) (st : call) :
  _openai_client (bridge (step (Telephony received) st)) = _openai_client (bridge st) /\
  forwarder (step (Telephony received) st) = forwarder st.
Proof.
  destruct (receiver_live_or_not st) as [Hl|Hl];
    [|now rewrite (step_telephony_idle _ _ Hl)].
  destruct (step_telephony_live received st Hl) as (res & _ & ->). simpl.
  destruct (turn_outcome res received (bridge st)) as [[x b'] out] eqn:E.
  now destruct (turn_outcome_effect _ _ _ _ _ _ E) as (Hc & _).
Qed.

Lemma step_realtime_inbox (item : ai_item) (st : call) :
  _connection (_openai_client (bridge st)) <> None ->
  inbox (step (Realtime item) st) = inbox st ++ [item] /\
  _connection (_openai_client (bridge (step (Realtime item) st))) <> None.
Proof.
  unfold inbox. simpl. unfold deliver.
  destruct (_connection (_openai_client (bridge st))) as [k|]; [|contradiction].
  intros _. simpl. split; [reflexivity|discriminate].
Qed.

Lemma step_forwarder_waiting (st : call) :
  forwarder st = Live AwaitReady -> _ready (bridge st) = false ->
  step Forwarder st = st.
Proof.
  intros Hf Hr. simpl. unfold forwarder_turn. now rewrite Hf, Hr.
Qed.

Lemma step_connection (l : label) (st : call) :
  _connection (_openai_client (bridge st)) <> None ->
  _connection (_openai_client (bridge (step l st))) <> None.
Proof.
  intros H. destruct l as [received|item|].
  - now destruct (step_telephony_client received st) as [-> _].
  - now apply step_realtime_inbox.
  - destruct (step_forwarder st) as [->|(gen & res & b' & out & _ & E & ->)]; [exact H|].
    destruct (forward_iteration_effect _ _ _ _ _ E) as (_ & _ & _ & Hn & _).
    simpl. tauto.
Qed.

(** What a step sends to the telephony peer: nothing, the [ready] frame of
    a [start] event, or one [media] frame from the outbound loop. *)
Lemma step_ws_frames (l : label) (st : call) :
  exists sent,
    ws_frames (log (step l st)) = ws_frames (log st) ++ sent /\
    ((sent = [] /\ _ready (bridge (step l st)) = _ready (bridge st)) \/
     (sent = [Bridge.ready_frame] /\ _ready (bridge (step l st)) = true) \/
     (exists audio,
        sent = [Bridge.media_frame (_stream_id (bridge st)) audio] /\
        l = Forwarder /\
        (forwarder st = Live InLoop \/ _ready (bridge st) = true))).
Proof.
  destruct l as [received|item|].
  - destruct (receiver_live_or_not st) as [Hl|Hl].
    + destruct (step_telephony_live received st Hl) as (res & _ & ->). simpl.
      destruct (turn_outcome res received (bridge st)) as [[x b'] out] eqn:E.
      destruct (turn_outcome_effect _ _ _ _ _ _ E) as (_ & Hr & _ & Hw & _).
      exists (ws_frames out). simpl. rewrite ws_frames_app. split; [reflexivity|].
      rewrite Hw, Hr. destruct (start_with_identifier received).
      * right. left. now rewrite orb_true_r.
      * left. now rewrite orb_false_r.
    + rewrite (step_telephony_idle _ _ Hl). exists []. rewrite app_nil_r. auto.
  - exists []. simpl. rewrite app_nil_r. auto.
  - destruct (step_forwarder st) as [->|(gen & res & b' & out & Hgo & E & ->)].
    { exists []. rewrite app_nil_r. auto. }
    destruct (forward_iteration_effect _ _ _ _ _ E) as (_ & Hr & _ & _ & Hout).
    exists (ws_frames out). simpl. rewrite ws_frames_app. split; [reflexivity|].
    destruct Hout as [->|(audio & _ & ->)]; [now left|].
    right. right. exists audio. auto.
Qed.

(** Until the session is ready the forwarder waits: nothing has been sent
    to the telephony peer, and the connection holds everything the
    realtime service has delivered.  Once it is ready, the first frame
    sent was a [ready] frame. *)
Lemma waiting_for_ready (cfg : OpenAIConfig) (schedule : list label) :
  _connection (_openai_client (bridge (exec schedule (entered cfg)))) <> None /\
  (_ready (bridge (exec schedule (entered cfg))) = false ->
   forwarder (exec schedule (entered cfg)) = Live AwaitReady /\
   ws_frames (log (exec schedule (entered cfg))) = [] /\
   inbox (exec schedule (entered cfg)) = deliveries schedule) /\
  (_ready (bridge (exec schedule (entered cfg))) = true ->
   exists rest,
     ws_frames (log (exec schedule (entered cfg))) = Bridge.ready_frame :: rest).
Proof.
  apply (exec_ind
           (fun schedule st =>
              _connection (_openai_client (bridge st)) <> None /\
              (_ready (bridge st) = false ->
               forwarder st = Live AwaitReady /\
               ws_frames (log st) = [] /\
               inbox st = deliveries schedule) /\
              (_ready (bridge st) = true ->
               exists rest, ws_frames (log st) = Bridge.ready_frame :: rest))).
  { split; [discriminate|]. split; [|discriminate]. intros _. repeat split. }
  clear schedule. intros schedule l (Hconn & IH0 & IH1).
  set (st := exec schedule (entered cfg)) in *.
  destruct (step_ws_frames l st) as (sent & Hw & Hsent).
  split; [now apply step_connection|]. split.
  - intros Hr'.
    assert (Hr : _ready (bridge st) = false).
    { destruct (_ready (bridge st)) eqn:E; [|reflexivity].
      rewrite (step_ready_stays l st E) in Hr'. discriminate. }
    destruct (IH0 Hr) as (Hf & Hm & Hi).
    assert (Hnil : sent = []).
    { destruct Hsent as [[H _]|[[_ H]|(audio & _ & _ & [H|H])]]; congruence. }
    rewrite Hw, Hm, Hnil, deliveries_app.
    destruct l as [received|item|].
    + destruct (step_telephony_client received st) as [Hc Hfw].
      rewrite Hfw. unfold inbox. rewrite Hc. fold (inbox st). simpl.
      rewrite app_nil_r. auto.
    + destruct (step_realtime_inbox item st Hconn) as [-> _]. simpl.
      rewrite Hi. auto.
    + rewrite (step_forwarder_waiting st Hf Hr). simpl. rewrite app_nil_r. auto.
  - intros Hr'. rewrite Hw.
    destruct (_ready (bridge st)) eqn:Hr.
    + destruct (IH1 eq_refl) as (rest & ->). now exists (rest ++ sent).
    + destruct (IH0 eq_refl) as (Hf & -> & _).
      destruct Hsent as [[_ H]|[[-> _]|(audio & _ & _ & [H|H])]].
      * congruence.
      * now exists [].
      * congruence.
      * congruence.
Qed.

(** C1, as the code has it.  At every point of every run at which the
    session is not ready, nothing has been sent to the telephony peer, so
    no [media] frame has; the outbound loop is still waiting for readiness
    and has read nothing: every message the realtime service has delivered
    so far is kept by the connection, in order of arrival, for the loop to
    read once the session is ready.  And once the session is ready, the
    first frame sent to the telephony peer was the [ready] frame: every
    [media] frame comes after it. *)
Theorem no_media_before_ready (cfg : OpenAIConfig) (schedule : list label) :
  let st := exec schedule (entered cfg) in
  (_ready (bridge st) = false ->
   ws_frames (log st) = [] /\
   forwarder st = Live AwaitReady /\
   inbox st = deliveries schedule) /\
  (_ready (bridge st) = true ->
   exists rest, ws_frames (log st) = Bridge.ready_frame :: rest).
Proof.
  cbv zeta. destruct (waiting_for_ready cfg schedule) as (_ & K0 & K1).
  split; [|exact K1].
  intros H. destruct (K0 H) as (Hf & Hm & Hi). auto.
Qed.

Lemma no_media_before_ready_witness :
  let st := exec [Realtime (delta_message "ZFJD"); Forwarder] (entered default_config) in
  ws_frames (log st) = [] /\
  forwarder st = Live AwaitReady /\
  inbox st = [delta_message "ZFJD"].
Proof.
  exact (proj1 (no_media_before_ready default_config
                  [Realtime (delta_message "ZFJD"); Forwarder]) eq_refl).
Defined.

(** C1 as stated fails in its second half: an audio delta that arrives
    before the session is ready is not dropped.  It waits in the
    connection and is sent to the telephony peer as soon as the session is
    ready and the outbound loop runs. *)
Lemma early_delta_is_delivered :
  let early := [Realtime (delta_message "ZFJD")] in
  let later := [Telephony (start_event "s1"); Forwarder] in
  _ready (bridge (exec early (entered default_config))) = false /\
  ws_frames (log (exec early (entered default_config))) = [] /\
  ws_frames (log (exec (early ++ later) (entered default_config))) =
    [Bridge.ready_frame; Bridge.media_frame (JStr "s1") (JStr "ZFJD")].
Proof. vm_compute. repeat split. Qed.

Lemma next_message_yield (c : OpenAIRealtimeClient) (k : connection)
  (event : json) (rest : list ai_item) :
  _connection c = Some k ->
  messages k = AiMessage (Wellformed event) :: rest ->
  Client.next_message c =
  (Ok (Client.Yield event),
   set_connection (Some {| closed := closed k; messages := rest |}) c, []).
Proof.
  intros Hk Hm. unfold Client.next_message. autorewrite with run.
  rewrite Hk, Hm. autorewrite with run. simpl json_loads.
  now autorewrite with run.
Qed.

Lemma forwarder_step_delta (st : call) (audio : json) (rest : list ai_item) :
  reading st ->
  _ready (bridge st) = true ->
  Py.truthy (_stream_id (bridge st)) = true ->
  Py.truthy audio = true ->
  inbox st = AiMessage (Wellformed (audio_delta audio)) :: rest ->
  log (step Forwarder st) =
    log st ++ [WsSend (Bridge.media_frame (_stream_id (bridge st)) audio)] /\
  inbox (step Forwarder st) = rest /\
  forwarder (step Forwarder st) = Live InLoop /\
  _stream_id (bridge (step Forwarder st)) = _stream_id (bridge st) /\
  _ready (bridge (step Forwarder st)) = true /\
  receiver (step Forwarder st) = receiver st /\
  heard (step Forwarder st) = heard st.
Proof.
  intros Hread Hr Hs Ha Hin.
  unfold inbox in Hin.
  destruct (_connection (_openai_client (bridge st))) as [k|] eqn:Hk; [|discriminate].
  assert (E : forall gen,
             (gen = Client.Iterating \/
              Client.is_connected (_openai_client (bridge st)) = true) ->
             Bridge.forward_iteration gen (bridge st) =
             (Ok Continue,
              set_client
                (set_connection (Some {| closed := closed k; messages := rest |})
                   (_openai_client (bridge st))) (bridge st),
              [WsSend (Bridge.media_frame (_stream_id (bridge st)) audio)])).
  { intros gen Hg. unfold Bridge.forward_iteration, bind, Bridge.on_client.
    assert (Client.responses gen (_openai_client (bridge st)) =
            Client.next_message (_openai_client (bridge st))) as ->.
    { destruct gen; [|reflexivity]. rewrite responses_fresh.
      destruct Hg as [Hg|Hg]; [discriminate|now rewrite Hg]. }
    rewrite (next_message_yield _ _ _ _ Hk Hin).
    rewrite forward_event_delta by exact Ha. simpl. now rewrite Hs. }
  simpl. unfold forwarder_turn, forwarder_run, inbox.
  destruct Hread as [Hf|[Hf Hc]]; rewrite Hf, ?Hr.
  - rewrite (E Client.Iterating) by now left. simpl. auto 10.
  - rewrite (E Client.Fresh) by now right. simpl. auto 10.
Qed.

Lemma forward_event_audio
  (fields delta : list (string * json)) (b : SignalWireRealtimeBridge) :
  Py.eq_str (item "type" fields) "response.output_audio.delta" = true ->
  Py.assoc "delta" fields = Some (JObj delta) ->
  Py.truthy (item "audio" delta) = true ->
  Bridge.forward_event (JObj fields) b =
  (Ok tt, b,
   if Py.truthy (_stream_id b)
   then [WsSend (Bridge.media_frame (_stream_id b) (item "audio" delta))] else []).
Proof.
  intros Ht Hd Ha. unfold Bridge.forward_event.
  simpl Py.get at 1. rewrite bind_ok. fold (item "type" fields). rewrite Ht.
  simpl Py.get_default. rewrite Hd, bind_ok.
  simpl Py.get. rewrite bind_ok. fold (item "audio" delta). rewrite Ha.
  unfold Bridge._send_audio_to_signalwire, Bridge._send_signalwire.
  autorewrite with run.
  destruct (Py.truthy (_stream_id b)); reflexivity.
Qed.

Lemma forwarder_step_audio (st : call) (audio event : json) (rest : list ai_item) :
  reading st ->
  _ready (bridge st) = true ->
  Py.truthy (_stream_id (bridge st)) = true ->
  carries_audio audio event ->
  Py.truthy audio = true ->
  inbox st = AiMessage (Wellformed event) :: rest ->
  log (step Forwarder st) =
    log st ++ [WsSend (Bridge.media_frame (_stream_id (bridge st)) audio)] /\
  inbox (step Forwarder st) = rest /\
  forwarder (step Forwarder st) = Live InLoop /\
  _stream_id (bridge (step Forwarder st)) = _stream_id (bridge st) /\
  _ready (bridge (step Forwarder st)) = true.
Proof.
  intros Hread Hr Hs (fields & delta & -> & Ht & Hd & <-) Ha Hin.
  unfold inbox in Hin.
  destruct (_connection (_openai_client (bridge st))) as [k|] eqn:Hk; [|discriminate].
  assert (E : forall gen,
             (gen = Client.Iterating \/
              Client.is_connected (_openai_client (bridge st)) = true) ->
             Bridge.forward_iteration gen (bridge st) =
             (Ok Continue,
              set_client
                (set_connection (Some {| closed := closed k; messages := rest |})
                   (_openai_client (bridge st))) (bridge st),
              [WsSend (Bridge.media_frame (_stream_id (bridge st))
                         (item "audio" delta))])).
  { intros gen Hg. unfold Bridge.forward_iteration, bind, Bridge.on_client.
    assert (Client.responses gen (_openai_client (bridge st)) =
            Client.next_message (_openai_client (bridge st))) as ->.
    { destruct gen; [|reflexivity]. rewrite responses_fresh.
      destruct Hg as [Hg|Hg]; [discriminate|now rewrite Hg]. }
    rewrite (next_message_yield _ _ _ _ Hk Hin).
    rewrite (forward_event_audio _ _ _ Ht Hd Ha). simpl. now rewrite Hs. }
  simpl. unfold forwarder_turn, forwarder_run, inbox.
  destruct Hread as [Hf|[Hf Hc]]; rewrite Hf, ?Hr.
  - rewrite (E Client.Iterating) by now left. simpl. auto 10.
  - rewrite (E Client.Fresh) by now right. simpl. auto 10.
Qed.

(** C3.  Let the session be ready with a non-empty stream identifier [s],
    the outbound loop be reading, and the connection hold events of type
    [response.output_audio.delta] whose [delta] carries non-empty audio
    (whatever else the events carry).  Then the loop, turn after turn,
    reads them in the order they arrived and sends for each exactly the
    frame [{"event": "media", "streamId": s, "media": {"payload": a}}],
    [a] being the audio of the event, in that order and nothing else; the
    session is left as it was. *)
Theorem audio_deltas_forwarded_in_order
  (st : call) (s : json) (events audios : list json) (rest : list ai_item) :
  reading st ->
  _ready (bridge st) = true ->
  _stream_id (bridge st) = s ->
  Py.truthy s = true ->
  Forall2 carries_audio audios events ->
  Forall (fun a => Py.truthy a = true) audios ->
  inbox st = map (fun event => AiMessage (Wellformed event)) events ++ rest ->
  let st' := exec (repeat Forwarder (length events)) st in
  log st' =
    log st ++
    map (fun a =>
           WsSend (JObj [("event", JStr "media");
                         ("streamId", s);
                         ("media", JObj [("payload", a)])]))
      audios /\
  inbox st' = rest /\
  _stream_id (bridge st') = s /\
  _ready (bridge st') = true /\
  reading st'.
Proof.
  intros Hread Hr Hs Ht Hev. revert st Hread Hr Hs.
  induction Hev as [|a event audios events Hc Hev IH]; intros st Hread Hr Hs Hall Hin.
  { simpl. rewrite app_nil_r. auto. }
  apply Forall_cons_iff in Hall. destruct Hall as [Ha Hall'].
  simpl in Hin.
  assert (Ht' : Py.truthy (_stream_id (bridge st)) = true) by now rewrite Hs.
  destruct (forwarder_step_audio st a event _ Hread Hr Ht' Hc Ha Hin)
    as (Hl & Hi & Hf & Hs' & Hr').
  cbv zeta.
  change (exec (repeat Forwarder (length (event :: events))) st)
    with (exec (repeat Forwarder (length events)) (step Forwarder st)).
  destruct (IH (step Forwarder st)) as (Kl & Ki & Ks & Kr & Kread); auto.
  { now left. }
  { congruence. }
  rewrite Kl, Hl, <- app_assoc, Hs. split; [reflexivity|auto].
Qed.

Lemma audio_deltas_forwarded_in_order_witness :
  let tagged :=
    JObj [("event_id", JStr "e2");
          ("type", JStr "response.output_audio.delta");
          ("delta", JObj [("audio", JStr "R0hJ"); ("index", JNum 1)])] in
  let st := exec [Telephony (start_event "s1"); Realtime (delta_message "ZFJD");
                  Realtime (AiMessage (Wellformed tagged))] (entered default_config) in
  let st' := exec [Forwarder; Forwarder] st in
  log st' =
    log st ++
    [WsSend (JObj [("event", JStr "media"); ("streamId", JStr "s1");
                   ("media", JObj [("payload", JStr "ZFJD")])]);
     WsSend (JObj [("event", JStr "media"); ("streamId", JStr "s1");
                   ("media", JObj [("payload", JStr "R0hJ")])])] /\
  inbox st' = [] /\
  _stream_id (bridge st') = JStr "s1" /\
  _ready (bridge st') = true /\
  reading st'.
Proof.
  refine (audio_deltas_forwarded_in_order
            (exec [Telephony (start_event "s1"); Realtime (delta_message "ZFJD");
                   Realtime (AiMessage (Wellformed
                     (JObj [("event_id", JStr "e2");
                            ("type", JStr "response.output_audio.delta");
                            ("delta", JObj [("audio", JStr "R0hJ");
                                            ("index", JNum 1)])])))]
               (entered default_config))
            (JStr "s1")
            [audio_delta (JStr "ZFJD");
             JObj [("event_id", JStr "e2");
                   ("type", JStr "response.output_audio.delta");
                   ("delta", JObj [("audio", JStr "R0hJ"); ("index", JNum 1)])]]
            [JStr "ZFJD"; JStr "R0hJ"] [] _ eq_refl eq_refl eq_refl _ _ eq_refl).
  - right. split; reflexivity.
  - repeat constructor.
    + exists [("type", JStr "response.output_audio.delta");
              ("delta", JObj [("audio", JStr "ZFJD")])], [("audio", JStr "ZFJD")].
      repeat split.
    + exists [("event_id", JStr "e2");
              ("type", JStr "response.output_audio.delta");
              ("delta", JObj [("audio", JStr "R0hJ"); ("index", JNum 1)])],
        [("audio", JStr "R0hJ"); ("index", JNum 1)].
      repeat split.
  - repeat constructor.
Defined.

(** The outbound scenario of the specification. *)
Example outbound_scenario :
  ws_frames
    (log (exec [Telephony (start_event "s1"); Realtime (delta_message "ZFJD"); Forwarder]
            (entered default_config))) =
  [Bridge.ready_frame;
   JObj [("event", JStr "media"); ("streamId", JStr "s1");
         ("media", JObj [("payload", JStr "ZFJD")])]].
Proof. reflexivity. Qed.

(** ** [run] *)

(** While [run] waits, a task is running or has finished: nobody cancels. *)
Lemma step_tasks (l : label) (st : call) :
  (receiver st = Live tt \/ exists r, receiver st = Done r) ->
  (exists pc, forwarder st = Live pc) \/ (exists r, forwarder st = Done r) ->
  (receiver (step l st) = Live tt \/ exists r, receiver (step l st) = Done r) /\
  ((exists pc, forwarder (step l st) = Live pc) \/
   (exists r, forwarder (step l st) = Done r)).
Proof.
  intros Hr Hf.
  assert (Hend : forall P (pc : P) (x : result flow),
             end_of_turn pc x = Live pc \/ exists r, end_of_turn pc x = Done r).
  { intros P pc [[|]|e]; simpl; eauto. }
  destruct l as [received|item|].
  - destruct (step_telephony_client received st) as [_ ->]. split; [|exact Hf].
    destruct (receiver_live_or_not st) as [Hl|Hl];
      [|now rewrite (step_telephony_idle _ _ Hl)].
    destruct (step_telephony_live received st Hl) as (res & _ & ->). simpl.
    apply Hend.
  - simpl. auto.
  - destruct (step_forwarder st) as [->|(gen & res & b' & out & _ & _ & ->)]; [auto|].
    simpl. split; [exact Hr|].
    destruct (Hend _ InLoop res) as [->|[r ->]]; eauto.
Qed.

Lemma exec_tasks (cfg : OpenAIConfig) (schedule : list label) :
  (receiver (exec schedule (entered cfg)) = Live tt \/
   exists r, receiver (exec schedule (entered cfg)) = Done r) /\
  ((exists pc, forwarder (exec schedule (entered cfg)) = Live pc) \/
   (exists r, forwarder (exec schedule (entered cfg)) = Done r)).
Proof.
  apply (exec_ind
           (fun _ st =>
              (receiver st = Live tt \/ exists r, receiver st = Done r) /\
              ((exists pc, forwarder st = Live pc) \/ (exists r, forwarder st = Done r)))).
  - simpl. eauto.
  - intros sch l [Hr Hf]. now apply step_tasks.
Qed.

Lemma exec_closes (cfg : OpenAIConfig) (schedule : list label) :
  closes (log (exec schedule (entered cfg))) = 0.
Proof.
  destruct (exec_log schedule (entered cfg)) as (out & hs & -> & _ & _ & _ & Hz & _).
  now rewrite closes_app, Hz.
Qed.

(** C2, as the code has it.  When [run] leaves, some loop has finished.  A
    loop still running is asked to cancel; [run] does not wait for it, and
    it has stopped by then only if closing the realtime connection gave
    the event loop the occasion to cancel it.  A loop that has finished is
    left as it is.  [close()] has run once: the connection is dropped, and
    it has been closed exactly once if it was still open and not at all if
    the peer had closed it already.  What [run] raises is the error of a
    finished loop: none when no finished loop failed; the error of the
    loop that failed when the other one is still running or has finished
    without an error, whichever of the two finished first; and when both
    loops have finished with an error, the error of the one that the
    iteration over the set [done] meets first. *)
Theorem run_cancels_closes_and_reraises
  (cfg : OpenAIConfig) (receiver_first : bool) (schedule : list label)
  (r : result unit) (st' : call) :
  run cfg true receiver_first schedule = Exited r st' ->
  let st := exec schedule (entered cfg) in
  let was_open := Client.is_connected (_openai_client (bridge st)) in
  done (receiver st) || done (forwarder st) = true /\
  (done (receiver st) = false ->
   receiver st' = if was_open then Cancelled else CancelRequested tt) /\
  (done (forwarder st) = false ->
   exists pc, forwarder st = Live pc /\
              forwarder st' = if was_open then Cancelled else CancelRequested pc) /\
  (done (receiver st) = true -> receiver st' = receiver st) /\
  (done (forwarder st) = true -> forwarder st' = forwarder st) /\
  _connection (_openai_client (bridge st')) = None /\
  closes (log st') = (if was_open then 1 else 0) /\
  (exception (receiver st) = None -> exception (forwarder st) = None -> r = Ok tt) /\
  (forall e, exception (receiver st) = Some e -> exception (forwarder st) = None ->
             r = Raise e) /\
  (forall e, exception (receiver st) = None -> exception (forwarder st) = Some e ->
             r = Raise e) /\
  (forall e1 e2,
      exception (receiver st) = Some e1 -> exception (forwarder st) = Some e2 ->
      r = Raise (if receiver_first then e1 else e2)).
Proof.
  rewrite run_entered. cbv zeta.
  destruct (exec_tasks cfg schedule) as [Hr Hf].
  pose proof (exec_closes cfg schedule) as Hz.
  set (st := exec schedule (entered cfg)) in *.
  unfold supervise.
  destruct (done (receiver st) || done (forwarder st)) eqn:Hd; [|discriminate].
  intros H.
  assert (Hst : st' = aexit (cancel_pending st) /\
                r = match first_exception receiver_first (cancel_pending st) with
                    | Some e => Raise e
                    | None => Ok tt
                    end).
  { destruct (first_exception receiver_first (cancel_pending st));
      injection H as <- <-; auto. }
  clear H. destruct Hst as [-> ->].
  unfold aexit. rewrite close_result. simpl.
  unfold first_exception. simpl.
  destruct (Client.is_connected (_openai_client (bridge st))) eqn:Hc;
    rewrite closes_app, Hz; simpl.
  all: destruct Hr as [Hr|[x Hr]], Hf as [[pc Hf]|[y Hf]]; rewrite Hr, Hf in *;
    simpl in *; try discriminate.
  all: repeat split; try discriminate; try reflexivity; eauto.
  all: try (intros; destruct receiver_first; simpl in *; congruence).
  all: try (intros; destruct receiver_first;
            try destruct x as [[]|]; try destruct y as [[]|];
            simpl in *; congruence).
Qed.

Lemma run_cancels_closes_and_reraises_witness :
  let schedule := [Telephony (Received Malformed)] in
  let st' := aexit (cancel_pending (exec schedule (entered default_config))) in
  run default_config true true schedule = Exited (Raise JSONDecodeError) st' /\
  forwarder st' = Cancelled /\
  _connection (_openai_client (bridge st')) = None /\
  closes (log st') = 1.
Proof.
  cbv zeta. split; [reflexivity|].
  destruct (run_cancels_closes_and_reraises default_config true
              [Telephony (Received Malformed)] (Raise JSONDecodeError)
              (aexit (cancel_pending
                        (exec [Telephony (Received Malformed)] (entered default_config))))
              eq_refl)
    as (_ & _ & Hf & _ & _ & Hn & Hc & _).
  destruct (Hf eq_refl) as (pc & _ & Hfw).
  repeat split; assumption.
Defined.

(** Both loops have finished when [run] resumes: the inbound loop first
    and without an error (the telephony peer hung up), then the outbound
    loop with the connection error.  Nothing is left to cancel, and [run]
    raises the error of the loop that finished second. *)
Example run_raises_after_clean_finish :
  let schedule :=
    [Telephony (start_event "s1"); Forwarder; Telephony WebSocketDisconnect;
     Realtime AiClosedError; Forwarder] in
  exists st',
    run default_config true true schedule = Exited (Raise ConnectionClosedError) st' /\
    receiver (exec schedule (entered default_config)) = Done (Ok tt) /\
    receiver st' = Done (Ok tt) /\
    forwarder st' = Done (Raise ConnectionClosedError).
Proof. cbv zeta. eexists. split; [reflexivity|]. repeat split. Qed.

(** A clean finish: the telephony peer hangs up. *)
Example run_returns_after_disconnect :
  exists st',
    run default_config true true [Telephony WebSocketDisconnect] = Exited (Ok tt) st' /\
    closes (log st') = 1.
Proof. eexists. split; reflexivity. Qed.

(** The realtime service refuses the connection: no loop is started. *)
Example run_refused_starts_nothing :
  exists out,
    run default_config false true [Telephony (start_event "s1")] =
    Refused HandshakeError out /\
    ws_frames out = [].
Proof. eexists. split; reflexivity. Qed.

(** C2 as stated fails.  The realtime connection is lost while the
    outbound loop reads it: the loop fails, [run] asks the inbound loop to
    cancel and raises at once.  The connection being closed already,
    [close()] has nothing to await and closes nothing, and [run] is left
    with the inbound loop not stopped. *)
Lemma run_reraises_before_loops_stop :
  let schedule :=
    [Telephony (start_event "s1"); Forwarder; Realtime AiClosedError; Forwarder] in
  exists st',
    run default_config true true schedule = Exited (Raise ConnectionClosedError) st' /\
    exception (forwarder (exec schedule (entered default_config))) =
      Some ConnectionClosedError /\
    receiver (exec schedule (entered default_config)) = Live tt /\
    receiver st' = CancelRequested tt /\
    stopped (receiver st') = false /\
    closes (log st') = 0.
Proof. eexists. vm_compute. repeat split. Qed.

(** ** The loops, each run alone

    The steps of a call, taken for one loop only, are the loop of the
    source. *)

Lemma exec_telephony_idle (frames : list sw_recv) (st : call) :
  receiver st <> Live tt -> exec (map Telephony frames) st = st.
Proof.
  induction frames as [|received frames IH]; intros H; [reflexivity|].
  change (exec (map Telephony (received :: frames)) st)
    with (exec (map Telephony frames) (step (Telephony received) st)).
  rewrite (step_telephony_idle _ _ H). now apply IH.
Qed.

Lemma receiver_alone (frames : list sw_recv) (st : call) :
  receiver st = Live tt ->
  bridge (exec (map Telephony frames) st) =
    snd (fst (Bridge._receive_from_signalwire frames (bridge st))) /\
  log (exec (map Telephony frames) st) =
    log st ++ snd (Bridge._receive_from_signalwire frames (bridge st)) /\
  receiver (exec (map Telephony frames) st) =
    task_of tt (fst (fst (Bridge._receive_from_signalwire frames (bridge st)))) /\
  forwarder (exec (map Telephony frames) st) = forwarder st.
Proof.
  revert st. induction frames as [|received frames IH]; intros st Hl.
  { simpl. rewrite app_nil_r. auto. }
  simpl map. simpl Bridge._receive_from_signalwire.
  change (exec (Telephony received :: map Telephony frames) st)
    with (exec (map Telephony frames) (receiver_turn received st)).
  unfold receiver_turn, bind. rewrite Hl.
  destruct (Bridge.receive_iteration received (bridge st)) as [[[[|]|e] b] out].
  - cbn [end_of_turn].
    match goal with
    | |- context [exec _ ?s] => destruct (IH s eq_refl) as (Hb & Hg & Hr & Hf)
    end.
    cbn [bridge log receiver forwarder] in Hb, Hg, Hr, Hf. rewrite Hb, Hg, Hr, Hf.
    destruct (Bridge._receive_from_signalwire frames b) as [[r b'] out'].
    simpl. rewrite app_assoc. repeat split.
  - rewrite exec_telephony_idle by (simpl; discriminate). simpl.
    rewrite ?app_nil_r. auto.
  - rewrite exec_telephony_idle by (simpl; discriminate). simpl.
    rewrite ?app_nil_r. auto.
Qed.

Lemma exec_forwarder_idle (n : nat) (st : call) :
  (forall pc, forwarder st <> Live pc) -> exec (repeat Forwarder n) st = st.
Proof.
  intros H. induction n as [|n IH]; [reflexivity|].
  change (exec (repeat Forwarder (S n)) st)
    with (exec (repeat Forwarder n) (forwarder_turn st)).
  unfold forwarder_turn.
  destruct (forwarder st) as [pc| | |] eqn:E; try exact IH.
  now destruct (H pc).
Qed.

Lemma forwarder_in_loop (turns : nat) (gen : Client.generator) (pc : forwarder_pc)
  (st : call) :
  forwarder st = Live pc ->
  (pc = AwaitReady -> gen = Client.Fresh /\ _ready (bridge st) = true) ->
  (pc = InLoop -> gen = Client.Iterating) ->
  bridge (exec (repeat Forwarder turns) st) =
    snd (fst (Bridge.forward_loop turns gen (bridge st))) /\
  log (exec (repeat Forwarder turns) st) =
    log st ++ snd (Bridge.forward_loop turns gen (bridge st)) /\
  done (forwarder (exec (repeat Forwarder turns) st)) =
    done (task_of InLoop (fst (fst (Bridge.forward_loop turns gen (bridge st))))) /\
  exception (forwarder (exec (repeat Forwarder turns) st)) =
    exception (task_of InLoop (fst (fst (Bridge.forward_loop turns gen (bridge st))))) /\
  receiver (exec (repeat Forwarder turns) st) = receiver st.
Proof.
  revert gen pc st. induction turns as [|turns IH]; intros gen pc st Hf Ha Hi.
  { simpl. rewrite app_nil_r, Hf. auto. }
  change (exec (repeat Forwarder (S turns)) st)
    with (exec (repeat Forwarder turns) (forwarder_turn st)).
  assert (Hturn : forwarder_turn st = forwarder_run gen st).
  { unfold forwarder_turn. rewrite Hf. destruct pc.
    - destruct (Ha eq_refl) as [-> ->]. reflexivity.
    - now rewrite (Hi eq_refl). }
  rewrite Hturn. unfold forwarder_run. simpl Bridge.forward_loop. unfold bind.
  destruct (Bridge.forward_iteration gen (bridge st)) as [[[[|]|e] b] out].
  - cbn [end_of_turn].
    match goal with
    | |- context [exec _ ?s] =>
        destruct (IH Client.Iterating InLoop s eq_refl) as (Hb & Hg & Hd & He & Hr)
    end.
    { discriminate. }
    { reflexivity. }
    cbn [bridge log receiver forwarder] in Hb, Hg, Hd, He, Hr.
    rewrite Hb, Hg, Hd, He, Hr.
    destruct (Bridge.forward_loop turns Client.Iterating b) as [[r b'] out'].
    simpl. rewrite app_assoc. repeat split.
  - rewrite exec_forwarder_idle by (simpl; discriminate). simpl.
    rewrite ?app_nil_r. auto.
  - rewrite exec_forwarder_idle by (simpl; discriminate). simpl.
    rewrite ?app_nil_r. auto.
Qed.

(** The outbound loop alone, from its start. *)
Lemma forwarder_alone (turns : nat) (st : call) :
  forwarder st = Live AwaitReady ->
  bridge (exec (repeat Forwarder turns) st) =
    snd (fst (Bridge._forward_openai_responses turns (bridge st))) /\
  log (exec (repeat Forwarder turns) st) =
    log st ++ snd (Bridge._forward_openai_responses turns (bridge st)) /\
  done (forwarder (exec (repeat Forwarder turns) st)) =
    done (task_of InLoop
            (fst (fst (Bridge._forward_openai_responses turns (bridge st))))) /\
  exception (forwarder (exec (repeat Forwarder turns) st)) =
    exception (task_of InLoop
                 (fst (fst (Bridge._forward_openai_responses turns (bridge st))))) /\
  receiver (exec (repeat Forwarder turns) st) = receiver st.
Proof.
  intros Hf. unfold Bridge._forward_openai_responses. rewrite bind_read.
  destruct (_ready (bridge st)) eqn:Hr; simpl negb; cbv iota.
  - apply (forwarder_in_loop turns Client.Fresh AwaitReady st Hf); [auto|discriminate].
  - assert (E : exec (repeat Forwarder turns) st = st).
    { induction turns as [|turns IH]; [reflexivity|].
      change (exec (repeat Forwarder (S turns)) st)
        with (exec (repeat Forwarder turns) (step Forwarder st)).
      now rewrite (step_forwarder_waiting st Hf Hr). }
    rewrite E, Hf. simpl. rewrite app_nil_r. auto.
Qed.

(** * Further properties of the code *)

(** ** [connect] *)

Lemma connect_connected (handshake : bool) (c : OpenAIRealtimeClient) (k : connection) :
  _connection c = Some k -> closed k = false ->
  Client.connect handshake c = (Ok k, c, []).
Proof.
  intros Hk Hc. unfold Client.connect. rewrite bind_read, Hk, Hc. reflexivity.
Qed.

Lemma connect_opens (c : OpenAIRealtimeClient) :
  Client.is_connected c = false ->
  Client.connect true c =
  (Ok fresh_connection,
   set_connection (Some fresh_connection) c,
   [AiConnect (OPENAI_REALTIME_URL ++ "?model=" ++ model (_config c))%string
      [("Authorization", ("Bearer " ++ api_key (_config c))%string);
       ("OpenAI-Beta", "realtime=v1")];
    AiSend (Client.session_update (_config c))]).
Proof.
  intros H.
  assert (E : Client.connect true c = Client.open_connection true c).
  { unfold Client.connect, Client.is_connected in *. rewrite bind_read.
    destruct (_connection c) as [k|]; [|reflexivity].
    destruct (closed k); [reflexivity|discriminate]. }
  rewrite E. unfold Client.open_connection.
  rewrite bind_read, bind_emit, bind_ret, bind_write.
  unfold bind. rewrite send_json_connected by reflexivity. reflexivity.
Qed.

Lemma connect_refused (c : OpenAIRealtimeClient) :
  Client.is_connected c = false ->
  Client.connect false c =
  (Raise HandshakeError, c,
   [AiConnect (OPENAI_REALTIME_URL ++ "?model=" ++ model (_config c))%string
      [("Authorization", ("Bearer " ++ api_key (_config c))%string);
       ("OpenAI-Beta", "realtime=v1")]]).
Proof.
  intros H.
  assert (E : Client.connect false c = Client.open_connection false c).
  { unfold Client.connect, Client.is_connected in *. rewrite bind_read.
    destruct (_connection c) as [k|]; [|reflexivity].
    destruct (closed k); [reflexivity|discriminate]. }
  rewrite E. unfold Client.open_connection.
  rewrite bind_read, bind_emit. reflexivity.
Qed.

(** X1.  [connect()] is idempotent: whatever the client, a [connect()] that
    succeeds leaves it connected, and a second [connect()] returns the
    same connection, leaves the client as it is and sends nothing, so that
    the realtime service gets one [session.update] per connection, sent by
    the [connect()] that opened it. *)
Theorem connect_twice_configures_once (handshake : bool) (c : OpenAIRealtimeClient) :
  let first := Client.connect true c in
  let c1 := snd (fst first) in
  Client.is_connected c1 = true /\
  Client.connect handshake c1 = (fst (fst first), c1, []) /\
  ai_messages (snd first) =
    (if Client.is_connected c then [] else [Client.session_update (_config c)]).
Proof.
  cbv zeta. destruct (Client.is_connected c) eqn:H.
  - unfold Client.is_connected in H.
    destruct (_connection c) as [k|] eqn:Hk; [|discriminate].
    apply negb_true_iff in H.
    rewrite (connect_connected true c k Hk H). simpl.
    rewrite (connect_connected handshake c k Hk H).
    unfold Client.is_connected. rewrite Hk, H. auto.
  - rewrite (connect_opens c H). simpl.
    rewrite (connect_connected handshake _ fresh_connection) by reflexivity.
    auto.
Qed.

(** X2.  When the handshake fails on a client that is not connected,
    [connect()] raises after the attempt and leaves the client as it was:
    still not connected, so that a [send_audio_chunk] that follows raises
    the not-connected error and sends nothing. *)
Theorem failed_connect_leaves_client_unusable
  (c : OpenAIRealtimeClient) (audio : json) (end_of_input : bool) :
  Client.is_connected c = false ->
  let attempt := Client.connect false c in
  fst attempt = (Raise HandshakeError, c) /\
  ai_messages (snd attempt) = [] /\
  closes (snd attempt) = 0 /\
  fst (fst (Client.send_audio_chunk audio end_of_input (snd (fst attempt)))) =
    Raise not_connected /\
  ai_messages (snd (Client.send_audio_chunk audio end_of_input (snd (fst attempt)))) = [].
Proof.
  intros H. cbv zeta. rewrite (connect_refused c H). simpl.
  rewrite (send_audio_chunk_not_connected audio end_of_input c H). simpl. auto.
Qed.

Lemma failed_connect_leaves_client_unusable_witness :
  let c := new_client default_config in
  fst (Client.connect false c) = (Raise HandshakeError, c) /\
  ai_messages (snd (Client.connect false c)) = [] /\
  closes (snd (Client.connect false c)) = 0 /\
  fst (fst (Client.send_audio_chunk (JStr "QUJD") false (snd (fst (Client.connect false c))))) =
    Raise not_connected /\
  ai_messages
    (snd (Client.send_audio_chunk (JStr "QUJD") false (snd (fst (Client.connect false c))))) = [].
Proof.
  exact (failed_connect_leaves_client_unusable (new_client default_config)
           (JStr "QUJD") false eq_refl).
Defined.

(** X3.  [close()] then [connect()]: whatever the client was, connected or
    not, with messages waiting or not, the pair leaves it connected on a
    new connection that holds no message, having closed the old connection
    if it was open and configured the new one with one [session.update].
    A [responses()] iteration started after the pair reads the new
    connection and nothing of the old one: with nothing received yet it
    stays suspended.  (An iteration started before the [close()] is
    another matter: it keeps the old connection.) *)
Theorem close_then_connect_starts_afresh (c : OpenAIRealtimeClient) :
  let closing := Client.close c in
  let opening := Client.connect true (snd (fst closing)) in
  let c' := snd (fst opening) in
  fst (fst opening) = Ok fresh_connection /\
  Client.is_connected c' = true /\
  _connection c' = Some {| closed := false; messages := [] |} /\
  waiting c' = [] /\
  _config c' = _config c /\
  closes (snd closing ++ snd opening) = (if Client.is_connected c then 1 else 0) /\
  ai_messages (snd closing ++ snd opening) = [Client.session_update (_config c)] /\
  Client.responses Client.Fresh c' = (Ok Client.Pending, c', []).
Proof.
  cbv zeta. rewrite close_result. cbn [fst snd].
  rewrite (connect_opens (set_connection None c)) by reflexivity. cbn [fst snd].
  rewrite closes_app, ai_messages_app.
  repeat split; destruct (Client.is_connected c); reflexivity.
Qed.

(** ** [drain_until_finished] *)

Lemma bind_quiet {S A B : Type} (m : M S A) (k : A -> M S B) (s s1 : S) (a : A) :
  m s = (Ok a, s1, []) -> bind m k s = k a s1.
Proof.
  intros H. unfold bind. rewrite H. now destruct (k a s1) as [[r s2] out].
Qed.

Lemma bind_failed {S A B : Type} (m : M S A) (k : A -> M S B) (s s1 : S)
  (e : exn) (out : list action) :
  m s = (Raise e, s1, out) -> bind m k s = (Raise e, s1, out).
Proof. intros H. unfold bind. now rewrite H. Qed.

(** What [next_message] makes of the first message waiting. *)
Lemma next_message_pop (c : OpenAIRealtimeClient) (k : connection)
  (first : ai_item) (rest : list ai_item) :
  _connection c = Some k ->
  messages k = first :: rest ->
  Client.next_message c =
  (match first with
   | AiMessage (Wellformed event) => Ok (Client.Yield event)
   | AiMessage Malformed => Raise JSONDecodeError
   | AiClosedOK => Ok Client.StopAsyncIteration
   | AiClosedError => Raise ConnectionClosedError
   end, with_waiting rest c, []).
Proof.
  intros Hk Hm. unfold Client.next_message, with_waiting.
  rewrite bind_read, Hk, Hm, bind_write.
  destruct first as [[event|]| |]; simpl json_loads;
    rewrite ?bind_ok, ?bind_raised; reflexivity.
Qed.

Lemma next_message_none (c : OpenAIRealtimeClient) (k : connection) :
  _connection c = Some k ->
  messages k = [] ->
  Client.next_message c = (Ok Client.Pending, c, []).
Proof.
  intros Hk Hm. unfold Client.next_message. now rewrite bind_read, Hk, Hm.
Qed.

Lemma responses_connected (gen : Client.generator) (c : OpenAIRealtimeClient) :
  Client.is_connected c = true ->
  Client.responses gen c = Client.next_message c.
Proof.
  intros H. destruct gen; [|reflexivity]. now rewrite responses_fresh, H.
Qed.

Lemma with_waiting_connection (rest : list ai_item) (c : OpenAIRealtimeClient)
  (k : connection) :
  _connection c = Some k ->
  _connection (with_waiting rest c) = Some {| closed := closed k; messages := rest |}.
Proof. intros Hk. unfold with_waiting. now rewrite Hk. Qed.

Lemma with_waiting_twice (r1 r2 : list ai_item) (c : OpenAIRealtimeClient) :
  with_waiting r2 (with_waiting r1 c) = with_waiting r2 c.
Proof.
  unfold with_waiting. destruct (_connection c) as [k|] eqn:Hk; simpl; [reflexivity|].
  now rewrite Hk.
Qed.

Lemma is_connected_open (c : OpenAIRealtimeClient) (k : connection) :
  _connection c = Some k -> closed k = false -> Client.is_connected c = true.
Proof. intros Hk Hc. unfold Client.is_connected. now rewrite Hk, Hc. Qed.

(** The loop passes over the events that are not the one it waits for. *)
Lemma drain_loop_skips (evs : list json) (n : nat) (gen : Client.generator)
  (c : OpenAIRealtimeClient) (k : connection) (tail : list ai_item) :
  _connection c = Some k ->
  closed k = false ->
  messages k = events evs ++ tail ->
  Forall (event_other_than "response.completed") evs ->
  drain_loop (length evs + n) gen c =
  drain_loop n Client.Iterating (with_waiting tail c) \/
  (evs = [] /\ drain_loop (length evs + n) gen c = drain_loop n gen c).
Proof.
  revert gen c k. induction evs as [|ev evs IH]; intros gen c k Hk Hc Hm Hall.
  { right. auto. }
  left. inversion Hall as [|? ? (fields & -> & Ht) Hall']; subst.
  simpl length. simpl plus. simpl drain_loop.
  simpl in Hm.
  rewrite (bind_quiet _ _ c (with_waiting (events evs ++ tail) c) (Client.Yield (JObj fields))).
  2: { rewrite (responses_connected gen c (is_connected_open c k Hk Hc)).
       apply (next_message_pop c k _ _ Hk Hm). }
  simpl Py.get. rewrite bind_ok. fold (item "type" fields). rewrite Ht.
  destruct (IH Client.Iterating (with_waiting (events evs ++ tail) c) _
              (with_waiting_connection _ c k Hk) Hc eq_refl Hall') as [E|[-> E]].
  - rewrite E. now rewrite with_waiting_twice.
  - simpl. reflexivity.
Qed.

Lemma with_waiting_same (c : OpenAIRealtimeClient) :
  with_waiting (waiting c) c = c.
Proof.
  unfold with_waiting, waiting. destruct c as [cfg [[cl ms]|]]; reflexivity.
Qed.

Lemma drain_loop_generator (n : nat) (gen : Client.generator) (c : OpenAIRealtimeClient) :
  Client.is_connected c = true ->
  drain_loop n gen c = drain_loop n Client.Iterating c.
Proof.
  intros H. destruct n as [|n]; [reflexivity|]. simpl.
  unfold bind. now rewrite !(responses_connected _ c H).
Qed.

Lemma drain_loop_passes (evs : list json) (n : nat) (gen : Client.generator)
  (c : OpenAIRealtimeClient) (k : connection) (tail : list ai_item) :
  _connection c = Some k ->
  closed k = false ->
  messages k = events evs ++ tail ->
  Forall (event_other_than "response.completed") evs ->
  drain_loop (length evs + n) gen c =
  drain_loop n Client.Iterating (with_waiting tail c).
Proof.
  intros Hk Hc Hm Hall.
  destruct (drain_loop_skips evs n gen c k tail Hk Hc Hm Hall) as [E|[-> E]]; [exact E|].
  simpl in *. rewrite (drain_loop_generator n gen c (is_connected_open c k Hk Hc)).
  replace tail with (waiting c) by (unfold waiting; now rewrite Hk).
  now rewrite with_waiting_same.
Qed.

Lemma length_events (evs : list json) : length (events evs) = length evs.
Proof. apply length_map. Qed.

(** X4.  On a connected client, [drain_until_finished()] reads the events
    waiting in the connection in order, passes over those whose type is not
    [response.completed], and returns the first one whose type is: it
    sends nothing, and it leaves what came after that event in the
    connection, unread. *)
Theorem drain_returns_first_completed
  (c : OpenAIRealtimeClient) (k : connection)
  (evs : list json) (finished : json) (rest : list ai_item) :
  _connection c = Some k ->
  closed k = false ->
  messages k = events evs ++ AiMessage (Wellformed finished) :: rest ->
  Forall (event_other_than "response.completed") evs ->
  event_named "response.completed" finished ->
  drain_until_finished c = (Ok (Some finished), with_waiting rest c, []).
Proof.
  intros Hk Hc Hm Hall (fields & -> & Ht).
  unfold drain_until_finished. rewrite bind_read.
  unfold waiting. rewrite Hk, Hm, length_app, length_events. simpl length.
  replace (S (length evs + S (length rest))) with (length evs + S (S (length rest)))
    by (rewrite <- !plus_n_Sm; reflexivity).
  rewrite (drain_loop_passes evs _ _ c k _ Hk Hc Hm Hall).
  simpl drain_loop.
  rewrite (bind_quiet _ _ _ (with_waiting rest c) (Client.Yield (JObj fields))).
  2: { rewrite (next_message_pop _ _ (AiMessage (Wellformed (JObj fields))) rest
                  (with_waiting_connection _ c k Hk) eq_refl).
       now rewrite with_waiting_twice. }
  simpl Py.get. rewrite bind_ok. fold (item "type" fields). rewrite Ht.
  unfold ret, Py.or_. destruct fields as [|f fields]; [discriminate|reflexivity].
Qed.

Lemma drain_returns_first_completed_witness :
  let ms := events [audio_delta (JStr "ZFJD"); JObj [("type", JStr "error")]] ++
            AiMessage (Wellformed (JObj [("type", JStr "response.completed")])) ::
            [delta_message "R0hJ"] in
  drain_until_finished (client_holding ms) =
  (Ok (Some (JObj [("type", JStr "response.completed")])),
   client_holding [delta_message "R0hJ"], []).
Proof.
  refine (drain_returns_first_completed
            (client_holding
               (events [audio_delta (JStr "ZFJD"); JObj [("type", JStr "error")]] ++
                AiMessage (Wellformed (JObj [("type", JStr "response.completed")])) ::
                [delta_message "R0hJ"]))
            {| closed := false;
               messages :=
                 events [audio_delta (JStr "ZFJD"); JObj [("type", JStr "error")]] ++
                 AiMessage (Wellformed (JObj [("type", JStr "response.completed")])) ::
                 [delta_message "R0hJ"] |}
            [audio_delta (JStr "ZFJD"); JObj [("type", JStr "error")]]
            (JObj [("type", JStr "response.completed")]) [delta_message "R0hJ"]
            eq_refl eq_refl eq_refl _ _).
  - repeat constructor; eexists; split; reflexivity.
  - eexists; split; reflexivity.
Defined.

(** X5.  When no event waiting has the type [response.completed],
    [drain_until_finished()] on a connected client reads them all and
    sends nothing; then, if the connection has nothing more, it stays
    suspended; if the connection was closed normally, it returns the empty
    dict; and if the connection was lost, it raises the connection
    error.  (The client is connected when the method is called: a closure
    among the messages is one that comes while the method reads.) *)
Theorem drain_without_completion
  (c : OpenAIRealtimeClient) (k : connection) (evs : list json) (rest : list ai_item) :
  _connection c = Some k ->
  closed k = false ->
  Forall (event_other_than "response.completed") evs ->
  (messages k = events evs ->
   drain_until_finished c = (Ok None, with_waiting [] c, [])) /\
  (messages k = events evs ++ AiClosedOK :: rest ->
   drain_until_finished c = (Ok (Some (JObj [])), with_waiting rest c, [])) /\
  (messages k = events evs ++ AiClosedError :: rest ->
   drain_until_finished c = (Raise ConnectionClosedError, with_waiting rest c, [])).
Proof.
  intros Hk Hc Hall.
  assert (Hgo : forall tail,
             messages k = events evs ++ tail ->
             drain_until_finished c =
             drain_loop (S (length tail)) Client.Iterating (with_waiting tail c)).
  { intros tail Hm. unfold drain_until_finished. rewrite bind_read.
    unfold waiting. rewrite Hk, Hm, length_app, length_events.
    rewrite plus_n_Sm.
    apply (drain_loop_passes evs _ _ c k _ Hk Hc Hm Hall). }
  split; [|split]; intros Hm.
  - rewrite (Hgo []) by (now rewrite app_nil_r). simpl drain_loop.
    rewrite (bind_quiet _ _ _ (with_waiting [] c) Client.Pending); [reflexivity|].
    apply (next_message_none _ _ (with_waiting_connection _ c k Hk) eq_refl).
  - rewrite (Hgo _ Hm). simpl drain_loop.
    rewrite (bind_quiet _ _ _ (with_waiting rest c) Client.StopAsyncIteration);
      [reflexivity|].
    rewrite (next_message_pop _ _ AiClosedOK rest (with_waiting_connection _ c k Hk) eq_refl).
    now rewrite with_waiting_twice.
  - rewrite (Hgo _ Hm). simpl drain_loop.
    apply bind_failed.
    rewrite (next_message_pop _ _ AiClosedError rest (with_waiting_connection _ c k Hk) eq_refl).
    now rewrite with_waiting_twice.
Qed.

Lemma drain_without_completion_witness :
  let ms := events [audio_delta (JStr "ZFJD")] ++ AiClosedOK :: [delta_message "R0hJ"] in
  drain_until_finished (client_holding ms) =
  (Ok (Some (JObj [])), client_holding [delta_message "R0hJ"], []).
Proof.
  refine (proj1 (proj2 (drain_without_completion
                          (client_holding
                             (events [audio_delta (JStr "ZFJD")] ++
                              AiClosedOK :: [delta_message "R0hJ"]))
                          {| closed := false;
                             messages := events [audio_delta (JStr "ZFJD")] ++
                                         AiClosedOK :: [delta_message "R0hJ"] |}
                          [audio_delta (JStr "ZFJD")]
                          [delta_message "R0hJ"] eq_refl eq_refl _)) eq_refl).
  repeat constructor; eexists; split; reflexivity.
Defined.

(** ** The inbound loop: frames that carry nothing to forward *)

Lemma receiver_turn_result (received : sw_recv) (st : call)
  (x : result flow) (b : SignalWireRealtimeBridge) (out : list action) :
  receiver st = Live tt ->
  Bridge.receive_iteration received (bridge st) = (x, b, out) ->
  step (Telephony received) st =
  {| bridge := b;
     receiver := end_of_turn tt x;
     forwarder := forwarder st;
     log := log st ++ out;
     heard := heard st ++ [received] |}.
Proof.
  intros Hl E. simpl. unfold receiver_turn. now rewrite Hl, E.
Qed.

Lemma receiver_turn_quiet (received : sw_recv) (st : call) :
  receiver st = Live tt ->
  Bridge.receive_iteration received (bridge st) = (Ok Continue, bridge st, []) ->
  step (Telephony received) st = heard_only received st.
Proof.
  intros Hl E. rewrite (receiver_turn_result _ _ _ _ _ Hl E).
  unfold heard_only. simpl. now rewrite app_nil_r, Hl.
Qed.

Lemma receiver_turn_raised (received : sw_recv) (st : call) (e : exn) :
  receiver st = Live tt ->
  Bridge.receive_iteration received (bridge st) = (Raise e, bridge st, []) ->
  step (Telephony received) st = receiver_ended (Raise e) received st.
Proof.
  intros Hl E. rewrite (receiver_turn_result _ _ _ _ _ Hl E).
  unfold receiver_ended. simpl. now rewrite app_nil_r.
Qed.

(** X6.  An event whose name is none of [start], [media], [stop] and
    [close] ([mark] and [connected], and any name the bridge does not
    know) is heard and ignored: the turn changes nothing in the bridge,
    sends nothing to either peer, and the inbound loop goes on. *)
Theorem other_events_are_ignored (st : call) (received : sw_recv) (name : string) :
  receiver st = Live tt ->
  is_event name received = true ->
  ~ In name ["start"; "media"; "stop"; "close"] ->
  step (Telephony received) st = heard_only received st.
Proof.
  intros Hl He Hn.
  destruct (is_event_frame _ _ He) as [fields ->].
  assert (Hx : forall other, In other ["start"; "media"; "stop"; "close"] ->
                             is_event other (frame fields) = false).
  { intros other Hin. apply (is_event_exclusive name other _ He).
    intros ->. contradiction. }
  apply (receiver_turn_quiet _ _ Hl).
  rewrite receive_other by (apply Hx; simpl; auto).
  unfold end_of_call. rewrite !Hx by (simpl; auto). simpl orb. cbv iota.
  rewrite is_event_dict in He. apply eq_str_true in He. now rewrite He.
Qed.

Lemma other_events_are_ignored_witness :
  step (Telephony (frame [("event", JStr "mark")])) (entered default_config) =
  heard_only (frame [("event", JStr "mark")]) (entered default_config).
Proof.
  refine (other_events_are_ignored (entered default_config)
            (frame [("event", JStr "mark")]) "mark" eq_refl eq_refl _).
  simpl. intros [H|[H|[H|[H|[]]]]]; discriminate.
Defined.

(** X7.  A [media] event without audio is skipped: when the frame has no
    [media] key, or its [media] is a dict whose [payload] is missing or
    empty, nothing is sent, [send_audio_chunk] is not called and the loop
    goes on.  When [media] is not a dict, reading its payload raises
    AttributeError, which ends the loop; nothing is sent either. *)
Theorem media_without_audio_is_skipped (st : call) (fields : list (string * json)) :
  receiver st = Live tt ->
  is_event "media" (frame fields) = true ->
  (Py.assoc "media" fields = None ->
   step (Telephony (frame fields)) st = heard_only (frame fields) st) /\
  (forall media,
      Py.assoc "media" fields = Some (JObj media) ->
      Py.truthy (item "payload" media) = false ->
      step (Telephony (frame fields)) st = heard_only (frame fields) st) /\
  (forall v,
      Py.assoc "media" fields = Some v ->
      (forall media, v <> JObj media) ->
      step (Telephony (frame fields)) st =
      receiver_ended (Raise AttributeError) (frame fields) st).
Proof.
  intros Hl Hm.
  assert (Hs : is_event "start" (frame fields) = false).
  { apply (is_event_exclusive "media" "start" _ Hm). discriminate. }
  pose proof (receive_media fields (bridge st) Hs Hm) as E.
  unfold media_payload, frame in E. fold (frame fields) in E.
  rewrite Hm in E. simpl Py.getitem in E.
  split; [|split].
  - intros Hnone. rewrite Hnone in E. apply (receiver_turn_quiet _ _ Hl E).
  - intros media Hsome Hp. rewrite Hsome in E.
    unfold Py.get, Py.get_default in E. unfold item in Hp. rewrite Hp in E.
    apply (receiver_turn_quiet _ _ Hl E).
  - intros v Hsome Hv. rewrite Hsome in E.
    apply (receiver_turn_raised _ _ _ Hl).
    destruct v; try exact E. now destruct (Hv fields0).
Qed.

Lemma media_without_audio_is_skipped_witness :
  let fields := [("event", JStr "media"); ("media", JObj [("payload", JStr "")])] in
  step (Telephony (frame fields)) (entered default_config) =
  heard_only (frame fields) (entered default_config).
Proof.
  exact (proj1 (proj2 (media_without_audio_is_skipped (entered default_config)
                         [("event", JStr "media"); ("media", JObj [("payload", JStr "")])]
                         eq_refl eq_refl))
           [("payload", JStr "")] eq_refl eq_refl).
Defined.

(** X8.  A frame that cannot be read ends the inbound loop with the error
    of the reading, before anything is done with it: text that is not JSON
    raises the decoding error, and JSON that is not an object raises
    AttributeError at the first [payload.get].  The bridge is left as it
    was and nothing is sent to either peer. *)
Theorem unreadable_frame_ends_loop (st : call) :
  receiver st = Live tt ->
  step (Telephony (Received Malformed)) st =
    receiver_ended (Raise JSONDecodeError) (Received Malformed) st /\
  forall value,
    (forall fields, value <> JObj fields) ->
    step (Telephony (Received (Wellformed value))) st =
    receiver_ended (Raise AttributeError) (Received (Wellformed value)) st.
Proof.
  intros Hl. split.
  - now apply receiver_turn_raised.
  - intros value Hv. apply (receiver_turn_raised _ _ _ Hl).
    destruct value; try reflexivity. now destruct (Hv fields).
Qed.

Lemma unreadable_frame_ends_loop_witness :
  step (Telephony (Received Malformed)) (entered default_config) =
    receiver_ended (Raise JSONDecodeError) (Received Malformed) (entered default_config) /\
  step (Telephony (Received (Wellformed (JArr [])))) (entered default_config) =
    receiver_ended (Raise AttributeError) (Received (Wellformed (JArr [])))
      (entered default_config).
Proof.
  split.
  - exact (proj1 (unreadable_frame_ends_loop (entered default_config) eq_refl)).
  - apply (proj2 (unreadable_frame_ends_loop (entered default_config) eq_refl)).
    discriminate.
Defined.

Lemma not_done_no_exception {P : Type} (t : task P) :
  done t = false -> exception t = None.
Proof. now destruct t. Qed.

(** X9.  The telephony peer hangs up while both loops run: the inbound
    loop ends without flushing, so no [input_audio_buffer.commit] and no
    [response.create] are sent and no frame goes to the telephony peer;
    [run] asks the outbound loop to cancel, closes the realtime connection
    if it is still open, and returns without an error. *)
Theorem hang_up_ends_run_without_flush
  (cfg : OpenAIConfig) (receiver_first : bool) (schedule : list label) :
  let st := exec schedule (entered cfg) in
  receiver st = Live tt ->
  done (forwarder st) = false ->
  exists st',
    run cfg true receiver_first (schedule ++ [Telephony WebSocketDisconnect]) =
      Exited (Ok tt) st' /\
    ai_messages (log st') = ai_messages (log st) /\
    ws_frames (log st') = ws_frames (log st) /\
    closes (log st') =
      (if Client.is_connected (_openai_client (bridge st)) then 1 else 0) /\
    (forall pc, forwarder st' <> Live pc) /\
    _connection (_openai_client (bridge st')) = None.
Proof.
  cbv zeta. intros Hl Hf.
  rewrite run_entered, exec_snoc.
  pose proof (exec_closes cfg schedule) as Hz.
  set (st := exec schedule (entered cfg)) in *.
  rewrite (receiver_turn_result WebSocketDisconnect st (Ok Break) (bridge st) [] Hl eq_refl).
  unfold supervise. cbn [receiver forwarder end_of_turn done orb].
  unfold first_exception, cancel_pending.
  cbn [receiver forwarder exception cancel].
  assert (Hc : exception (cancel (forwarder st)) = None).
  { destruct (forwarder st) as [pc|pc|r|]; try reflexivity. discriminate. }
  rewrite Hc.
  exists (aexit {| bridge := bridge st;
                   receiver := Done (Ok tt);
                   forwarder := cancel (forwarder st);
                   log := log st ++ [];
                   heard := heard st ++ [WebSocketDisconnect] |}).
  split; [now destruct receiver_first|].
  unfold aexit. rewrite close_result. cbn [log bridge forwarder receiver].
  rewrite app_nil_r, ai_messages_app, ws_frames_app, closes_app, Hz.
  assert (Hq : forall b : bool,
             ai_messages (if b then [AiClose] else []) = [] /\
             ws_frames (if b then [AiClose] else []) = [] /\
             closes (if b then [AiClose] else []) = (if b then 1 else 0)).
  { intros []; repeat split. }
  destruct (Hq (Client.is_connected (_openai_client (bridge st)))) as (-> & -> & ->).
  rewrite !app_nil_r. repeat split.
  intros pc. destruct (forwarder st) as [pc'|pc'|r|];
    destruct (Client.is_connected _); discriminate.
Qed.

Lemma hang_up_ends_run_without_flush_witness :
  exists st',
    run default_config true true
      ([Telephony (start_event "s1"); Telephony (media_event "QUJD")] ++
       [Telephony WebSocketDisconnect]) = Exited (Ok tt) st' /\
    ai_messages (log st') =
      [Client.session_update default_config; Client.append_message (JStr "QUJD")] /\
    ws_frames (log st') = [Bridge.ready_frame] /\
    closes (log st') = 1 /\
    (forall pc, forwarder st' <> Live pc) /\
    _connection (_openai_client (bridge st')) = None.
Proof.
  exact (hang_up_ends_run_without_flush default_config true
           [Telephony (start_event "s1"); Telephony (media_event "QUJD")]
           eq_refl eq_refl).
Defined.

(** X10.  A [media] event with audio is forwarded whether or not the
    session is ready: the turn calls [send_audio_chunk] once with
    [end_of_input = False], which on a connected client sends one
    [input_audio_buffer.append] and lets the loop go on, and on a lost
    connection raises the not-connected error, which ends the loop.  The
    bridge (stream identifier, readiness, client) is left as it was. *)
Theorem media_event_turn (st : call) (received : sw_recv) (audio : json) :
  receiver st = Live tt ->
  media_payload received = Some audio ->
  step (Telephony received) st =
  {| bridge := bridge st;
     receiver :=
       if Client.is_connected (_openai_client (bridge st))
       then Live tt else Done (Raise not_connected);
     forwarder := forwarder st;
     log :=
       log st ++
       Invoke_send_audio_chunk audio false ::
       (if Client.is_connected (_openai_client (bridge st))
        then [AiSend (Client.append_message audio)] else []);
     heard := heard st ++ [received] |}.
Proof.
  intros Hl Hm.
  destruct (receive_iteration_normal received (bridge st)) as (res & _ & E).
  unfold turn_outcome in E.
  rewrite (is_event_exclusive "media" "start" _ (media_payload_is_media _ _ Hm)) in E
    by discriminate.
  rewrite Hm in E. unfold chunk_sent in E.
  rewrite (receiver_turn_result _ _ _ _ _ Hl E).
  now destruct (Client.is_connected _).
Qed.

Lemma media_event_turn_witness :
  step (Telephony (media_event "QUJD")) (entered default_config) =
  {| bridge := bridge (entered default_config);
     receiver := Live tt;
     forwarder := Live AwaitReady;
     log := log (entered default_config) ++
            [Invoke_send_audio_chunk (JStr "QUJD") false;
             AiSend (Client.append_message (JStr "QUJD"))];
     heard := [media_event "QUJD"] |}.
Proof.
  exact (media_event_turn (entered default_config) (media_event "QUJD") (JStr "QUJD")
           eq_refl eq_refl).
Defined.

(** ** The outbound loop: events that are not forwarded *)

Lemma forwarder_turn_reading (st : call) :
  reading st ->
  _ready (bridge st) = true ->
  exists gen,
    (gen = Client.Iterating \/
     Client.is_connected (_openai_client (bridge st)) = true) /\
    step Forwarder st = forwarder_run gen st.
Proof.
  intros [Hf|[Hf Hc]] Hr; simpl; unfold forwarder_turn; rewrite Hf, ?Hr.
  - exists Client.Iterating. auto.
  - exists Client.Fresh. auto.
Qed.

Lemma responses_reading (gen : Client.generator) (c : OpenAIRealtimeClient) :
  gen = Client.Iterating \/ Client.is_connected c = true ->
  Client.responses gen c = Client.next_message c.
Proof.
  intros [->|H]; [reflexivity|now apply responses_connected].
Qed.

Lemma inbox_first (st : call) (first : ai_item) (rest : list ai_item) :
  inbox st = first :: rest ->
  exists k,
    _connection (_openai_client (bridge st)) = Some k /\
    messages k = first :: rest /\
    popped (bridge st) =
      set_client (with_waiting rest (_openai_client (bridge st))) (bridge st).
Proof.
  unfold inbox, popped, waiting.
  destruct (_connection (_openai_client (bridge st))) as [k|]; [|discriminate].
  intros H. exists k. rewrite H. auto.
Qed.

(** A turn of the forwarder that finds a message waiting. *)
Lemma forwarder_turn_first (st : call) (first : ai_item) (rest : list ai_item) :
  reading st ->
  _ready (bridge st) = true ->
  inbox st = first :: rest ->
  step Forwarder st =
  match first with
  | AiMessage (Wellformed event) =>
      {| bridge := snd (fst (Bridge.forward_event event (popped (bridge st))));
         receiver := receiver st;
         forwarder :=
           match fst (fst (Bridge.forward_event event (popped (bridge st)))) with
           | Ok _ => Live InLoop
           | Raise e => Done (Raise e)
           end;
         log := log st ++ snd (Bridge.forward_event event (popped (bridge st)));
         heard := heard st |}
  | AiMessage Malformed => forwarder_took (Done (Raise JSONDecodeError)) st
  | AiClosedOK => forwarder_took (Done (Ok tt)) st
  | AiClosedError => forwarder_took (Done (Raise ConnectionClosedError)) st
  end.
Proof.
  intros Hread Hr Hin.
  destruct (forwarder_turn_reading st Hread Hr) as (gen & Hg & ->).
  destruct (inbox_first st first rest Hin) as (k & Hk & Hm & Hp).
  unfold forwarder_run, forwarder_took, Bridge.forward_iteration, bind, Bridge.on_client.
  rewrite Hp, (responses_reading gen _ Hg), (next_message_pop _ k first rest Hk Hm).
  destruct first as [[event|]| |]; simpl; rewrite ?app_nil_r; try reflexivity.
  destruct (Bridge.forward_event event _) as [[[u|e] b] out]; simpl;
    now rewrite ?app_nil_r.
Qed.

Lemma forward_event_other (fields : list (string * json)) (b : SignalWireRealtimeBridge) :
  Py.eq_str (item "type" fields) "response.output_audio.delta" = false ->
  Bridge.forward_event (JObj fields) b = (Ok tt, b, []).
Proof.
  intros H. unfold Bridge.forward_event. simpl Py.get. rewrite bind_ok.
  fold (item "type" fields). rewrite H.
  destruct (Py.eq_str _ "response.completed"); [reflexivity|].
  now destruct (Py.eq_str _ "error").
Qed.

(** X11.  An event of the realtime service that is not an audio delta (a
    [response.completed], an [error], any other type, or no type at all)
    does not end the outbound loop: the turn takes it off the connection,
    sends nothing to either peer, leaves the session as it was, and the
    loop goes on to the next event. *)
Theorem other_realtime_events_are_passed_over
  (st : call) (event : json) (rest : list ai_item) :
  reading st ->
  _ready (bridge st) = true ->
  inbox st = AiMessage (Wellformed event) :: rest ->
  event_other_than "response.output_audio.delta" event ->
  step Forwarder st = forwarder_took (Live InLoop) st /\
  inbox (step Forwarder st) = rest.
Proof.
  intros Hread Hr Hin (fields & -> & Ht).
  rewrite (forwarder_turn_first st _ rest Hread Hr Hin).
  rewrite (forward_event_other fields _ Ht). simpl.
  unfold forwarder_took. rewrite app_nil_r. split; [reflexivity|].
  destruct (inbox_first st _ rest Hin) as (k & Hk & _ & ->).
  unfold inbox. simpl. now rewrite (with_waiting_connection rest _ k Hk).
Qed.

Lemma other_realtime_events_are_passed_over_witness :
  let st := exec [Telephony (start_event "s1");
                  Realtime (AiMessage (Wellformed (JObj [("type", JStr "error")])));
                  Realtime (delta_message "ZFJD")] (entered default_config) in
  step Forwarder st = forwarder_took (Live InLoop) st /\
  inbox (step Forwarder st) = [delta_message "ZFJD"].
Proof.
  refine (other_realtime_events_are_passed_over
            (exec [Telephony (start_event "s1");
                   Realtime (AiMessage (Wellformed (JObj [("type", JStr "error")])));
                   Realtime (delta_message "ZFJD")] (entered default_config))
            (JObj [("type", JStr "error")]) [delta_message "ZFJD"] _ eq_refl eq_refl _).
  - right. split; reflexivity.
  - eexists. split; reflexivity.
Defined.

Lemma popped_session (b : SignalWireRealtimeBridge) :
  _stream_id (popped b) = _stream_id b /\ _ready (popped b) = _ready b.
Proof. split; reflexivity. Qed.

(** X12.  An audio delta read while the bridge has no stream identifier is
    dropped ([_send_audio_to_signalwire] returns at its guard): the turn
    takes the event off the connection and sends nothing, and the loop
    goes on.  The identifier is unset in a ready session after a [start]
    event without identifier has followed the first one. *)
Theorem delta_without_identifier_is_dropped
  (st : call) (audio : json) (rest : list ai_item) :
  reading st ->
  _ready (bridge st) = true ->
  Py.truthy (_stream_id (bridge st)) = false ->
  Py.truthy audio = true ->
  inbox st = AiMessage (Wellformed (audio_delta audio)) :: rest ->
  step Forwarder st = forwarder_took (Live InLoop) st.
Proof.
  intros Hread Hr Hs Ha Hin.
  rewrite (forwarder_turn_first st _ rest Hread Hr Hin).
  rewrite (forward_event_delta audio _ Ha).
  rewrite (proj1 (popped_session (bridge st))), Hs. simpl.
  unfold forwarder_took. now rewrite app_nil_r.
Qed.

Lemma delta_without_identifier_is_dropped_witness :
  let st := exec [Telephony (start_event "s1"); Telephony bare_start_event;
                  Realtime (delta_message "ZFJD")] (entered default_config) in
  step Forwarder st = forwarder_took (Live InLoop) st.
Proof.
  refine (delta_without_identifier_is_dropped
            (exec [Telephony (start_event "s1"); Telephony bare_start_event;
                   Realtime (delta_message "ZFJD")] (entered default_config))
            (JStr "ZFJD") [] _ eq_refl eq_refl eq_refl eq_refl).
  right. split; reflexivity.
Defined.

(** X13.  An audio delta event without audio: when [event.get("delta",
    {})] is a dict whose [audio] is missing or empty (in particular when
    the event has no [delta] at all), the event is passed over, nothing is
    sent and the loop goes on; when [delta] is not a dict (a string, for
    one), [delta.get] raises AttributeError, which ends the outbound loop,
    nothing being sent. *)
Theorem delta_without_audio
  (st : call) (fields : list (string * json)) (rest : list ai_item) :
  reading st ->
  _ready (bridge st) = true ->
  inbox st = AiMessage (Wellformed (JObj fields)) :: rest ->
  Py.eq_str (item "type" fields) "response.output_audio.delta" = true ->
  (forall delta,
      delta_of fields = JObj delta ->
      Py.truthy (item "audio" delta) = false ->
      step Forwarder st = forwarder_took (Live InLoop) st) /\
  ((forall delta, delta_of fields <> JObj delta) ->
   step Forwarder st = forwarder_took (Done (Raise AttributeError)) st).
Proof.
  intros Hread Hr Hin Ht.
  rewrite (forwarder_turn_first st _ rest Hread Hr Hin).
  assert (E : forall b,
             Bridge.forward_event (JObj fields) b =
             bind (of_result (Py.get "audio" (delta_of fields)))
               (fun audio_chunk =>
                  if Py.truthy audio_chunk
                  then Bridge._send_audio_to_signalwire audio_chunk
                  else ret tt) b).
  { intros b. unfold Bridge.forward_event. simpl Py.get at 1. rewrite bind_ok.
    fold (item "type" fields). rewrite Ht.
    simpl Py.get_default. now rewrite bind_ok. }
  rewrite E. split.
  - intros delta Hd Ha. rewrite Hd. simpl Py.get. rewrite bind_ok.
    fold (item "audio" delta). rewrite Ha. simpl.
    unfold forwarder_took. now rewrite app_nil_r.
  - intros Hd.
    assert (Hg : Py.get "audio" (delta_of fields) = Raise AttributeError).
    { destruct (delta_of fields) eqn:D; try reflexivity. now destruct (Hd fields0). }
    rewrite Hg, bind_raised. simpl.
    unfold forwarder_took. now rewrite app_nil_r.
Qed.

Lemma delta_without_audio_witness :
  let fields := [("type", JStr "response.output_audio.delta"); ("delta", JStr "ZFJD")] in
  let st := exec [Telephony (start_event "s1");
                  Realtime (AiMessage (Wellformed (JObj fields)))]
              (entered default_config) in
  step Forwarder st = forwarder_took (Done (Raise AttributeError)) st.
Proof.
  refine (proj2 (delta_without_audio
                   (exec [Telephony (start_event "s1");
                          Realtime (AiMessage (Wellformed
                            (JObj [("type", JStr "response.output_audio.delta");
                                   ("delta", JStr "ZFJD")])))]
                      (entered default_config))
                   [("type", JStr "response.output_audio.delta"); ("delta", JStr "ZFJD")]
                   [] _ eq_refl eq_refl eq_refl) _).
  - right. split; reflexivity.
  - discriminate.
Defined.

(** X14.  How the outbound loop ends.  A normal closure of the realtime
    connection ends the event sequence and with it the loop, without an
    error; a lost connection ends the loop with the connection error; a
    message that is not JSON ends it with the decoding error, and an event
    that is not an object with AttributeError.  In each case nothing is
    sent to either peer. *)
Theorem outbound_loop_endings (st : call) (rest : list ai_item) :
  reading st ->
  _ready (bridge st) = true ->
  (inbox st = AiClosedOK :: rest ->
   step Forwarder st = forwarder_took (Done (Ok tt)) st) /\
  (inbox st = AiClosedError :: rest ->
   step Forwarder st = forwarder_took (Done (Raise ConnectionClosedError)) st) /\
  (inbox st = AiMessage Malformed :: rest ->
   step Forwarder st = forwarder_took (Done (Raise JSONDecodeError)) st) /\
  (forall event,
      (forall fields, event <> JObj fields) ->
      inbox st = AiMessage (Wellformed event) :: rest ->
      step Forwarder st = forwarder_took (Done (Raise AttributeError)) st).
Proof.
  intros Hread Hr. repeat split; try intros event Hev; intros Hin;
    rewrite (forwarder_turn_first st _ rest Hread Hr Hin); try reflexivity.
  assert (E : forall b, Bridge.forward_event event b = (Raise AttributeError, b, [])).
  { intros b. destruct event; try reflexivity. now destruct (Hev fields). }
  rewrite E. simpl. unfold forwarder_took. now rewrite app_nil_r.
Qed.

Lemma outbound_loop_endings_witness :
  let st := exec [Telephony (start_event "s1"); Forwarder; Realtime AiClosedOK]
              (entered default_config) in
  step Forwarder st = forwarder_took (Done (Ok tt)) st.
Proof.
  refine (proj1 (outbound_loop_endings
                   (exec [Telephony (start_event "s1"); Forwarder; Realtime AiClosedOK]
                      (entered default_config)) [] _ eq_refl) eq_refl).
  left. reflexivity.
Defined.

(** X15.  When the readiness event is set after the realtime connection
    has been closed or lost, the outbound loop fails as soon as it starts:
    the first request to [responses()] raises the not-connected error,
    whatever the connection still holds, and no event is read. *)
Theorem outbound_loop_needs_the_connection (st : call) :
  forwarder st = Live AwaitReady ->
  _ready (bridge st) = true ->
  Client.is_connected (_openai_client (bridge st)) = false ->
  step Forwarder st =
  {| bridge := bridge st;
     receiver := receiver st;
     forwarder := Done (Raise not_connected);
     log := log st;
     heard := heard st |}.
Proof.
  intros Hf Hr Hc. simpl. unfold forwarder_turn, forwarder_run. rewrite Hf, Hr.
  unfold Bridge.forward_iteration, bind, Bridge.on_client.
  rewrite (responses_fresh_not_connected _ Hc), set_client_same. simpl.
  now rewrite app_nil_r.
Qed.

Lemma outbound_loop_needs_the_connection_witness :
  let st := exec [Realtime (delta_message "ZFJD"); Realtime AiClosedOK;
                  Telephony (start_event "s1")] (entered default_config) in
  step Forwarder st =
  {| bridge := bridge st;
     receiver := receiver st;
     forwarder := Done (Raise not_connected);
     log := log st;
     heard := heard st |}.
Proof.
  exact (outbound_loop_needs_the_connection
           (exec [Realtime (delta_message "ZFJD"); Realtime AiClosedOK;
                  Telephony (start_event "s1")] (entered default_config))
           eq_refl eq_refl eq_refl).
Defined.

(** ** What a run sends, as a whole *)

Lemma forward_event_sends (event : json) (b : SignalWireRealtimeBridge) :
  exists res out,
    Bridge.forward_event event b = (res, b, out) /\
    (out = [] \/
     exists audio,
       Py.truthy (_stream_id b) = true /\
       Py.truthy audio = true /\
       out = [WsSend (Bridge.media_frame (_stream_id b) audio)]).
Proof.
  destruct event as [ | | | | |fields];
    try (exists (Raise AttributeError), []; split; [reflexivity|now left]).
  destruct (Py.eq_str (item "type" fields) "response.output_audio.delta") eqn:Ht.
  2: { exists (Ok tt), []. split; [now apply forward_event_other|now left]. }
  unfold Bridge.forward_event. simpl Py.get at 1. rewrite bind_ok.
  fold (item "type" fields). rewrite Ht.
  simpl Py.get_default. rewrite bind_ok. fold (delta_of fields).
  destruct (delta_of fields) as [ | | | | |delta];
    try (exists (Raise AttributeError), []; split; [reflexivity|now left]).
  simpl Py.get. rewrite bind_ok. fold (item "audio" delta).
  destruct (Py.truthy (item "audio" delta)) eqn:Ha.
  2: { exists (Ok tt), []. split; [reflexivity|now left]. }
  unfold Bridge._send_audio_to_signalwire, Bridge._send_signalwire.
  rewrite bind_read.
  destruct (Py.truthy (_stream_id b)) eqn:Hs; simpl negb; cbv iota.
  - eexists (Ok tt), _. split; [reflexivity|]. right.
    exists (item "audio" delta). auto.
  - exists (Ok tt), []. split; [reflexivity|now left].
Qed.

Lemma forward_iteration_sends (gen : Client.generator) (b : SignalWireRealtimeBridge) :
  forall res b' out, Bridge.forward_iteration gen b = (res, b', out) ->
  out = [] \/
  exists audio,
    Py.truthy (_stream_id b) = true /\
    Py.truthy audio = true /\
    out = [WsSend (Bridge.media_frame (_stream_id b) audio)].
Proof.
  intros res b' out. unfold Bridge.forward_iteration, bind, Bridge.on_client.
  destruct (Client.responses gen (_openai_client b)) as [[next c'] o] eqn:E.
  destruct (responses_effect gen (_openai_client b) next c') as (Ho & _).
  { now rewrite E. }
  rewrite E in Ho. simpl in Ho. subst o.
  destruct next as [[event| |]|e]; try (intros [= <- <- <-]; now left).
  destruct (forward_event_sends event (set_client c' b)) as (r & o & -> & Hout).
  destruct r; simpl; intros [= <- <- <-]; simpl in *; rewrite ?app_nil_r; exact Hout.
Qed.

Lemma sendable_more (frames more : list sw_recv) (f : json) :
  sendable frames f -> sendable (frames ++ more) f.
Proof.
  intros [H|(r & a & Hin & H)]; [now left|right].
  exists r, a. split; [apply in_or_app; now left|exact H].
Qed.

(** The stream identifier, when there is one, is that of a [start] event
    heard; and every frame sent is [sendable]. *)
Lemma stamped_with_a_heard_identifier (cfg : OpenAIConfig) (schedule : list label) :
  (Py.truthy (_stream_id (bridge (exec schedule (entered cfg)))) = true ->
   exists received,
     In received (heard (exec schedule (entered cfg))) /\
     is_event "start" received = true /\
     stream_identifier received = _stream_id (bridge (exec schedule (entered cfg)))) /\
  Forall (sendable (heard (exec schedule (entered cfg))))
    (ws_frames (log (exec schedule (entered cfg)))).
Proof.
  apply (exec_ind
           (fun _ st =>
              (Py.truthy (_stream_id (bridge st)) = true ->
               exists received,
                 In received (heard st) /\
                 is_event "start" received = true /\
                 stream_identifier received = _stream_id (bridge st)) /\
              Forall (sendable (heard st)) (ws_frames (log st)))).
  { split; [discriminate|constructor]. }
  clear schedule. intros schedule l [IHs IHf].
  set (st := exec schedule (entered cfg)) in *.
  destruct l as [received|item|].
  - destruct (receiver_live_or_not st) as [Hl|Hl];
      [|rewrite (step_telephony_idle _ _ Hl); auto].
    destruct (step_telephony_live received st Hl) as (res & _ & ->).
    destruct (turn_outcome res received (bridge st)) as [[x b'] out] eqn:E.
    destruct (turn_outcome_effect _ _ _ _ _ _ E) as (_ & _ & Hs & Hw & _).
    cbn [bridge log heard fst snd]. split.
    + rewrite Hs. destruct (is_event "start" received) eqn:S.
      * intros _. exists received. split; [apply in_or_app; simpl; auto|auto].
      * intros Ht. destruct (IHs Ht) as (r & Hin & Hr). exists r.
        split; [apply in_or_app; now left|exact Hr].
    + rewrite ws_frames_app, Hw. apply Forall_app. split.
      * eapply Forall_impl; [|exact IHf]. intros f. apply sendable_more.
      * destruct (start_with_identifier received); [|constructor].
        apply Forall_cons; [now left|constructor].
  - simpl. auto.
  - destruct (step_forwarder st) as [->|(gen & res & b' & out & _ & E & ->)]; [auto|].
    destruct (forward_iteration_effect _ _ _ _ _ E) as (Hs & _).
    cbn [bridge log heard]. rewrite Hs. split; [exact IHs|].
    rewrite ws_frames_app. apply Forall_app. split; [exact IHf|].
    destruct (forward_iteration_sends _ _ _ _ _ E) as [->|(audio & Ht & Ha & ->)];
      [constructor|].
    destruct (IHs Ht) as (r & Hin & Hstart & Hid).
    apply Forall_cons; [|constructor]. right. exists r, audio.
    rewrite Hid. auto 6.
Qed.

(** X16.  In every run, every frame sent to the telephony peer is either
    the [ready] frame or a [media] frame that carries non-empty audio and
    is stamped with the non-empty stream identifier of a [start] event the
    inbound loop has heard: no other kind of frame is ever sent, and no
    audio is sent under an identifier the telephony peer did not give. *)
Theorem frames_are_ready_or_stamped_media (cfg : OpenAIConfig) (schedule : list label) :
  Forall (sendable (heard (exec schedule (entered cfg))))
    (ws_frames (log (exec schedule (entered cfg)))).
Proof. exact (proj2 (stamped_with_a_heard_identifier cfg schedule)). Qed.

(** X17.  In every run, what the realtime service is sent is, in order:
    the [session.update] of the connection; then one
    [{"type": "input_audio_buffer.append", "audio": chunk}] for each audio
    chunk of the frames the inbound loop has processed, in their order of
    arrival, these frames being those of the run up to the one that ended
    the loop (all of them while the loop runs); then at most one
    [{"type": "input_audio_buffer.commit"}] followed by
    [{"type": "response.create", "response": {}}], sent by the [stop] or
    [close] turn that ends the inbound loop.  One chunk only can be
    processed and not sent: the last one, when it finds the realtime
    connection closed or lost, which ends the loop with the not-connected
    error.  Nothing follows the flush, and neither loop sends anything
    else. *)
Theorem realtime_service_receives
  (cfg : OpenAIConfig) (schedule : list label) :
  let st := exec schedule (entered cfg) in
  exists processed later chunks flush,
    frames_of schedule = processed ++ later /\
    (receiver st = Live tt -> later = []) /\
    ai_messages (log st) =
      Client.session_update cfg ::
      map (fun audio =>
             JObj [("type", JStr "input_audio_buffer.append"); ("audio", audio)])
        chunks ++ flush /\
    (flush = [] \/
     (flush = [JObj [("type", JStr "input_audio_buffer.commit")];
               JObj [("type", JStr "response.create"); ("response", JObj [])]] /\
      receiver st = Done (Ok tt))) /\
    (media_payloads processed = chunks \/
     exists lost,
       media_payloads processed = chunks ++ [lost] /\
       receiver st = Done (Raise (RuntimeError "Realtime client not connected"))) /\
    (receiver st <> Live tt ->
     exists before last,
       processed = before ++ [last] /\
       (keeps_listening last = false \/
        receiver st = Done (Raise (RuntimeError "Realtime client not connected")))).
Proof.
  cbv zeta.
  destruct (exec_heard schedule (entered cfg)) as (later & Hlater & Hlive).
  destruct (inbound_shape cfg schedule) as (chunks & flush & Hai & Hflush & Hheard).
  exists (heard (exec schedule (entered cfg))), later, chunks, flush.
  split; [exact Hlater|]. split; [exact Hlive|]. split; [exact Hai|].
  split; [exact Hflush|]. split; [exact Hheard|].
  exact (inbound_loop_ended cfg schedule).
Qed.

(** X18.  When the realtime connection cannot be opened, [run] raises the
    error of the handshake after having accepted the telephony websocket:
    no loop is started, whatever the peers would send, no frame goes to
    the telephony peer, nothing is sent to the realtime service and there
    is no connection to close.  With a successful handshake [run] never
    ends that way. *)
Theorem run_without_realtime_connection
  (cfg : OpenAIConfig) (handshake receiver_first : bool) (schedule : list label) :
  (handshake = false ->
   exists out,
     run cfg handshake receiver_first schedule = Refused HandshakeError out /\
     hd_error out = Some WsAccept /\
     ws_frames out = [] /\ ai_messages out = [] /\ closes out = 0) /\
  (handshake = true ->
   forall e out, run cfg handshake receiver_first schedule <> Refused e out).
Proof.
  split; intros ->.
  - eexists. split; [reflexivity|]. repeat split.
  - intros e out. rewrite run_entered. unfold supervise.
    destruct (done _ || done _); [|discriminate].
    destruct (first_exception _ _); discriminate.
Qed.

(** ** Loading the configuration *)

Lemma truthy_str_some (value : option string) (s : string) :
  truthy_str value = Some s <-> value = Some s /\ s <> "".
Proof.
  unfold truthy_str. destruct value as [v|].
  - destruct (String.eqb_spec v "") as [->|Hne]; split.
    + discriminate.
    + intros [[= <-] H]. now destruct H.
    + intros [= ->]. auto.
    + now intros [[= ->] _].
  - split; [discriminate|now intros [? _]].
Qed.

Lemma truthy_str_set (env : environ) (name : string) :
  is_set env name <-> exists s, truthy_str (getenv env name) = Some s.
Proof.
  unfold is_set, getenv. split; intros [s H]; exists s; now apply truthy_str_some.
Qed.

Lemma truthy_str_unset (env : environ) (name : string) :
  truthy_str (getenv env name) = None -> ~ is_set env name.
Proof.
  intros H Hs. apply truthy_str_set in Hs. destruct Hs as [s Hs]. congruence.
Qed.

(** X19.  [Settings.load] returns settings exactly when the four
    variables [OPENAI_API_KEY], [SIGNALWIRE_SPACE_URL],
    [SIGNALWIRE_PROJECT_ID] and [SIGNALWIRE_API_TOKEN] are set to
    something other than the empty string; no other variable can make it
    fail. *)
Theorem load_needs_four_variables (env : environ) :
  (exists settings, Settings_load env = Ok settings) <->
  is_set env "OPENAI_API_KEY" /\
  is_set env "SIGNALWIRE_SPACE_URL" /\
  is_set env "SIGNALWIRE_PROJECT_ID" /\
  is_set env "SIGNALWIRE_API_TOKEN".
Proof.
  rewrite !truthy_str_set. unfold Settings_load.
  destruct (truthy_str (getenv env "OPENAI_API_KEY")) as [key|];
    [|split; [intros [? [=]]|intros [[? [=]] _]]].
  destruct (truthy_str (getenv env "SIGNALWIRE_SPACE_URL")) as [space|];
    [|split; [intros [? [=]]|intros (_ & [? [=]] & _)]].
  destruct (truthy_str (getenv env "SIGNALWIRE_PROJECT_ID")) as [project|];
    [|split; [intros [? [=]]|intros (_ & _ & [? [=]] & _)]].
  destruct (truthy_str (getenv env "SIGNALWIRE_API_TOKEN")) as [token|];
    [|split; [intros [? [=]]|intros (_ & _ & _ & [? [=]])]].
  split; eauto 10.
Qed.

(** X20.  When [Settings.load] raises, it raises one of two
    [RuntimeError]s, and the key of the realtime service is looked at
    first: without it the message names [OPENAI_API_KEY] whatever the
    other variables are; the message naming the three telephony variables
    is raised only when the key is set and one of the three is missing or
    empty. *)
Theorem load_errors (env : environ) (e : exn) :
  Settings_load env = Raise e ->
  (e = RuntimeError "OPENAI_API_KEY is required" /\
   ~ is_set env "OPENAI_API_KEY") \/
  (e = RuntimeError
         "SIGNALWIRE_SPACE_URL, SIGNALWIRE_PROJECT_ID, and SIGNALWIRE_API_TOKEN are required" /\
   is_set env "OPENAI_API_KEY" /\
   ~ (is_set env "SIGNALWIRE_SPACE_URL" /\
      is_set env "SIGNALWIRE_PROJECT_ID" /\
      is_set env "SIGNALWIRE_API_TOKEN")).
Proof.
  unfold Settings_load.
  destruct (truthy_str (getenv env "OPENAI_API_KEY")) as [key|] eqn:Hk.
  2: { intros [= <-]. left. split; [reflexivity|now apply truthy_str_unset]. }
  assert (Hkey : is_set env "OPENAI_API_KEY") by (apply truthy_str_set; eauto).
  destruct (truthy_str (getenv env "SIGNALWIRE_SPACE_URL")) eqn:Hs.
  2: { intros [= <-]. right. repeat split; auto.
       intros (H & _). now apply truthy_str_unset in Hs. }
  destruct (truthy_str (getenv env "SIGNALWIRE_PROJECT_ID")) eqn:Hp.
  2: { intros [= <-]. right. repeat split; auto.
       intros (_ & H & _). now apply truthy_str_unset in Hp. }
  destruct (truthy_str (getenv env "SIGNALWIRE_API_TOKEN")) eqn:Ht.
  2: { intros [= <-]. right. repeat split; auto.
       intros (_ & _ & H). now apply truthy_str_unset in Ht. }
  discriminate.
Qed.

Lemma load_errors_witness :
  exists e,
    Settings_load (environment [("SIGNALWIRE_SPACE_URL", "example.signalwire.com");
                                ("OPENAI_API_KEY", "")]) = Raise e /\
    e = RuntimeError "OPENAI_API_KEY is required".
Proof.
  eexists. split; [reflexivity|].
  destruct (load_errors
              (environment [("SIGNALWIRE_SPACE_URL", "example.signalwire.com");
                            ("OPENAI_API_KEY", "")]) _ eq_refl)
    as [[H _]|[H _]]; [exact H|discriminate H].
Defined.

Lemma connect_new_client (cfg : OpenAIConfig) :
  snd (Client.connect true (new_client cfg)) =
  [AiConnect (OPENAI_REALTIME_URL ++ "?model=" ++ model cfg)%string
     [("Authorization", ("Bearer " ++ api_key cfg)%string);
      ("OpenAI-Beta", "realtime=v1")];
   AiSend (Client.session_update cfg)].
Proof. reflexivity. Qed.

(** X21.  What the loaded settings make [connect] send.  The model in
    the URL and the voice of the [session.update] are the values of
    [OPENAI_REALTIME_MODEL] and [OPENAI_VOICE] whenever these are set,
    also when set to the empty string: the defaults are used only for a
    variable that is not set.  The key is sent as a bearer token.
    [VOICE_AGENT_SYSTEM_PROMPT] becomes the instructions of the session
    unless it is missing or empty. *)
Theorem loaded_settings_at_connect (env : environ) (settings : Settings) :
  Settings_load env = Ok settings ->
  exists key,
    env "OPENAI_API_KEY" = Some key /\ key <> "" /\
    snd (Client.connect true (new_client (openai settings))) =
    [AiConnect
       ("wss://api.openai.com/v1/realtime?model=" ++
        match env "OPENAI_REALTIME_MODEL" with
        | Some m => m
        | None => "gpt-4o-realtime-mini"
        end)%string
       [("Authorization", ("Bearer " ++ key)%string);
        ("OpenAI-Beta", "realtime=v1")];
     AiSend
       (JObj [("type", JStr "session.update");
              ("session",
                JObj (("voice",
                        JStr match env "OPENAI_VOICE" with
                             | Some v => v
                             | None => "verse"
                             end) ::
                      match env "VOICE_AGENT_SYSTEM_PROMPT" with
                      | Some text =>
                          if (text =? "")%string then []
                          else [("instructions", JStr text)]
                      | None => []
                      end))])].
Proof.
  unfold Settings_load.
  destruct (truthy_str (getenv env "OPENAI_API_KEY")) as [key|] eqn:Hk; [|discriminate].
  destruct (truthy_str (getenv env "SIGNALWIRE_SPACE_URL")); [|discriminate].
  destruct (truthy_str (getenv env "SIGNALWIRE_PROJECT_ID")); [|discriminate].
  destruct (truthy_str (getenv env "SIGNALWIRE_API_TOKEN")); [|discriminate].
  intros [= <-]. apply truthy_str_some in Hk. destruct Hk as [Hk Hne].
  exists key. split; [exact Hk|]. split; [exact Hne|].
  rewrite connect_new_client. unfold Client.session_update, getenv, getenv_default.
  cbn [model voice api_key instructions openai].
  destruct (env "VOICE_AGENT_SYSTEM_PROMPT") as [text|]; [|reflexivity].
  now destruct (text =? "")%string.
Qed.

Lemma loaded_settings_at_connect_witness :
  exists settings url headers rest,
    Settings_load
      (environment (("OPENAI_REALTIME_MODEL", "") :: required_variables)) = Ok settings /\
    snd (Client.connect true (new_client (openai settings))) =
      AiConnect url headers :: rest /\
    url = "wss://api.openai.com/v1/realtime?model=".
Proof.
  eexists. 
  destruct (loaded_settings_at_connect
              (environment (("OPENAI_REALTIME_MODEL", "") :: required_variables))
              _ eq_refl) as (key & _ & _ & H).
  do 3 eexists. split; [reflexivity|]. split; [exact H|reflexivity].
Defined.

(** ** The voice webhook *)

(** X22.  With settings loaded from the environment, the voice webhook
    answers with an [application/xml] document that tells the telephony
    service to connect the call to a stream.  The document is the template
    without the white space around it, the inner indentation kept, and
    the URL copied into the attribute as it is, without any escaping.  The
    URL is the value of [SIGNALWIRE_STREAM_URL]; when that variable is
    missing or empty it is the placeholder
    [wss://YOUR_SERVER_DOMAIN/signalwire/stream]. *)
Theorem webhook_streams_to_configured_url (env : environ) (settings : Settings) :
  Settings_load env = Ok settings ->
  media_type (signalwire_voice_webhook settings) = "application/xml" /\
  content (signalwire_voice_webhook settings) =
    ("<Response>" ++ newline ++
     "        <Connect>" ++ newline ++
     "            <Stream url=" ++ quote ++
     match env "SIGNALWIRE_STREAM_URL" with
     | Some url => if (url =? "") then "wss://YOUR_SERVER_DOMAIN/signalwire/stream" else url
     | None => "wss://YOUR_SERVER_DOMAIN/signalwire/stream"
     end ++ quote ++ "/>" ++ newline ++
     "        </Connect>" ++ newline ++
     "    </Response>")%string.
Proof.
  unfold Settings_load.
  destruct (truthy_str (getenv env "OPENAI_API_KEY")); [|discriminate].
  destruct (truthy_str (getenv env "SIGNALWIRE_SPACE_URL")); [|discriminate].
  destruct (truthy_str (getenv env "SIGNALWIRE_PROJECT_ID")); [|discriminate].
  destruct (truthy_str (getenv env "SIGNALWIRE_API_TOKEN")); [|discriminate].
  intros [= <-]. split; [reflexivity|].
  unfold signalwire_voice_webhook, truthy_str, getenv.
  cbn [content signalwire stream_url].
  destruct (env "SIGNALWIRE_STREAM_URL") as [url|];
    [destruct (url =? "")%string|]; reflexivity.
Qed.

Lemma webhook_streams_to_configured_url_witness :
  exists settings,
    Settings_load
      (environment (("SIGNALWIRE_STREAM_URL", "") :: required_variables)) = Ok settings /\
    content (signalwire_voice_webhook settings) =
      ("<Response>" ++ newline ++
       "        <Connect>" ++ newline ++
       "            <Stream url=" ++ quote ++
       "wss://YOUR_SERVER_DOMAIN/signalwire/stream" ++ quote ++ "/>" ++ newline ++
       "        </Connect>" ++ newline ++
       "    </Response>")%string.
Proof.
  eexists. split; [reflexivity|].
  exact (proj2 (webhook_streams_to_configured_url
                  (environment (("SIGNALWIRE_STREAM_URL", "") :: required_variables))
                  _ eq_refl)).
Defined.
